(** * Business analytics agent: metrics, alerts, report and conversation

    A shallow embedding of [main.py] (the graph of the metrics, the
    alerts and the report) and of [business-agent.py] (the conversation
    controller and the analysis step), and the properties of the
    specification stated and proved over it.

    Layout: the model, in the order of the two programs and with the
    names of their functions; the vocabulary of the statements; the
    properties, each claim of the specification under its number; then
    further properties of the code, program by program: the processing,
    analysis and recommendation nodes and the whole graph of [main.py],
    the check of the alerts in [simple_test_file.py], and the data
    table, the controller, the analysis of a day, the JSON texts, the
    saved file and the main loop of [business-agent.py].

    Modelling conventions.
    - A Python [int] is a [Z].  A Python [float] is the rational number it
      denotes, with exact arithmetic ([Q], kept in lowest terms); there
      is no NaN and no infinity.  [x / y] raises [ZeroDivisionError] when
      [y] is zero, as in Python.
    - A Python [str] is a [string] whose characters are the code points
      U+0000 to U+00FF.  A character beyond them in a literal of the
      programs (the emoji of the messages) stands as the bytes of its
      UTF-8 form.
    - A [dict] with a fixed set of keys is a record; a [dict] used as a
      table, and the dicts of a report, are association lists in
      insertion order.
    - A function that can raise returns a [result].
    - A call to the language model is a parameter: the text it answers,
      or the exception of a failed call.  The prompts, which nothing
      reads but the model, and the [print] calls are left out.
    - The lines the user types at the main loop are a list, each with
      the answers the model gives in its turn; a file is the text
      written to it. *)

From Stdlib Require Import ZArith QArith Qround Qabs Bool List String Ascii Lia.
From Stdlib Require Import Lqa Permutation Sorted.
Import ListNotations.

Local Open Scope Z_scope.

(** ** Exceptions and results *)

Inductive exn : Type :=
| ZeroDivisionError
| KeyError
| ValueError
| OverflowError
| LLMError.

Inductive result (A : Type) : Type :=
| Ok (a : A)
| Raise (e : exn).

Arguments Ok {A} a.
Arguments Raise {A} e.

Definition bind {A B : Type} (r : result A) (k : A -> result B) : result B :=
  match r with
  | Ok a => k a
  | Raise e => Raise e
  end.

Notation "'let*' x ':=' r 'in' k" := (bind r (fun x => k))
  (at level 10, x pattern, r at level 100, k at level 200).

(** ** Python numbers *)

Module Num.

Inductive num : Type :=
| PInt (z : Z)
| PFloat (q : Q).

Definition to_Q (n : num) : Q :=
  match n with
  | PInt z => inject_Z z
  | PFloat q => q
  end.

(** Python's [==], [<], [<=], [>] on numbers compare the values. *)
Definition eqb (a b : num) : bool := Qeq_bool (to_Q a) (to_Q b).
Definition leb (a b : num) : bool := Qle_bool (to_Q a) (to_Q b).
Definition ltb (a b : num) : bool := negb (Qle_bool (to_Q b) (to_Q a)).
Definition gtb (a b : num) : bool := ltb b a.

(** [a - b]: an [int] when both are, a [float] otherwise. *)
Definition sub (a b : num) : num :=
  match a, b with
  | PInt x, PInt y => PInt (x - y)
  | _, _ => PFloat (Qred (to_Q a - to_Q b))
  end.

(** [a * b]. *)
Definition mul (a b : num) : num :=
  match a, b with
  | PInt x, PInt y => PInt (x * y)
  | _, _ => PFloat (Qred (to_Q a * to_Q b))
  end.

(** [a / b]: true division, always a [float]; a zero divisor raises. *)
Definition div (a b : num) : result num :=
  if Qeq_bool (to_Q b) 0 then Raise ZeroDivisionError
  else Ok (PFloat (Qred (to_Q a / to_Q b))).

(** [abs(a)]. *)
Definition abs (a : num) : num :=
  match a with
  | PInt z => PInt (Z.abs z)
  | PFloat q => PFloat (Qabs q)
  end.

(** The integer nearest to [q], ties going to the even one. *)
Definition round_half_even (q : Q) : Z :=
  let fl := Qfloor q in
  match Qcompare (q - inject_Z fl) (1 # 2) with
  | Lt => fl
  | Gt => fl + 1
  | Eq => if Z.even fl then fl else fl + 1
  end.

(** [round(a, 2)]: an [int] is returned as it is, a [float] is rounded to
    two decimal places. *)
Definition round2 (a : num) : num :=
  match a with
  | PInt z => PInt z
  | PFloat q => PFloat (Qred (inject_Z (round_half_even (q * 100)) / 100))
  end.

End Num.

Import Num.

Definition hundred : num := PInt 100.
Definition zero : num := PInt 0.

(** ** Text of numbers

    [str(n)] of an [int], and the [repr] of a [float]: the shortest decimal
    text that reads back as the same number.  For the rational a float
    denotes that text is its exact decimal expansion; a rational with no
    finite expansion (no float denotes one) is printed with 17 significant
    digits, the most Python prints. *)

Module Text.

Local Open Scope string_scope.
Local Open Scope Z_scope.

Definition digit_char (d : Z) : ascii := ascii_of_nat (48 + Z.to_nat d).

Definition is_digit (c : ascii) : bool :=
  let n := nat_of_ascii c in (48 <=? n)%nat && (n <=? 57)%nat.

Definition digit_val (c : ascii) : Z := Z.of_nat (nat_of_ascii c) - 48.

(** The last [k] decimal digits of [n], most significant first, before
    [acc]. *)
Fixpoint fixed_digits (k : nat) (n : Z) (acc : string) : string :=
  match k with
  | O => acc
  | S k' => fixed_digits k' (n / 10) (String (digit_char (n mod 10)) acc)
  end.

(** How many decimal digits [n >= 0] has (one for zero). *)
Fixpoint count_digits (fuel : nat) (n : Z) : nat :=
  match fuel with
  | O => 1
  | S f => if n <? 10 then 1%nat else S (count_digits f (n / 10))
  end.

Definition num_digits (n : Z) : nat := count_digits (Z.to_nat (Z.log2 n)) n.

(** Decimal text of [n >= 0]. *)
Definition str_nat (n : Z) : string := fixed_digits (num_digits n) n "".

(** [str(z)] of an [int]. *)
Definition str_int (z : Z) : string :=
  if z <? 0 then String "-" (str_nat (- z)) else str_nat z.

(** The number a run of digits denotes, continuing from [acc]. *)
Fixpoint value_of_digits (acc : Z) (s : string) : Z :=
  match s with
  | EmptyString => acc
  | String c s' => value_of_digits (10 * acc + digit_val c) s'
  end.

(** The least [k <= fuel] with [den] dividing [10 ^ k], when there is
    one. *)
Fixpoint places_from (fuel : nat) (k : nat) (den : Z) : option nat :=
  if (10 ^ Z.of_nat k) mod den =? 0 then Some k
  else match fuel with
       | O => None
       | S f => places_from f (S k) den
       end.

(** The number of decimal places of [q] in lowest terms, [None] when its
    expansion does not end. *)
Definition decimal_places (q : Q) : option nat :=
  let den := Z.pos (Qden (Qred q)) in
  places_from (Z.to_nat (Z.log2 den)) 0 den.

(** [n] without its trailing zeros, and how many were dropped. *)
Fixpoint strip_zeros (fuel : nat) (n : Z) (t : Z) : Z * Z :=
  match fuel with
  | O => (n, t)
  | S f => if (n mod 10 =? 0) && negb (n =? 0)
           then strip_zeros f (n / 10) (t + 1) else (n, t)
  end.

(** Exponent text: a sign and at least two digits. *)
Definition str_exp (e : Z) : string :=
  let a := Z.abs e in
  String (if e <? 0 then "-"%char else "+"%char)
         (if a <? 10 then String "0" (str_nat a) else str_nat a).

(** Text of [n / 10 ^ k] for [n >= 0]: positional when the value is in
    [1e-4, 1e16) or zero, scientific otherwise. *)
Definition repr_decimal (n : Z) (k : nat) : string :=
  let p := 10 ^ Z.of_nat k in
  if (n =? 0) || ((p <=? n * 10 ^ 4) && (n <? p * 10 ^ 16))
  then str_nat (n / p) ++ "." ++
       (match k with O => "0" | _ => fixed_digits k n "" end)
  else
    let '(m, t) := strip_zeros (Z.to_nat (Z.log2 n)) n 0 in
    let d := num_digits m in
    let lead := m / 10 ^ Z.of_nat (d - 1) in
    str_nat lead ++
    (match d with
     | S (S d') => "." ++ fixed_digits (S d') m ""
     | _ => ""
     end) ++ "e" ++ str_exp (Z.of_nat d - 1 + t - Z.of_nat k).

Definition pow10Q (e : Z) : Q :=
  if 0 <=? e then inject_Z (10 ^ e) else / inject_Z (10 ^ (- e)).

(** The largest [d' >= d] within [fuel] steps with [10 ^ d' <= a]. *)
Fixpoint decimal_exponent_from (fuel : nat) (d : Z) (a : Q) : Z :=
  match fuel with
  | O => d
  | S f => if Qle_bool (pow10Q (d + 1)) a
           then decimal_exponent_from f (d + 1) a else d
  end.

(** [a > 0] rounded to 17 significant digits, as [n / 10 ^ k]. *)
Definition round_sig17 (a : Q) : Z * nat :=
  let l := Z.log2 (Qnum a) - Z.log2 (Z.pos (Qden a)) - 1 in
  let d0 := if 0 <=? l then l * 3 / 10 else l * 4 / 10 - 1 in
  let e := decimal_exponent_from (Z.to_nat (Z.abs l) + 3) d0 a in
  let k := 16 - e in
  if 0 <=? k
  then (Num.round_half_even (a * pow10Q k), Z.to_nat k)
  else (Num.round_half_even (a * pow10Q k) * 10 ^ (- k), O).

(** [repr(x)] of a [float]. *)
Definition float_repr (q : Q) : string :=
  let r := Qred q in
  let sign := if Qnum r <? 0 then "-" else "" in
  match decimal_places r with
  | Some k =>
      sign ++ repr_decimal
                (Z.abs (Qnum r) * (10 ^ Z.of_nat k / Z.pos (Qden r))) k
  | None => let '(n, k) := round_sig17 (Qabs r) in sign ++ repr_decimal n k
  end.

(** [str(x)], as the f-string [f"{x}"] renders a number. *)
Definition py_str (a : Num.num) : string :=
  match a with
  | Num.PInt z => str_int z
  | Num.PFloat q => float_repr q
  end.

End Text.

Import Text.

(** ** Python values

    The values a report or an oracle answer is made of: what [json.dumps]
    writes and [json.loads] returns.  A [dict] keeps its keys in insertion
    order. *)

#[warnings="-register-all"]
Inductive pyval : Type :=
| VNone
| VBool (b : bool)
| VNum (n : num)
| VStr (s : string)
| VList (l : list pyval)
| VDict (d : list (string * pyval)).

(** [d[k]] for a key that may be absent. *)
Fixpoint assoc {A : Type} (k : string) (d : list (string * A)) : option A :=
  match d with
  | [] => None
  | (k', v) :: d' => if String.eqb k k' then Some v else assoc k d'
  end.

(** [v[k]] on a value: [None] when [v] is not a dict or lacks the key. *)
Definition get (v : pyval) (k : string) : option pyval :=
  match v with
  | VDict d => assoc k d
  | _ => None
  end.

(** ** JSON text: [json.dumps(v, indent=2)] and [json.loads(s)]

    Modelled on Python's [json] module: the encoder with [ensure_ascii]
    and the two-space indentation both programs ask for, the decoder with
    its number grammar and its strict strings.  What has no value in this
    model is refused by the decoder: the literals [NaN] and [Infinity],
    and an escape beyond U+00FF. *)

Module Json.

Local Open Scope string_scope.

Definition dq : ascii := "034"%char.
Definition lf : ascii := "010"%char.
Definition backslash : ascii := "\"%char.

Definition hex_char (n : nat) : ascii :=
  if (n <? 10)%nat then ascii_of_nat (48 + n) else ascii_of_nat (87 + n).

Definition hex_val (c : ascii) : option nat :=
  let n := nat_of_ascii c in
  if (48 <=? n)%nat && (n <=? 57)%nat then Some (n - 48)%nat
  else if (97 <=? n)%nat && (n <=? 102)%nat then Some (n - 87)%nat
  else if (65 <=? n)%nat && (n <=? 70)%nat then Some (n - 55)%nat
  else None.

(** One character inside a JSON string: the short escapes, [\u00XX] for
    what is not printable ASCII, the character itself otherwise. *)
Definition escape_char (c : ascii) : string :=
  let n := nat_of_ascii c in
  if (n =? 34)%nat then String backslash (String dq "")
  else if (n =? 92)%nat then "\\"
  else if (n =? 10)%nat then "\n"
  else if (n =? 13)%nat then "\r"
  else if (n =? 9)%nat then "\t"
  else if (n =? 12)%nat then "\f"
  else if (n =? 8)%nat then "\b"
  else if (n <? 32)%nat || (126 <? n)%nat
  then "\u00" ++ String (hex_char (n / 16)) (String (hex_char (n mod 16)) "")
  else String c "".

Fixpoint escape (s : string) : string :=
  match s with
  | EmptyString => ""
  | String c s' => escape_char c ++ escape s'
  end.

Definition dump_string (s : string) : string :=
  String dq (escape s ++ String dq "").

Definition dump_num (n : num) : string := py_str n.

Fixpoint spaces (n : nat) : string :=
  match n with
  | O => ""
  | S n' => String " " (spaces n')
  end.

(** A line break and the indentation of nesting level [lvl]. *)
Definition newline_indent (lvl : nat) : string :=
  String lf (spaces (2 * lvl)).

(** The text of [v] at nesting level [lvl]. *)
Fixpoint dumps_at (lvl : nat) (v : pyval) : string :=
  match v with
  | VNone => "null"
  | VBool true => "true"
  | VBool false => "false"
  | VNum n => dump_num n
  | VStr s => dump_string s
  | VList [] => "[]"
  | VList (x :: xs) =>
      "[" ++ newline_indent (S lvl) ++ dumps_at (S lvl) x ++
      (fix items (l : list pyval) : string :=
         match l with
         | [] => newline_indent lvl ++ "]"
         | y :: l' =>
             "," ++ newline_indent (S lvl) ++ dumps_at (S lvl) y ++ items l'
         end) xs
  | VDict [] => "{}"
  | VDict ((k, x) :: xs) =>
      "{" ++ newline_indent (S lvl) ++ dump_string k ++ ": " ++
      dumps_at (S lvl) x ++
      (fix items (l : list (string * pyval)) : string :=
         match l with
         | [] => newline_indent lvl ++ "}"
         | (k', y) :: l' =>
             "," ++ newline_indent (S lvl) ++ dump_string k' ++ ": " ++
             dumps_at (S lvl) y ++ items l'
         end) xs
  end.

(** [json.dumps(v, indent=2)]. *)
Definition dumps (v : pyval) : string := dumps_at 0 v.

(** *** Decoder *)

Definition is_ws (c : ascii) : bool :=
  let n := nat_of_ascii c in
  (n =? 32)%nat || (n =? 9)%nat || (n =? 10)%nat || (n =? 13)%nat.

Fixpoint skip_ws (s : string) : string :=
  match s with
  | String c s' => if is_ws c then skip_ws s' else s
  | EmptyString => s
  end.

(** The characters of a string up to its closing quote, and what follows
    the quote.  A raw control character, an unknown escape and an escape
    beyond U+00FF are refused. *)
Fixpoint scan_string (s : string) : option (string * string) :=
  match s with
  | EmptyString => None
  | String c s1 =>
      if Ascii.eqb c dq then Some ("", s1)
      else if Ascii.eqb c backslash then
        match s1 with
        | String e s2 =>
            let plain (x : ascii) :=
              match scan_string s2 with
              | Some (t, r) => Some (String x t, r)
              | None => None
              end in
            if Ascii.eqb e dq then plain dq
            else if Ascii.eqb e backslash then plain backslash
            else if Ascii.eqb e "/" then plain "/"%char
            else if Ascii.eqb e "b" then plain "008"%char
            else if Ascii.eqb e "f" then plain "012"%char
            else if Ascii.eqb e "n" then plain "010"%char
            else if Ascii.eqb e "r" then plain "013"%char
            else if Ascii.eqb e "t" then plain "009"%char
            else if Ascii.eqb e "u" then
              match s2 with
              | String h1 (String h2 (String h3 (String h4 s3))) =>
                  match hex_val h1, hex_val h2, hex_val h3, hex_val h4 with
                  | Some 0%nat, Some 0%nat, Some a, Some b =>
                      match scan_string s3 with
                      | Some (t, r) =>
                          Some (String (ascii_of_nat (16 * a + b)) t, r)
                      | None => None
                      end
                  | _, _, _, _ => None
                  end
              | _ => None
              end
            else None
        | EmptyString => None
        end
      else if (nat_of_ascii c <? 32)%nat then None
      else
        match scan_string s1 with
        | Some (t, r) => Some (String c t, r)
        | None => None
        end
  end.

(** The longest run of digits at the start of [s], and the rest. *)
Fixpoint span_digits (s : string) : string * string :=
  match s with
  | String c s' =>
      if is_digit c
      then let '(d, r) := span_digits s' in (String c d, r)
      else ("", s)
  | EmptyString => ("", s)
  end.

(** The integer part of a number: [0], or a run that starts with a digit
    from 1 to 9. *)
Definition scan_int_part (s : string) : option (string * string) :=
  match s with
  | String c s' =>
      if Ascii.eqb c "0" then Some ("0", s')
      else if is_digit c then Some (span_digits s)
      else None
  | EmptyString => None
  end.

(** An optional fraction: a point and at least one digit. *)
Definition scan_frac (s : string) : option string * string :=
  match s with
  | String "." s' =>
      match span_digits s' with
      | (EmptyString, _) => (None, s)
      | (d, r) => (Some d, r)
      end
  | _ => (None, s)
  end.

(** An optional exponent: [e] or [E], an optional sign, at least one
    digit. *)
Definition scan_exp (s : string) : option Z * string :=
  match s with
  | String c s' =>
      if Ascii.eqb c "e" || Ascii.eqb c "E" then
        let '(neg, s2) :=
          match s' with
          | String "-" t => (true, t)
          | String "+" t => (false, t)
          | _ => (false, s')
          end in
        match span_digits s2 with
        | (EmptyString, _) => (None, s)
        | (d, r) =>
            let v := value_of_digits 0 d in
            (Some (if neg then (- v)%Z else v), r)
        end
      else (None, s)
  | EmptyString => (None, s)
  end.

(** The digits of a number after its sign: an integer when there is
    neither fraction nor exponent, a rational otherwise. *)
Definition scan_magnitude (s : string) : option ((Z + Q) * string) :=
  match scan_int_part s with
  | None => None
  | Some (i, s1) =>
      let '(f, s2) := scan_frac s1 in
      let '(e, s3) := scan_exp s2 in
      match f, e with
      | None, None => Some (inl (value_of_digits 0 i), s3)
      | _, _ =>
          let fd := match f with Some d => d | None => "" end in
          let ex := match e with Some x => x | None => 0%Z end in
          Some (inr (inject_Z (value_of_digits 0 (i ++ fd)) *
                     pow10Q (ex - Z.of_nat (String.length fd)))%Q, s3)
      end
  end.

(** A number: an [int] when it has neither fraction nor exponent, a
    [float] otherwise. *)
Definition scan_number (s : string) : option (num * string) :=
  let '(neg, s0) :=
    match s with
    | String "-" t => (true, t)
    | _ => (false, s)
    end in
  match scan_magnitude s0 with
  | Some (inl v, r) => Some (PInt (if neg then (- v)%Z else v), r)
  | Some (inr v, r) => Some (PFloat (Qred (if neg then (- v)%Q else v)), r)
  | None => None
  end.

(** [s] without the prefix [p], when it starts with it. *)
Fixpoint strip_prefix (p s : string) : option string :=
  match p, s with
  | EmptyString, _ => Some s
  | String a p', String b s' =>
      if Ascii.eqb a b then strip_prefix p' s' else None
  | _, _ => None
  end.

(** [d[k] = v] on a dict in insertion order. *)
Fixpoint dict_set (k : string) (v : pyval) (d : list (string * pyval))
  : list (string * pyval) :=
  match d with
  | [] => [(k, v)]
  | (k', v') :: d' =>
      if String.eqb k k' then (k', v) :: d' else (k', v') :: dict_set k v d'
  end.

(** The dict of a list of pairs, a later pair replacing an earlier one
    with the same key. *)
Definition dict_of_pairs (l : list (string * pyval))
  : list (string * pyval) :=
  fold_left (fun d kv => dict_set (fst kv) (snd kv) d) l [].

(** [s] after the character [c], when it starts with it. *)
Definition expect (c : ascii) (s : string) : option string :=
  match s with
  | String x r => if Ascii.eqb x c then Some r else None
  | EmptyString => None
  end.

(** One value at the start of [s]; [fuel] bounds the nesting and the
    number of items. *)
Fixpoint scan_value (fuel : nat) (s : string) : option (pyval * string) :=
  match fuel with
  | O => None
  | S f =>
      match s with
      | EmptyString => None
      | String c s1 =>
          if Ascii.eqb c "[" then
            match expect "]" (skip_ws s1) with
            | Some r => Some (VList [], r)
            | None =>
                match scan_items f (skip_ws s1) with
                | Some (l, r) => Some (VList l, r)
                | None => None
                end
            end
          else if Ascii.eqb c "{" then
            match expect "}" (skip_ws s1) with
            | Some r => Some (VDict [], r)
            | None =>
                match scan_members f (skip_ws s1) with
                | Some (l, r) => Some (VDict (dict_of_pairs l), r)
                | None => None
                end
            end
          else if Ascii.eqb c dq then
            match scan_string s1 with
            | Some (t, r) => Some (VStr t, r)
            | None => None
            end
          else
            match strip_prefix "null" s, strip_prefix "true" s,
                  strip_prefix "false" s with
            | Some r, _, _ => Some (VNone, r)
            | _, Some r, _ => Some (VBool true, r)
            | _, _, Some r => Some (VBool false, r)
            | _, _, _ =>
                match scan_number s with
                | Some (n, r) => Some (VNum n, r)
                | None => None
                end
            end
      end
  end

with scan_items (fuel : nat) (s : string) : option (list pyval * string) :=
  match fuel with
  | O => None
  | S f =>
      match scan_value f s with
      | None => None
      | Some (v, r) =>
          match expect "]" (skip_ws r) with
          | Some r' => Some ([v], r')
          | None =>
              match expect "," (skip_ws r) with
              | Some r' =>
                  match scan_items f (skip_ws r') with
                  | Some (l, r2) => Some (v :: l, r2)
                  | None => None
                  end
              | None => None
              end
          end
      end
  end

with scan_members (fuel : nat) (s : string)
  : option (list (string * pyval) * string) :=
  match fuel with
  | O => None
  | S f =>
      match expect dq s with
      | None => None
      | Some s1 =>
          match scan_string s1 with
          | None => None
          | Some (k, r) =>
              match expect ":" (skip_ws r) with
              | None => None
              | Some r1 =>
                  match scan_value f (skip_ws r1) with
                  | None => None
                  | Some (v, r2) =>
                      match expect "}" (skip_ws r2) with
                      | Some r3 => Some ([(k, v)], r3)
                      | None =>
                          match expect "," (skip_ws r2) with
                          | Some r3 =>
                              match scan_members f (skip_ws r3) with
                              | Some (l, r4) => Some ((k, v) :: l, r4)
                              | None => None
                              end
                          | None => None
                          end
                      end
                  end
              end
          end
      end
  end.

(** [json.loads(s)]: one value, white space around it and nothing else;
    [None] stands for the exception [JSONDecodeError].  The length of the
    text bounds the nesting and the number of items, so it is fuel
    enough. *)
Definition loads (s : string) : option pyval :=
  match scan_value (S (String.length s)) (skip_ws s) with
  | Some (v, r) =>
      match skip_ws r with
      | EmptyString => Some v
      | _ => None
      end
  | None => None
  end.

(** A [float] in lowest terms whose decimal expansion ends: every float
    of Python is one. *)
Definition canonical (q : Q) : bool :=
  ((Qnum (Qred q) =? Qnum q) && (Z.pos (Qden (Qred q)) =? Z.pos (Qden q)))%Z.

Definition printable (n : num) : bool :=
  match n with
  | PInt _ => true
  | PFloat q =>
      canonical q &&
      match decimal_places q with Some _ => true | None => false end
  end.

Fixpoint distinct (l : list string) : bool :=
  match l with
  | [] => true
  | k :: l' => negb (existsb (String.eqb k) l') && distinct l'
  end.

(** A value as Python holds it: printable numbers, and no key twice in a
    dict. *)
Fixpoint json_ok (v : pyval) : bool :=
  match v with
  | VNum n => printable n
  | VList l => forallb json_ok l
  | VDict d =>
      distinct (map fst d) && forallb (fun kv => json_ok (snd kv)) d
  | _ => true
  end.

(** A bound on the fuel [scan_value] needs to read [v] back. *)
Fixpoint scan_cost (v : pyval) : nat :=
  match v with
  | VList l =>
      S ((fix go (l : list pyval) : nat :=
            match l with
            | [] => O
            | x :: l' => S (scan_cost x + go l')
            end) l)
  | VDict d =>
      S ((fix go (d : list (string * pyval)) : nat :=
            match d with
            | [] => O
            | kv :: d' => S (scan_cost (snd kv) + go d')
            end) d)
  | _ => 1
  end.

End Json.

(** ** The state of the analytics graph ([main.py]) *)

(** [today_data] / [yesterday_data]: the four keys the nodes read. *)
Record DailyRecord : Type := {
  revenue : num;
  cost : num;
  customers : Z;
  marketing_cost : num
}.

(** The [metrics] dict built by [processing_node]. *)
Record Metrics : Type := {
  today_profit : num;
  yesterday_profit : num;
  today_cac : num;
  yesterday_cac : num;
  revenue_change : num;
  cost_change : num;
  profit_change : num;
  cac_change : num;
  customer_growth : num;
  today_roi : num;
  yesterday_roi : num
}.

(** [BusinessState]. *)
Record BusinessState : Type := {
  today_data : DailyRecord;
  yesterday_data : DailyRecord;
  metrics : Metrics;
  profit_status : string;
  alerts : list string;
  recommendations : list string;
  final_report : pyval
}.

Local Open Scope string_scope.

(** [input_node]: the sample data replaces whatever the state held. *)
Definition sample_today : DailyRecord :=
  {| revenue := PInt 12000; cost := PInt 8000; customers := 150;
     marketing_cost := PInt 2000 |}.

Definition sample_yesterday : DailyRecord :=
  {| revenue := PInt 10000; cost := PInt 7500; customers := 120;
     marketing_cost := PInt 1800 |}.

Definition input_node (state : BusinessState) : BusinessState :=
  {| today_data := sample_today;
     yesterday_data := sample_yesterday;
     metrics := metrics state;
     profit_status := profit_status state;
     alerts := alerts state;
     recommendations := recommendations state;
     final_report := final_report state |}.

(** The arithmetic of [processing_node], lines 72 to 102 and 107, on the
    two records.  A conditional expression evaluates its quotient only
    when its guard holds; the three quotients written without a guard are
    evaluated always. *)
Definition compute_metrics (today yesterday : DailyRecord)
  : result (Metrics * string) :=
  let today_profit := sub (revenue today) (cost today) in
  let yesterday_profit := sub (revenue yesterday) (cost yesterday) in
  let* today_cac :=
    if (customers today >? 0)%Z
    then div (marketing_cost today) (PInt (customers today))
    else Ok zero in
  let* yesterday_cac :=
    if (customers yesterday >? 0)%Z
    then div (marketing_cost yesterday) (PInt (customers yesterday))
    else Ok zero in
  let* r := div (sub (revenue today) (revenue yesterday)) (revenue yesterday) in
  let revenue_change := mul r hundred in
  let* c := div (sub (cost today) (cost yesterday)) (cost yesterday) in
  let cost_change := mul c hundred in
  let* profit_change :=
    if negb (eqb yesterday_profit zero)
    then let* p := div (sub today_profit yesterday_profit)
                       (abs yesterday_profit) in
         Ok (mul p hundred)
    else Ok zero in
  let* cac_change :=
    if gtb yesterday_cac zero
    then let* p := div (sub today_cac yesterday_cac) yesterday_cac in
         Ok (mul p hundred)
    else Ok zero in
  let* g := div (PInt (customers today - customers yesterday))
                (PInt (customers yesterday)) in
  let customer_growth := mul g hundred in
  let* today_roi :=
    if gtb (cost today) zero
    then let* p := div today_profit (cost today) in Ok (mul p hundred)
    else Ok zero in
  let* yesterday_roi :=
    if gtb (cost yesterday) zero
    then let* p := div yesterday_profit (cost yesterday) in Ok (mul p hundred)
    else Ok zero in
  Ok ({| today_profit := today_profit;
         yesterday_profit := yesterday_profit;
         today_cac := round2 today_cac;
         yesterday_cac := round2 yesterday_cac;
         revenue_change := round2 revenue_change;
         cost_change := round2 cost_change;
         profit_change := round2 profit_change;
         cac_change := round2 cac_change;
         customer_growth := round2 customer_growth;
         today_roi := round2 today_roi;
         yesterday_roi := round2 yesterday_roi |},
      if gtb today_profit zero then "positive" else "negative").

(** [processing_node]: the state with [metrics] and [profit_status]
    replaced, or the exception of the arithmetic. *)
Definition processing_node (state : BusinessState) : result BusinessState :=
  let* (m, status) :=
    compute_metrics (today_data state) (yesterday_data state) in
  Ok {| today_data := today_data state;
        yesterday_data := yesterday_data state;
        metrics := m;
        profit_status := status;
        alerts := alerts state;
        recommendations := recommendations state;
        final_report := final_report state |}.

(** The alert texts of [analysis_node]. *)
Definition alert_loss : string := "🚨 CRITICAL: You have losses today!".
Definition alert_cac_growth : string :=
  "⚠️ WARNING: Customer acquisition cost increased by more than 20%".
Definition alert_cac_level : string :=
  "⚠️ ALERT: Customer acquisition cost is higher than optimal".
Definition alert_cost : string :=
  "⚠️ CAUTION: Costs are growing faster than revenue".
Definition alert_revenue : string :=
  "🚨 URGENT: Revenue decreased by more than 10%".
Definition alert_roi : string :=
  "⚠️ LOW ROI: Return on investment is less than 10%".

(** The list [alerts] of [analysis_node], lines 115 to 137: each [if]
    appends to the list built so far. *)
Definition evaluate_alerts (m : Metrics) : list string :=
  let alerts := [] in
  let alerts :=
    if leb (today_profit m) zero then (alerts ++ [alert_loss])%list else alerts in
  let alerts :=
    if gtb (cac_change m) (PInt 20) then (alerts ++ [alert_cac_growth])%list
    else if gtb (today_cac m) (PInt 50) then (alerts ++ [alert_cac_level])%list
    else alerts in
  let alerts :=
    if gtb (cost_change m) (revenue_change m) && gtb (revenue_change m) zero
    then (alerts ++ [alert_cost])%list else alerts in
  let alerts :=
    if ltb (revenue_change m) (PInt (-10)) then (alerts ++ [alert_revenue])%list
    else alerts in
  let alerts :=
    if ltb (today_roi m) (PInt 10) then (alerts ++ [alert_roi])%list else alerts in
  alerts.

(** [analysis_node]. *)
Definition analysis_node (state : BusinessState) : BusinessState :=
  {| today_data := today_data state;
     yesterday_data := yesterday_data state;
     metrics := metrics state;
     profit_status := profit_status state;
     alerts := evaluate_alerts (metrics state);
     recommendations := recommendations state;
     final_report := final_report state |}.

(** [recommendation_node] asks the language model and splits its answer
    into lines, or falls back to a fixed list; to the rest of the graph
    its result is some list of strings. *)
Definition recommendation_node (result : list string) (state : BusinessState)
  : BusinessState :=
  {| today_data := today_data state;
     yesterday_data := yesterday_data state;
     metrics := metrics state;
     profit_status := profit_status state;
     alerts := alerts state;
     recommendations := result;
     final_report := final_report state |}.

(** The f-string [f"{x}%"]. *)
Definition percent (x : num) : string := py_str x ++ "%".

(** The dict [final_report] of [output_node], lines 231 to 251. *)
Definition build_report (state : BusinessState) : pyval :=
  VDict [
    ("business_summary", VDict [
       ("date", VStr "today");
       ("profit_loss_status", VStr (profit_status state));
       ("total_profit", VNum (today_profit (metrics state)));
       ("revenue", VNum (revenue (today_data state)));
       ("cost", VNum (cost (today_data state)));
       ("customers", VNum (PInt (customers (today_data state)))) ]);
    ("key_metrics", VDict [
       ("cac_today", VNum (today_cac (metrics state)));
       ("roi_today", VNum (today_roi (metrics state)));
       ("revenue_change", VStr (percent (revenue_change (metrics state))));
       ("cost_change", VStr (percent (cost_change (metrics state))));
       ("profit_change", VStr (percent (profit_change (metrics state))));
       ("customer_growth", VStr (percent (customer_growth (metrics state)))) ]);
    ("alerts", VList (map VStr (alerts state)));
    ("recommendations", VList (map VStr (recommendations state)));
    ("action_priority",
       VStr (if leb (today_profit (metrics state)) zero then "high"
             else if (0 <? List.length (alerts state))%nat then "medium"
             else "low")) ].

(** [output_node]. *)
Definition output_node (state : BusinessState) : BusinessState :=
  {| today_data := today_data state;
     yesterday_data := yesterday_data state;
     metrics := metrics state;
     profit_status := profit_status state;
     alerts := alerts state;
     recommendations := recommendations state;
     final_report := build_report state |}.

(** The graph of [create_business_graph]: input, processing, analysis,
    recommendations, output. *)
Definition run_graph (recs : list string) (initial : BusinessState)
  : result BusinessState :=
  let* s := processing_node (input_node initial) in
  Ok (output_node (recommendation_node recs (analysis_node s))).

Definition empty_metrics : Metrics :=
  {| today_profit := zero; yesterday_profit := zero; today_cac := zero;
     yesterday_cac := zero; revenue_change := zero; cost_change := zero;
     profit_change := zero; cac_change := zero; customer_growth := zero;
     today_roi := zero; yesterday_roi := zero |}.

(** ** Python string methods *)

Module Str.

Local Open Scope string_scope.

(** [c.isspace()] for a code point up to U+00FF. *)
Definition is_space (c : ascii) : bool :=
  let n := nat_of_ascii c in
  ((9 <=? n) && (n <=? 13) || (28 <=? n) && (n <=? 32) ||
   (n =? 133) || (n =? 160))%nat.

Fixpoint lstrip (s : string) : string :=
  match s with
  | String c s' => if is_space c then lstrip s' else s
  | EmptyString => s
  end.

Fixpoint rstrip (s : string) : string :=
  match s with
  | String c s' =>
      match rstrip s' with
      | EmptyString => if is_space c then "" else String c ""
      | r => String c r
      end
  | EmptyString => s
  end.

(** [s.strip()]. *)
Definition strip (s : string) : string := rstrip (lstrip s).

(** [c.lower()] for a code point up to U+00FF: A to Z, and the capital
    letters U+00C0 to U+00DE but the multiplication sign U+00D7. *)
Definition lower_char (c : ascii) : ascii :=
  let n := nat_of_ascii c in
  if ((65 <=? n) && (n <=? 90) ||
      (192 <=? n) && (n <=? 222) && negb (n =? 215))%nat
  then ascii_of_nat (n + 32) else c.

(** [s.lower()]. *)
Fixpoint lower (s : string) : string :=
  match s with
  | String c s' => String (lower_char c) (lower s')
  | EmptyString => s
  end.

(** [x in l] for a list of strings. *)
Definition mem (x : string) (l : list string) : bool :=
  existsb (String.eqb x) l.

(** The separator of the lines of a text. *)
Definition newline : string := String "010"%char "".

(** The format [f"{n:,}"] of an [int]: a comma before every group of
    three digits. *)
Fixpoint group_digits (s : string) : string :=
  match s with
  | String c s' =>
      String c
        (if (0 <? String.length s')%nat && (String.length s' mod 3 =? 0)%nat
         then String "," (group_digits s') else group_digits s')
  | EmptyString => s
  end.

Definition format_comma (z : Z) : string :=
  if (z <? 0)%Z then String "-" (group_digits (str_nat (- z)%Z))
  else group_digits (str_nat z).

(** The format [f"{x:.1f}"] of a [float]: one decimal place, the nearest
    one, ties to even. *)
Definition format_1f (q : Q) : string :=
  let n := Num.round_half_even (Qabs q * 10) in
  (if Qle_bool 0 q then "" else "-") ++
  str_nat (n / 10)%Z ++ "." ++ str_nat (n mod 10)%Z.

(** [s.split(sep)] for a separator of one character. *)
Fixpoint split (sep : ascii) (s : string) : list string :=
  match s with
  | EmptyString => [""]
  | String c s' =>
      if Ascii.eqb c sep then "" :: split sep s'
      else match split sep s' with
           | l :: ls => String c l :: ls
           | [] => [String c ""]
           end
  end.

(** [s.startswith(p)]. *)
Fixpoint startswith (p s : string) : bool :=
  match p, s with
  | EmptyString, _ => true
  | String a p', String b s' => Ascii.eqb a b && startswith p' s'
  | String _ _, EmptyString => false
  end.

(** [sub in s]. *)
Fixpoint contains (sub s : string) : bool :=
  startswith sub s ||
  match s with
  | String _ s' => contains sub s'
  | EmptyString => false
  end.

(** The slice [s[:n]]. *)
Fixpoint take (n : nat) (s : string) : string :=
  match n, s with
  | S n', String c s' => String c (take n' s')
  | _, _ => ""
  end.

End Str.

(** ** Calendar dates: [strptime], [timedelta(days=1)], [strftime] *)

Module Date.

Local Open Scope string_scope.
Local Open Scope Z_scope.

Record date : Type := { year : Z; month : Z; day : Z }.

Definition is_leap (y : Z) : bool :=
  (y mod 4 =? 0) && (negb (y mod 100 =? 0) || (y mod 400 =? 0)).

Definition days_in_month (y m : Z) : Z :=
  if m =? 2 then (if is_leap y then 29 else 28)
  else if (m =? 4) || (m =? 6) || (m =? 9) || (m =? 11) then 30
  else 31.

(** What the directive [%m] takes: [1[0-2]], else [0[1-9]], else
    [[1-9]]. *)
Definition scan_month (s : string) : option (Z * string) :=
  match s with
  | String a (String b r) =>
      let x := digit_val a in
      let y := digit_val b in
      if Ascii.eqb a "1" && is_digit b && (y <=? 2) then Some (10 + y, r)
      else if Ascii.eqb a "0" && is_digit b && (1 <=? y) then Some (y, r)
      else if is_digit a && (1 <=? x) then Some (x, String b r)
      else None
  | String a r =>
      let x := digit_val a in
      if is_digit a && (1 <=? x) then Some (x, r) else None
  | EmptyString => None
  end.

(** What the directive [%d] takes: [3[01]], else [[12][0-9]], else
    [0[1-9]], else [[1-9]], else a space and [[1-9]]. *)
Definition scan_day (s : string) : option (Z * string) :=
  match s with
  | String a (String b r) =>
      let x := digit_val a in
      let y := digit_val b in
      if Ascii.eqb a "3" && is_digit b && (y <=? 1) then Some (30 + y, r)
      else if is_digit a && (1 <=? x) && (x <=? 2) && is_digit b
      then Some (10 * x + y, r)
      else if Ascii.eqb a "0" && is_digit b && (1 <=? y) then Some (y, r)
      else if is_digit a && (1 <=? x) then Some (x, String b r)
      else if Ascii.eqb a " " && is_digit b && (1 <=? y) then Some (y, r)
      else None
  | String a r =>
      let x := digit_val a in
      if is_digit a && (1 <=? x) then Some (x, r) else None
  | EmptyString => None
  end.

(** [datetime.strptime(s, "%Y-%m-%d")]: four digits, a month, a day, and
    nothing after; the date must exist.  [ValueError] otherwise. *)
Definition strptime (s : string) : result date :=
  match s with
  | String y1 (String y2 (String y3 (String y4 (String "-" s1)))) =>
      if is_digit y1 && is_digit y2 && is_digit y3 && is_digit y4 then
        let y := value_of_digits 0
                   (String y1 (String y2 (String y3 (String y4 "")))) in
        match scan_month s1 with
        | Some (m, String "-" s2) =>
            match scan_day s2 with
            | Some (d, EmptyString) =>
                if (1 <=? y) && (d <=? days_in_month y m)
                then Ok {| year := y; month := m; day := d |}
                else Raise ValueError
            | _ => Raise ValueError
            end
        | _ => Raise ValueError
        end
      else Raise ValueError
  | _ => Raise ValueError
  end.

(** [d - timedelta(days=1)]; [OverflowError] before the first day. *)
Definition minus_one_day (d : date) : result date :=
  if 1 <? day d
  then Ok {| year := year d; month := month d; day := day d - 1 |}
  else if 1 <? month d
  then Ok {| year := year d; month := month d - 1;
             day := days_in_month (year d) (month d - 1) |}
  else if 1 <? year d
  then Ok {| year := year d - 1; month := 12; day := 31 |}
  else Raise OverflowError.

(** [d.strftime("%Y-%m-%d")], the year on four digits. *)
Definition strftime (d : date) : string :=
  fixed_digits 4 (year d) "" ++ "-" ++ fixed_digits 2 (month d) "" ++ "-" ++
  fixed_digits 2 (day d) "".

End Date.

(** ** The conversation ([business-agent.py]) *)

Local Open Scope string_scope.

Record DayData : Type := {
  day_revenue : Z;
  day_cost : Z;
  day_customers : Z
}.

Definition BUSINESS_DATA : list (string * DayData) :=
  [ ("2024-01-01", {| day_revenue := 8000; day_cost := 5000; day_customers := 80 |});
    ("2024-01-02", {| day_revenue := 10000; day_cost := 6000; day_customers := 100 |});
    ("2024-01-03", {| day_revenue := 7500; day_cost := 4800; day_customers := 75 |});
    ("2024-01-04", {| day_revenue := 11000; day_cost := 7000; day_customers := 110 |});
    ("2024-01-05", {| day_revenue := 9500; day_cost := 6200; day_customers := 95 |});
    ("2024-01-06", {| day_revenue := 5000; day_cost := 7000; day_customers := 50 |});
    ("2024-01-07", {| day_revenue := 12000; day_cost := 7500; day_customers := 120 |});
    ("2024-01-08", {| day_revenue := 9000; day_cost := 5800; day_customers := 90 |});
    ("2024-01-09", {| day_revenue := 8500; day_cost := 5500; day_customers := 85 |});
    ("2024-01-10", {| day_revenue := 10500; day_cost := 6500; day_customers := 105 |}) ].

(** [k in BUSINESS_DATA]. *)
Definition has_key (k : string) : bool :=
  match assoc k BUSINESS_DATA with
  | Some _ => true
  | None => false
  end.

(** [BUSINESS_DATA[k]]. *)
Definition lookup (k : string) : result DayData :=
  match assoc k BUSINESS_DATA with
  | Some d => Ok d
  | None => Raise KeyError
  end.

(** [sorted(d.items())]: by key. *)
Fixpoint insert_sorted {A : Type} (x : string * A) (l : list (string * A))
  : list (string * A) :=
  match l with
  | [] => [x]
  | y :: l' =>
      if String.leb (fst x) (fst y) then x :: l else y :: insert_sorted x l'
  end.

Definition sorted_items {A : Type} (d : list (string * A))
  : list (string * A) :=
  fold_right insert_sorted [] d.

Definition nl : string := Str.newline.

(** [get_data_table]. *)
Definition table_row (item : string * DayData) : string :=
  nl ++ fst item ++ " | $" ++ Str.format_comma (day_revenue (snd item)) ++
  "      | $" ++ Str.format_comma (day_cost (snd item)) ++ "    | " ++
  str_int (day_customers (snd item)).

Definition get_data_table : string :=
  "📊 **Available Business Data:**" ++ nl ++
  "```" ++ nl ++
  "Date        | Revenue ($) | Cost ($) | Customers" ++ nl ++
  "------------|------------|----------|----------" ++
  String.concat "" (map table_row (sorted_items BUSINESS_DATA)) ++
  nl ++ "```".

(** [State].  An unset [selected_date] is the empty string, an unset
    [analysis_result] the empty dict. *)
Record State : Type := {
  messages : list string;
  user_input : string;
  stage : string;
  selected_date : string;
  analysis_result : pyval
}.

(** The dict a node returns: the messages to add and the keys to
    replace. *)
Record Update : Type := {
  new_messages : list string;
  new_stage : option string;
  new_selected_date : option string;
  new_analysis_result : option pyval
}.

(** A node returns such a dict, or the state it was given. *)
Inductive node_result : Type :=
| Partial (u : Update)
| Whole (s : State).

Definition or_else {A : Type} (o : option A) (a : A) : A :=
  match o with
  | Some x => x
  | None => a
  end.

(** How the graph merges what a node returns into the state: the messages
    are added at the end, a key that is present replaces the old value; a
    node that returns its state changes nothing. *)
Definition merge (s : State) (r : node_result) : State :=
  match r with
  | Partial u =>
      {| messages := (messages s ++ new_messages u)%list;
         user_input := user_input s;
         stage := or_else (new_stage u) (stage s);
         selected_date := or_else (new_selected_date u) (selected_date s);
         analysis_result :=
           or_else (new_analysis_result u) (analysis_result s) |}
  | Whole _ => s
  end.

Definition reply (text : string) (stage' : string) : Update :=
  {| new_messages := [text]; new_stage := Some stage';
     new_selected_date := None; new_analysis_result := None |}.

Definition reply_date (text : string) (stage' : string) (date : string)
  : Update :=
  {| new_messages := [text]; new_stage := Some stage';
     new_selected_date := Some date; new_analysis_result := None |}.

Definition affirmative : list string := ["yes"; "y"; "yeah"; "sure"].
Definition negative : list string := ["no"; "n"; "nope"].

Definition msg_greeting : string :=
  "Hello! I'm your Business Analytics Assistant. 🤖" ++ nl ++
  "        " ++ nl ++
  "To analyze your sales and cost data, please select a date from the available data." ++
  nl ++ nl ++ get_data_table ++ nl ++ nl ++
  "💡 Please enter the date you'd like to analyze in YYYY-MM-DD format (e.g., 2024-01-05)".

Definition msg_no_previous_day : string :=
  "⚠️ Sorry, no data available for the previous day. Please select a date that has previous day data for comparison.".

Definition msg_selected (date : string) : string :=
  "✅ Date " ++ date ++ " selected." ++ nl ++ nl ++
  "Do you want me to analyze the business data for this date? (yes/no)".

Definition msg_invalid_date : string :=
  "❌ The entered date is not in the available data. Please select one of the dates from the table.".

Definition msg_starting : string := "🔍 Starting business data analysis...".

Definition msg_new_date : string :=
  get_data_table ++ nl ++ nl ++
  "💡 Please enter a new date you'd like to analyze:".

Definition msg_confirm_again : string :=
  "Please answer with 'yes' or 'no'. Do you want me to analyze the business data?".

Definition msg_another_date : string :=
  get_data_table ++ nl ++ nl ++
  "💡 Please enter the new date you'd like to analyze:".

Definition msg_goodbye : string :=
  "Thank you for using Business Analytics Chat! 👋".

Definition msg_complete_again : string :=
  "Please answer with 'yes' or 'no'. Would you like to analyze another date?".

(** The previous day of a key, as [process_input] and [analyze_business]
    compute it. *)
Definition previous_date (date : string) : result string :=
  let* date_obj := Date.strptime date in
  let* prev := Date.minus_one_day date_obj in
  Ok (Date.strftime prev).

(** [process_input], lines 76 to 162. *)
Definition process_input (state : State) : result node_result :=
  let user_input := Str.strip (user_input state) in
  let stage := stage state in
  if stage =? "greeting" then
    Ok (Partial (reply msg_greeting "date_selection"))
  else if stage =? "date_selection" then
    if has_key user_input then
      let* prev_date := previous_date user_input in
      if negb (has_key prev_date) then
        Ok (Partial (reply msg_no_previous_day "date_selection"))
      else
        Ok (Partial (reply_date (msg_selected user_input) "confirm_analysis"
                                user_input))
    else
      Ok (Partial (reply msg_invalid_date "date_selection"))
  else if stage =? "confirm_analysis" then
    if Str.mem (Str.lower user_input) affirmative then
      Ok (Partial (reply msg_starting "analysis"))
    else if Str.mem (Str.lower user_input) negative then
      Ok (Partial (reply_date msg_new_date "date_selection" ""))
    else
      Ok (Partial (reply msg_confirm_again "confirm_analysis"))
  else if stage =? "complete" then
    if Str.mem (Str.lower user_input) affirmative then
      Ok (Partial (reply_date msg_another_date "date_selection" ""))
    else if Str.mem (Str.lower user_input) negative then
      Ok (Partial (reply msg_goodbye "end"))
    else
      Ok (Partial (reply msg_complete_again "complete"))
  else
    Ok (Whole state).

(** The answer of the language model to one [llm.invoke]: its text, or
    the exception of a failed call. *)
Definition answer : Type := result string.

(** The dict built when the JSON answer cannot be parsed, lines 235 to
    242. *)
Definition parse_fallback (current : DayData) : pyval :=
  let current_profit := (day_revenue current - day_cost current)%Z in
  VDict [
    ("profit_loss_status",
       VStr (if (current_profit >? 0)%Z then "positive" else "negative"));
    ("current_profit", VNum (PInt current_profit));
    ("alerts", VList [VStr "Unable to parse LLM JSON response"]);
    ("recommendations", VList [VStr "Review analysis manually"]);
    ("key_metrics", VDict [("error", VStr "JSON parsing failed")]) ].

(** The text and the dict built when a call to the model fails, lines 248
    to 278. *)
Definition llm_fallback (selected_date : string) (current previous : DayData)
  : result (string * pyval) :=
  let current_profit := (day_revenue current - day_cost current)%Z in
  let* r := div (PInt (day_revenue current - day_revenue previous))
                (PInt (day_revenue previous)) in
  let revenue_change := mul r hundred in
  let* c := div (PInt (day_cost current - day_cost previous))
                (PInt (day_cost previous)) in
  let cost_change := mul c hundred in
  let content :=
    "📊 **Business Analysis for " ++ selected_date ++ "** (Fallback Mode)" ++
    nl ++ "            " ++ nl ++
    "💰 **Financial Summary:**" ++ nl ++
    "- Current Profit: $" ++ Str.format_comma current_profit ++ nl ++
    "- Revenue Change: " ++ Str.format_1f (to_Q revenue_change) ++ "%" ++ nl ++
    "- Cost Change: " ++ Str.format_1f (to_Q cost_change) ++ "%" ++ nl ++
    nl ++
    "📈 **Key Insights:**" ++ nl ++
    "- " ++ (if (current_profit >? 0)%Z then "Profitable day"
             else "Loss incurred") ++ nl ++
    "- Revenue " ++ (if gtb revenue_change zero then "increased"
                     else "decreased") ++
    " compared to previous day" ++ nl ++
    "- Cost efficiency needs attention if costs grew faster than revenue" ++
    nl ++ nl ++
    "⚠️ **Note:** This is a basic analysis due to LLM connectivity issues." in
  Ok (content,
      VDict [
        ("profit_loss_status",
           VStr (if (current_profit >? 0)%Z then "positive" else "negative"));
        ("current_profit", VNum (PInt current_profit));
        ("alerts", VList [VStr "LLM unavailable - basic analysis provided"]);
        ("recommendations",
           VList [VStr "Review detailed financials";
                  VStr "Check operational efficiency"]);
        ("key_metrics", VDict [
           ("revenue_change",
              VStr (Str.format_1f (to_Q revenue_change) ++ "%"));
           ("cost_change", VStr (Str.format_1f (to_Q cost_change) ++ "%"));
           ("profit", VNum (PInt current_profit)) ]) ]).

(** The [try] block of [analyze_business], lines 205 to 242: the two
    calls and the parse, with the inner handler of the parse failure. *)
Definition ask_model (analysis_answer json_answer : answer)
    (current : DayData) : result (string * pyval) :=
  let* analysis_response := analysis_answer in
  let* json_response := json_answer in
  match Json.loads json_response with
  | Some json_output => Ok (analysis_response, json_output)
  | None => Ok (analysis_response, parse_fallback current)
  end.

Definition final_response (content : string) (json_output : pyval) : string :=
  content ++ nl ++ nl ++ "📋 **JSON Output:**" ++ nl ++ "```json" ++ nl ++
  Json.dumps json_output ++ nl ++ "```" ++ nl ++ nl ++
  "Would you like to analyze another date? (yes/no)".

(** [analyze_business], lines 165 to 287.  The date parse and the two
    lookups stand before the [try]; the outer handler takes every
    exception of the block. *)
Definition analyze_business (analysis_answer json_answer : answer)
    (state : State) : result node_result :=
  if negb (stage state =? "analysis") then Ok (Whole state)
  else
    let selected_date := selected_date state in
    let* prev_date := previous_date selected_date in
    let* current := lookup selected_date in
    let* previous := lookup prev_date in
    let* (content, json_output) :=
      match ask_model analysis_answer json_answer current with
      | Ok r => Ok r
      | Raise _ => llm_fallback selected_date current previous
      end in
    Ok (Partial {| new_messages := [final_response content json_output];
                   new_stage := Some "complete";
                   new_selected_date := None;
                   new_analysis_result := Some json_output |}).

(** The text of a reply written by the model, or the fixed text when the
    call fails. *)
Definition written (a : answer) (fallback : string) : string :=
  match a with
  | Ok text => text
  | Raise _ => fallback
  end.

(** [generate_greeting]. *)
Definition generate_greeting (a : answer) : node_result :=
  Partial (reply (written a msg_greeting) "date_selection").

(** [process_input_enhanced], lines 333 to 544: the node of the compiled
    graph.  Each path makes one call to the model, whose answer is [a]. *)
Definition process_input_enhanced (a : answer) (state : State)
  : result node_result :=
  let user_input := Str.strip (user_input state) in
  let stage := stage state in
  if stage =? "greeting" then
    Ok (generate_greeting a)
  else if stage =? "date_selection" then
    if has_key user_input then
      let* prev_date := previous_date user_input in
      if negb (has_key prev_date) then
        Ok (Partial (reply (written a msg_no_previous_day) "date_selection"))
      else
        Ok (Partial (reply_date (written a (msg_selected user_input))
                                "confirm_analysis" user_input))
    else
      Ok (Partial (reply (written a msg_invalid_date) "date_selection"))
  else if stage =? "confirm_analysis" then
    if Str.mem (Str.lower user_input) affirmative then
      Ok (Partial (reply (written a msg_starting) "analysis"))
    else if Str.mem (Str.lower user_input) negative then
      Ok (Partial (reply_date (written a msg_new_date) "date_selection" ""))
    else
      Ok (Partial (reply (written a msg_confirm_again) "confirm_analysis"))
  else if stage =? "complete" then
    if Str.mem (Str.lower user_input) affirmative then
      Ok (Partial (reply_date (written a msg_another_date)
                              "date_selection" ""))
    else if Str.mem (Str.lower user_input) negative then
      Ok (Partial (reply (written a msg_goodbye) "end"))
    else
      Ok (Partial (reply (written a msg_complete_again) "complete"))
  else
    Ok (Whole state).

(** The state a session starts from. *)
Definition initial_state : State :=
  {| messages := []; user_input := ""; stage := "greeting";
     selected_date := ""; analysis_result := VDict [] |}.

(** The caller stores the user's text before each turn. *)
Definition with_input (input : string) (s : State) : State :=
  {| messages := messages s; user_input := input; stage := stage s;
     selected_date := selected_date s;
     analysis_result := analysis_result s |}.

(** One [graph.invoke] of [create_business_chat_graph]: the input node,
    then the analysis node when the stage has become [analysis]. *)
Definition invoke (a analysis_answer json_answer : answer) (s : State)
  : result State :=
  let* r := process_input_enhanced a s in
  let s1 := merge s r in
  if stage s1 =? "analysis" then
    let* r2 := analyze_business analysis_answer json_answer s1 in
    Ok (merge s1 r2)
  else Ok s1.

(** ** The recommendation node ([main.py])

    [recommendation_node], lines 188 to 220: the answer of the model is
    split into lines and the lines that look like the items of a list
    are kept; a call that fails gives the baseline list, with an item for
    each of three thresholds. *)

(** The prefixes of an item, line 196. *)
Definition item_prefixes : list string :=
  ["-"; "•"; "1."; "2."; "3."; "4."; "5."].

(** The condition of the comprehension, line 196. *)
Definition is_item (line : string) : bool :=
  negb (Str.strip line =? "") &&
  (existsb (fun p => Str.startswith p (Str.strip line)) item_prefixes ||
   Str.contains "." (Str.take 5 line)).

(** The list made of the answer, lines 193 to 201. *)
Definition parse_recommendations (recommendations_text : string)
  : list string :=
  let recommendations :=
    map Str.strip
        (filter is_item (Str.split Json.lf recommendations_text)) in
  if (List.length recommendations <? 2)%nat then [recommendations_text]
  else recommendations.

Definition baseline_recommendations : list string :=
  [ "Error connecting to LLM - using baseline recommendations";
    "Review and control operational costs";
    "Analyze marketing channel performance";
    "Optimize product pricing strategy" ].

Definition rec_reduce_expenses : string :=
  "🚨 URGENT: Reduce unnecessary expenses".
Definition rec_review_marketing : string :=
  "📊 Review and optimize marketing campaigns".
Definition rec_increase_budget : string :=
  "📈 Increase marketing budget to leverage growth momentum".

(** The list of the handler, lines 205 to 220. *)
Definition fallback_recommendations (m : Metrics) : list string :=
  let recommendations := baseline_recommendations in
  let recommendations :=
    if leb (today_profit m) zero
    then (recommendations ++ [rec_reduce_expenses])%list
    else recommendations in
  let recommendations :=
    if gtb (cac_change m) (PInt 20)
    then (recommendations ++ [rec_review_marketing])%list
    else recommendations in
  let recommendations :=
    if gtb (revenue_change m) (PInt 15)
    then (recommendations ++ [rec_increase_budget])%list
    else recommendations in
  recommendations.

(** The recommendations of the node for the answer [a] of the model. *)
Definition recommend (a : answer) (m : Metrics) : list string :=
  match a with
  | Ok recommendations_text => parse_recommendations recommendations_text
  | Raise _ => fallback_recommendations m
  end.

(** The compiled graph of [create_business_graph] with its
    recommendation node, as a function of the initial state. *)
Definition create_business_graph (a : answer) (initial : BusinessState)
  : result BusinessState :=
  let* s := processing_node (input_node initial) in
  let s := analysis_node s in
  Ok (output_node (recommendation_node (recommend a (metrics s)) s)).

(** ** The test of the alerts ([simple_test_file.py]) *)

(** The assertions of [test_alerts_generation], lines 142 to 155, on the
    metrics and the alerts of a result: [true] when all of them hold. *)
Definition test_alerts_generation (metrics : Metrics) (alerts : list string)
  : bool :=
  (if leb (today_profit metrics) zero
   then existsb (fun alert => Str.contains "CRITICAL" alert) alerts
   else true) &&
  (if gtb (cac_change metrics) (PInt 20)
   then existsb (fun alert => Str.contains "CAC" alert &&
                              Str.contains "20%" alert) alerts
   else true) &&
  (if ltb (today_roi metrics) (PInt 10)
   then existsb (fun alert => Str.contains "LOW ROI" alert) alerts
   else true).

(** ** Saving and the main loop ([business-agent.py]) *)

(** The truth value of a Python value, as [if result:] tests it. *)
Definition truthy (v : pyval) : bool :=
  match v with
  | VNone => false
  | VBool b => b
  | VNum n => negb (eqb n zero)
  | VStr s => negb (s =? "")
  | VList l => negb (Nat.eqb (List.length l) 0)
  | VDict d => negb (Nat.eqb (List.length d) 0)
  end.

(** [get_analysis_json]. *)
Definition get_analysis_json (state : State) : pyval := analysis_result state.

(** [save_analysis_to_file]: the text written to the file, [None] when
    there is no result to save and nothing is written. *)
Definition save_analysis_to_file (state : State) : option string :=
  let result := get_analysis_json state in
  if truthy result then Some (Json.dumps result) else None.

Definition exit_words : list string := ["exit"; "quit"; "q"].

(** What one pass of the main loop, lines 672 to 705, does with a line of
    the user: it leaves the loop, or saves the last analysis, or invokes
    the graph. *)
Inductive turn : Type :=
| Stopped
| Saved (written : option string)
| Invoked (r : result State).

Definition main_loop_turn (user_input : string) (a a1 a2 : answer)
    (state : State) : turn :=
  if Str.mem (Str.lower user_input) exit_words then Stopped
  else if (Str.lower user_input =? "save") &&
          truthy (analysis_result state)
  then Saved (save_analysis_to_file state)
  else Invoked (invoke a a1 a2 (with_input user_input state)).

(** The lines of the user, each with the answers the model gives in its
    turn. *)
Definition script : Type := list (string * (answer * answer * answer)).

(** The main loop on the lines of a script: the state when the loop is
    left or the lines are used up, the texts written to the file, and how
    many times the handler of line 702 caught an exception. *)
Fixpoint main_loop (lines : script) (state : State) (files : list string)
    (errors : nat) : State * list string * nat :=
  match lines with
  | [] => (state, files, errors)
  | (user_input, (a, a1, a2)) :: rest =>
      if stage state =? "end" then (state, files, errors)
      else
        match main_loop_turn user_input a a1 a2 state with
        | Stopped => (state, files, errors)
        | Saved (Some text) =>
            main_loop rest state (files ++ [text])%list errors
        | Saved None => main_loop rest state files errors
        | Invoked (Ok state') => main_loop rest state' files errors
        | Invoked (Raise _) =>
            main_loop rest (with_input user_input state) files (S errors)
        end
  end.

(** * Vocabulary of the properties

    What the statements below are written with: the formulas of the
    specification, the example inputs, the transition relation of the
    conversation, and the measures the proofs on texts use. *)

Import Json.

(** ** Metrics *)

Section MetricsVocabulary.

Local Open Scope Q_scope.

(** The quotient of a guarded division, and the quotient scaled to a
    percentage. *)
Definition quotient (a b : num) : num := PFloat (Qred (to_Q a / to_Q b)).

Definition pct (a b : num) : num :=
  mul (PFloat (Qred (to_Q a / to_Q b))) hundred.

(** Records of yesterday with nothing to divide by. *)
Definition zero_revenue_yesterday : DailyRecord :=
  {| revenue := PInt 0; cost := PInt 7500; customers := 120;
     marketing_cost := PInt 1800 |}.

Definition zero_cost_yesterday : DailyRecord :=
  {| revenue := PInt 10000; cost := PInt 0; customers := 120;
     marketing_cost := PInt 1800 |}.

Definition zero_customers_yesterday : DailyRecord :=
  {| revenue := PInt 10000; cost := PInt 7500; customers := 0;
     marketing_cost := PInt 1800 |}.

Definition zero_revenue_state : BusinessState :=
  {| today_data := sample_today; yesterday_data := zero_revenue_yesterday;
     metrics := empty_metrics; profit_status := ""; alerts := [];
     recommendations := []; final_report := VDict [] |}.

(** The formulas of the specification, on exact numbers. *)
Definition spec_profit (r : DailyRecord) : Q :=
  to_Q (revenue r) - to_Q (cost r).



(** [q] to two decimal places. *)
Definition round_2dp (q : Q) : Q :=
  inject_Z (round_half_even (q * 100)) / 100.

(** The metrics of the sample records of [input_node]. *)
Definition sample_metrics : Metrics :=
  {| today_profit := PInt 4000;
     yesterday_profit := PInt 2500;
     today_cac := PFloat (1333 # 100);
     yesterday_cac := PFloat (15 # 1);
     revenue_change := PFloat (20 # 1);
     cost_change := PFloat (667 # 100);
     profit_change := PFloat (60 # 1);
     cac_change := PFloat (-1111 # 100);
     customer_growth := PFloat (25 # 1);
     today_roi := PFloat (50 # 1);
     yesterday_roi := PFloat (3333 # 100) |}.

(** The state of the graph after the processing node, on the sample
    records. *)
Definition sample_state : BusinessState :=
  {| today_data := sample_today; yesterday_data := sample_yesterday;
     metrics := sample_metrics; profit_status := "positive"; alerts := [];
     recommendations := ["Review and control operational costs"];
     final_report := VDict [] |}.

(** Scenario B of the specification: a day of loss after the day
    2024-01-05 of the dataset. *)
Definition loss_today : DailyRecord :=
  {| revenue := PInt 5000; cost := PInt 7000; customers := 50;
     marketing_cost := PInt 500 |}.

Definition loss_yesterday : DailyRecord :=
  {| revenue := PInt 9500; cost := PInt 6200; customers := 95;
     marketing_cost := PInt 900 |}.

(** A state that holds the metrics [m]. *)
Definition state_of_metrics (m : Metrics) : BusinessState :=
  {| today_data := sample_today; yesterday_data := sample_yesterday;
     metrics := m; profit_status := ""; alerts := [];
     recommendations := []; final_report := VDict [] |}.

End MetricsVocabulary.

(** ** Alerts *)

(** The rule table of the alert evaluator, in the words of the
    specification: a rule that matches contributes its alert. *)
Definition fires (condition : bool) (alert : string) : list string :=
  if condition then [alert] else [].

Definition alerts_spec (m : Metrics) : list string :=
  (fires (leb (today_profit m) zero) alert_loss ++
   fires (gtb (cac_change m) (PInt 20)) alert_cac_growth ++
   fires (negb (gtb (cac_change m) (PInt 20)) && gtb (today_cac m) (PInt 50))
         alert_cac_level ++
   fires (gtb (cost_change m) (revenue_change m) &&
          gtb (revenue_change m) zero) alert_cost ++
   fires (ltb (revenue_change m) (PInt (-10))) alert_revenue ++
   fires (ltb (today_roi m) (PInt 10)) alert_roi)%list.

(** ** The conversation *)

Definition keys : list string := map fst BUSINESS_DATA.

(** The state is ready for the analysis: the selected date and the day
    before it are keys of the dataset. *)
Definition ready (s : State) : Prop :=
  has_key (selected_date s) = true /\
  exists p, previous_date (selected_date s) = Ok p /\ has_key p = true.

(** What a node's result does to the stage and to the selected date. *)
Definition effect (r : node_result) : option (option string * option string) :=
  match r with
  | Partial u => Some (new_stage u, new_selected_date u)
  | Whole _ => None
  end.

(** The input as the controller reads it. *)
Definition trimmed (s : State) : string := Str.strip (user_input s).






(** A yes in capital letters at [confirm_analysis]. *)
Definition confirm_yes : State :=
  {| messages := [msg_greeting; msg_selected "2024-01-05"];
     user_input := "YES"; stage := "confirm_analysis";
     selected_date := "2024-01-05"; analysis_result := VDict [] |}.

(** One transition of the controller: the caller stores an input and a
    node of the graph runs on it, [process_input] or the node that asks
    the model; or the analysis node runs.  A node that raises makes no
    transition. *)
Inductive step : State -> State -> Prop :=
| step_input (s : State) (input : string) (r : node_result) :
    process_input (with_input input s) = Ok r ->
    step s (merge (with_input input s) r)
| step_enhanced (s : State) (input : string) (a : answer) (r : node_result) :
    process_input_enhanced a (with_input input s) = Ok r ->
    step s (merge (with_input input s) r)
| step_analysis (s : State) (a1 a2 : answer) (r : node_result) :
    analyze_business a1 a2 s = Ok r ->
    step s (merge s r).

Inductive reachable : State -> Prop :=
| reach_initial : reachable initial_state
| reach_step (s s' : State) : reachable s -> step s s' -> reachable s'.

Definition invariant (s : State) : Prop :=
  stage s = "confirm_analysis" \/ stage s = "analysis" -> ready s.

(** A session: the greeting, the date 2024-01-05, a yes. *)
Definition after_greeting : State :=
  merge (with_input "" initial_state)
        (Partial (reply msg_greeting "date_selection")).

Definition after_date : State :=
  merge (with_input "2024-01-05" after_greeting)
        (Partial (reply_date (msg_selected "2024-01-05") "confirm_analysis"
                             "2024-01-05")).

Definition after_yes : State :=
  merge (with_input "yes" after_date) (Partial (reply msg_starting "analysis")).

(** ** Texts *)

Section TextVocabulary.

Local Open Scope Z_scope.
Local Open Scope string_scope.

(** All the characters of [s] are digits. *)
Fixpoint all_digits (s : string) : bool :=
  match s with
  | EmptyString => true
  | String c s' => is_digit c && all_digits s'
  end.

(** [s] does not go on with a digit. *)
Definition no_digit_ahead (s : string) : Prop :=
  match s with
  | EmptyString => True
  | String c _ => is_digit c = false
  end.

(** [s] does not go on as a number would: no digit, point or exponent
    mark comes next. *)
Definition number_end (s : string) : Prop :=
  match s with
  | EmptyString => True
  | String c _ =>
      is_digit c = false /\ Ascii.eqb c "." = false /\
      Ascii.eqb c "e" = false /\ Ascii.eqb c "E" = false
  end.

(** The parts of the text [repr_decimal] writes. *)
Definition frac_text (n : Z) (k : nat) : string :=
  match k with
  | O => "0"
  | _ => fixed_digits k n ""
  end.

Definition exp_digits (a : Z) : string :=
  if (a <? 10)%Z then String "0" (str_nat a) else str_nat a.

Definition mantissa_tail (m : Z) (d : nat) : string :=
  match d with
  | S (S d') => "." ++ fixed_digits (S d') m ""
  | _ => ""
  end.

(** The loops of [dumps_at] over the items of a list and of a dict, and
    the fuel their reading needs. *)
Fixpoint items_text (lvl : nat) (l : list pyval) : string :=
  match l with
  | [] => newline_indent lvl ++ "]"
  | y :: l' =>
      "," ++ newline_indent (S lvl) ++ dumps_at (S lvl) y ++ items_text lvl l'
  end.

Fixpoint members_text (lvl : nat) (l : list (string * pyval)) : string :=
  match l with
  | [] => newline_indent lvl ++ "}"
  | kv :: l' =>
      "," ++ newline_indent (S lvl) ++ dump_string (fst kv) ++ ": " ++
      dumps_at (S lvl) (snd kv) ++ members_text lvl l'
  end.

Fixpoint cost_items (l : list pyval) : nat :=
  match l with
  | [] => O
  | x :: l' => S (scan_cost x + cost_items l')
  end.

Fixpoint cost_members (l : list (string * pyval)) : nat :=
  match l with
  | [] => O
  | kv :: l' => S (scan_cost (snd kv) + cost_members l')
  end.

(** [v] reads back from its text at any nesting level, before any
    continuation that does not go on as a number would, with any fuel
    from [scan_cost v] on. *)
Definition reads_back (v : pyval) : Prop :=
  forall (lvl : nat) (rest : string) (fuel : nat),
    number_end rest -> (scan_cost v <= fuel)%nat ->
    scan_value fuel (dumps_at lvl v ++ rest) = Some (v, rest).

(** The text of [v] is at least as long as the fuel its reading needs. *)
Definition long_enough (v : pyval) : Prop :=
  forall lvl, (scan_cost v <= String.length (dumps_at lvl v))%nat.

(** [decimal_places] finds the expansion of a fraction of denominator
    [d]; checked for every divisor of 100. *)
Definition places_found (d : Z) : bool :=
  match places_from (Z.to_nat (Z.log2 d)) 0 d with
  | Some _ => true
  | None => false
  end.

Definition divisors_checked : bool :=
  forallb (fun i => let d := Z.of_nat (S i) in
                    negb (100 mod d =? 0)%Z || places_found d)
          (seq 0 100).

(** A JSON key or string with its quotes. *)
Definition quoted (s : string) : string := String dq (s ++ String dq "").

End TextVocabulary.

(** ** Further vocabulary: metrics and alerts *)

Section EngineVocabulary.

Local Open Scope Q_scope.

(** The change from [b] to [a] in per cent. *)
Definition spec_change (a b : Q) : Q := (a - b) / b * 100.


End EngineVocabulary.

(** A day of loss with a doubled acquisition cost. *)
Definition costly_loss_today : DailyRecord :=
  {| revenue := PInt 5000; cost := PInt 7000; customers := 50;
     marketing_cost := PInt 1000 |}.

Definition costly_loss_yesterday : DailyRecord :=
  {| revenue := PInt 9500; cost := PInt 6200; customers := 95;
     marketing_cost := PInt 950 |}.

Definition costly_loss_state : BusinessState :=
  {| today_data := costly_loss_today; yesterday_data := costly_loss_yesterday;
     metrics := empty_metrics; profit_status := ""; alerts := [];
     recommendations := []; final_report := VDict [] |}.



(** A smaller loss than the day before. *)
Definition smaller_loss_today : DailyRecord :=
  {| revenue := PInt 9500; cost := PInt 10000; customers := 90;
     marketing_cost := PInt 900 |}.

Definition smaller_loss_yesterday : DailyRecord :=
  {| revenue := PInt 9000; cost := PInt 10000; customers := 90;
     marketing_cost := PInt 900 |}.

(** ** Further vocabulary: texts *)

(** A text of white space only, as [not line.strip()] tests it. *)
Definition blank (s : string) : bool := Str.strip s =? "".


(** A printable ASCII character or a line feed. *)
Definition plain_char (c : ascii) : bool :=
  let n := nat_of_ascii c in
  ((n =? 10) || (32 <=? n) && (n <=? 126))%nat.

Fixpoint plain (s : string) : bool :=
  match s with
  | EmptyString => true
  | String c s' => plain_char c && plain s'
  end.



(** ** Further vocabulary: the conversation *)

(** The stages of a conversation. *)
Definition stages : list string :=
  ["greeting"; "date_selection"; "confirm_analysis"; "analysis"; "complete";
   "end"].

(** The stages at which the controller answers. *)
Definition answering : list string :=
  ["greeting"; "date_selection"; "confirm_analysis"; "complete"].

(** The dates of the dataset whose previous day is in the dataset: all
    but the first. *)
Definition selectable : list string := tl keys.

(** The update [u] with the text of the model for its message. *)
Definition with_text (text : string) (u : Update) : Update :=
  {| new_messages := [text]; new_stage := new_stage u;
     new_selected_date := new_selected_date u;
     new_analysis_result := new_analysis_result u |}.

(** What holds of the stage and of the selected date all along a
    conversation. *)
Definition well_staged (s : State) : Prop :=
  In (stage s) stages /\ (selected_date s = "" \/ ready s).

(** The exceptions of the date parse and of the lookups, which stand
    before the [try] of [analyze_business]. *)
Definition uncaught : list exn := [ValueError; OverflowError; KeyError].

(** The change from [b] to [a] as the handler of a failed call prints
    it. *)
Definition change_text (a b : Z) : string :=
  Str.format_1f (spec_change (inject_Z a) (inject_Z b)) ++ "%".

(** One of the two calls to the model fails. *)
Definition a_call_fails (a1 a2 : answer) : Prop :=
  (exists e, a1 = Raise e) \/ (exists e, a2 = Raise e).

(** A session up to the analysis of the day of loss, 2024-01-06. *)
Definition loss_day_selected : State :=
  merge (with_input "2024-01-06" after_greeting)
        (Partial (reply_date (msg_selected "2024-01-06") "confirm_analysis"
                             "2024-01-06")).

Definition at_loss_day : State :=
  merge (with_input "y" loss_day_selected)
        (Partial (reply msg_starting "analysis")).


Definition complete_no : State :=
  {| messages := [msg_greeting]; user_input := " No ";
     stage := "complete"; selected_date := "2024-01-05";
     analysis_result := VDict [("current_profit", VNum (PInt 3300))] |}.

(** A text that holds the JSON of a value that is not empty. *)
Definition saved_result (text : string) : Prop :=
  exists v, truthy v = true /\ text = dumps v /\ loads text = Some v.

(** A session after the greeting: a save too early, a date, a yes, a
    save, a no, and a line that is not read. *)
Definition sample_script : script :=
  [ ("save", (Raise LLMError, Ok "", Ok ""));
    ("2024-01-08", (Ok "Shall I analyze 2024-01-08?", Ok "", Ok ""));
    ("Yes", (Raise LLMError, Ok "A good day.", Raise LLMError));
    ("SAVE", (Ok "", Ok "", Ok ""));
    ("no", (Raise LLMError, Ok "", Ok ""));
    ("2024-01-09", (Ok "", Ok "", Ok "")) ].

(** The stage after an invocation of the graph, by the stage before it
    and the input as the controller reads it. *)
Definition next_stage (stage input : string) : string :=
  if stage =? "greeting" then "date_selection"
  else if stage =? "date_selection" then
    if Str.mem input selectable then "confirm_analysis" else "date_selection"
  else if stage =? "confirm_analysis" then
    if Str.mem (Str.lower input) affirmative then "complete"
    else if Str.mem (Str.lower input) negative then "date_selection"
    else "confirm_analysis"
  else if stage =? "complete" then
    if Str.mem (Str.lower input) affirmative then "date_selection"
    else if Str.mem (Str.lower input) negative then "end"
    else "complete"
  else if stage =? "analysis" then "complete"
  else stage.

(** Lines of the user that end a conversation from a stage. *)
Definition closing_lines (stage : string) : list string :=
  if stage =? "greeting" then ["hello"; "2024-01-02"; "yes"; "no"]
  else if stage =? "date_selection" then ["2024-01-02"; "yes"; "no"]
  else if stage =? "confirm_analysis" then ["yes"; "no"]
  else if stage =? "analysis" then ["go on"; "no"]
  else if stage =? "complete" then ["no"]
  else [].


(** * Properties *)

(** ** The model on concrete inputs *)

Section Examples.

Local Open Scope string_scope.

(** Scenario A of the specification: the sample records of
    [input_node]. *)
Example scenario_A_metrics :
  compute_metrics sample_today sample_yesterday
    = Ok (sample_metrics, "positive").
Proof. vm_compute. reflexivity. Qed.

Example scenario_A_alerts : evaluate_alerts sample_metrics = [].
Proof. vm_compute. reflexivity. Qed.

Example scenario_A_priority :
  get (final_report (output_node sample_state)) "action_priority"
    = Some (VStr "low").
Proof. vm_compute. reflexivity. Qed.

Example scenario_A_percent :
  percent (revenue_change sample_metrics) = "20.0%" /\
  percent (cost_change sample_metrics) = "6.67%" /\
  percent (cac_change sample_metrics) = "-11.11%".
Proof. repeat split; vm_compute; reflexivity. Qed.

(** Scenario B: a day of loss. *)
Example scenario_B :
  exists m,
    compute_metrics loss_today loss_yesterday = Ok (m, "negative") /\
    today_profit m = PInt (-2000) /\
    evaluate_alerts m = [alert_loss; alert_revenue; alert_roi] /\
    get (final_report (output_node (state_of_metrics m))) "action_priority"
      = Some (VStr "high").
Proof. eexists. repeat split; vm_compute; reflexivity. Qed.

Example text_of_numbers :
  py_str (PInt (-250)) = "-250" /\ py_str (PInt 0) = "0" /\
  py_str (PFloat (1333 # 100)) = "13.33" /\ py_str (PFloat (50 # 1)) = "50.0" /\
  py_str (PFloat (1 # 20)) = "0.05" /\
  py_str (PFloat (1 # 100000)) = "1e-05" /\
  py_str (PFloat (10 ^ 16 # 1)) = "1e+16" /\
  py_str (PFloat (15 * 10 ^ 15 # 1)) = "1.5e+16" /\
  py_str (PFloat (10 ^ 16 - 1 # 1)) = "9999999999999999.0".
Proof. repeat split; vm_compute; reflexivity. Qed.

Example text_of_formats :
  Str.format_comma 12000 = "12,000" /\
  Str.format_comma (-1234567) = "-1,234,567" /\
  Str.format_comma 999 = "999" /\
  Str.format_1f (2666 # 100) = "26.7" /\ Str.format_1f (140 # 1) = "140.0".
Proof. repeat split; vm_compute; reflexivity. Qed.

Example string_methods :
  Str.strip "  2024-01-05 " = "2024-01-05" /\ Str.strip "a b" = "a b" /\
  Str.lower "YeS" = "yes" /\ Str.mem "sure" affirmative = true /\
  Str.mem "maybe" affirmative = false.
Proof. repeat split; vm_compute; reflexivity. Qed.

Example previous_dates :
  previous_date "2024-01-08" = Ok "2024-01-07" /\
  previous_date "2024-03-01" = Ok "2024-02-29" /\
  previous_date "2024-01-01" = Ok "2023-12-31" /\
  previous_date "2024-13-45" = Raise ValueError /\
  previous_date "2023-02-29" = Raise ValueError /\
  previous_date "0001-01-01" = Raise OverflowError.
Proof. repeat split; vm_compute; reflexivity. Qed.

Example table_first_row :
  table_row ("2024-01-01",
             {| day_revenue := 8000; day_cost := 5000; day_customers := 80 |})
    = nl ++ "2024-01-01 | $8,000      | $5,000    | 80".
Proof. vm_compute. reflexivity. Qed.

Example json_text_of_a_list :
  dumps (VList [VNum (PInt 1); VNum (PFloat (5 # 2)); VList []; VNone])
    = "[" ++ nl ++ "  1," ++ nl ++ "  2.5," ++ nl ++ "  []," ++ nl ++
      "  null" ++ nl ++ "]".
Proof. vm_compute. reflexivity. Qed.

Example json_text_of_a_dict :
  dumps (VDict [("a", VStr "x"); ("b", VDict [("c", VBool true)])])
    = "{" ++ nl ++ "  " ++ quoted "a" ++ ": " ++ quoted "x" ++ "," ++ nl ++
      "  " ++ quoted "b" ++ ": {" ++ nl ++
      "    " ++ quoted "c" ++ ": true" ++ nl ++ "  }" ++ nl ++ "}".
Proof. vm_compute. reflexivity. Qed.

Example json_values_of_texts :
  loads ("{" ++ quoted "a" ++ ": [1, 2.50, -0.5e1, true, null], " ++
         quoted "a\u00e9\n" ++ " : {} }")
    = Some (VDict [("a", VList [VNum (PInt 1); VNum (PFloat (5 # 2));
                                VNum (PFloat (-5 # 1)); VBool true; VNone]);
                   (String "a" (String "233" (String "010" "")), VDict [])]) /\
  loads "[1, 2" = None /\ loads "01" = None /\ loads "not json" = None /\
  loads "[1] x" = None /\ loads "  7  " = Some (VNum (PInt 7)).
Proof. repeat split; vm_compute; reflexivity. Qed.

(** A session: greeting, a date, a yes, and an answer of the model that
    is no JSON. *)
Example session_to_complete :
  exists s1 s2 s3,
    invoke (Ok "Welcome") (Ok "") (Ok "") initial_state = Ok s1 /\
    stage s1 = "date_selection" /\
    invoke (Raise LLMError) (Ok "") (Ok "") (with_input "2024-01-06" s1)
      = Ok s2 /\
    stage s2 = "confirm_analysis" /\ selected_date s2 = "2024-01-06" /\
    invoke (Raise LLMError) (Ok "The day closed with a loss.") (Ok "{oops")
           (with_input "Yes" s2) = Ok s3 /\
    stage s3 = "complete" /\
    get (analysis_result s3) "current_profit" = Some (VNum (PInt (-2000))) /\
    get (analysis_result s3) "profit_loss_status" = Some (VStr "negative").
Proof. do 3 eexists. repeat split; vm_compute; reflexivity. Qed.

End Examples.

(** ** Numbers *)

Section NumFacts.

Lemma leb_spec (a b : num) : leb a b = true <-> (to_Q a <= to_Q b)%Q.
Proof. unfold leb. apply Qle_bool_iff. Qed.

Lemma ltb_spec (a b : num) : ltb a b = true <-> (to_Q a < to_Q b)%Q.
Proof.
  unfold ltb. rewrite negb_true_iff.
  split; intro H.
  - apply Qnot_le_lt. intro L. apply Qle_bool_iff in L. congruence.
  - destruct (Qle_bool (to_Q b) (to_Q a)) eqn:E; [|reflexivity].
    apply Qle_bool_iff in E. exfalso. exact (Qlt_not_le _ _ H E).
Qed.

Lemma gtb_spec (a b : num) : gtb a b = true <-> (to_Q b < to_Q a)%Q.
Proof. unfold gtb. apply ltb_spec. Qed.

Lemma eqb_spec (a b : num) : eqb a b = true <-> (to_Q a == to_Q b)%Q.
Proof. unfold eqb. apply Qeq_bool_iff. Qed.

Lemma leb_false (a b : num) : leb a b = false <-> ~ (to_Q a <= to_Q b)%Q.
Proof.
  rewrite <- leb_spec. destruct (leb a b); split; intro H; congruence.
Qed.

(** A division raises exactly when the divisor is zero. *)
Lemma div_ok (a b : num) :
  ~ (to_Q b == 0)%Q -> div a b = Ok (PFloat (Qred (to_Q a / to_Q b))).
Proof.
  intro H. unfold div.
  destruct (Qeq_bool (to_Q b) 0) eqn:E; [|reflexivity].
  apply Qeq_bool_iff in E. contradiction.
Qed.

Lemma div_zero (a b : num) :
  (to_Q b == 0)%Q -> div a b = Raise ZeroDivisionError.
Proof.
  intro H. unfold div. apply Qeq_bool_iff in H. rewrite H. reflexivity.
Qed.

End NumFacts.

(** ** The metrics *)

Section MetricsFacts.




Lemma div_inv (a b n : num) :
  div a b = Ok n ->
  n = PFloat (Qred (to_Q a / to_Q b)) /\ ~ (to_Q b == 0)%Q.
Proof.
  unfold div. destruct (Qeq_bool (to_Q b) 0) eqn:E; [discriminate|].
  intro H. injection H as <-. split; [reflexivity|].
  intro Z. apply Qeq_bool_iff in Z. congruence.
Qed.

(** What [compute_metrics] returns when it returns. *)
Lemma compute_metrics_inv (t y : DailyRecord) (m : Metrics) (status : string) :
  compute_metrics t y = Ok (m, status) ->
  let tp := sub (revenue t) (cost t) in
  let yp := sub (revenue y) (cost y) in
  let tc := if (customers t >? 0)%Z
            then quotient (marketing_cost t) (PInt (customers t)) else zero in
  let yc := if (customers y >? 0)%Z
            then quotient (marketing_cost y) (PInt (customers y)) else zero in
  today_profit m = tp /\
  yesterday_profit m = yp /\
  today_cac m = round2 tc /\
  yesterday_cac m = round2 yc /\
  revenue_change m =
    round2 (pct (sub (revenue t) (revenue y)) (revenue y)) /\
  cost_change m = round2 (pct (sub (cost t) (cost y)) (cost y)) /\
  profit_change m =
    round2 (if negb (eqb yp zero) then pct (sub tp yp) (abs yp) else zero) /\
  cac_change m =
    round2 (if gtb yc zero then pct (sub tc yc) yc else zero) /\
  customer_growth m =
    round2 (pct (PInt (customers t - customers y)) (PInt (customers y))) /\
  today_roi m = round2 (if gtb (cost t) zero then pct tp (cost t) else zero) /\
  yesterday_roi m =
    round2 (if gtb (cost y) zero then pct yp (cost y) else zero) /\
  status = (if gtb tp zero then "positive" else "negative") /\
  ~ (to_Q (revenue y) == 0)%Q /\ ~ (to_Q (cost y) == 0)%Q /\
  customers y <> 0%Z.
Proof.
  unfold compute_metrics. intro H.
  repeat match type of H with
         | bind ?r _ = Ok _ =>
             let E := fresh "E" in
             destruct r eqn:E; cbn [bind] in H; [|discriminate H]
         end.
  injection H as <- <-. cbv zeta. cbn [today_profit yesterday_profit
    today_cac yesterday_cac revenue_change cost_change profit_change
    cac_change customer_growth today_roi yesterday_roi].
  repeat match goal with
         | E : (if ?g then _ else _) = Ok _ |- _ =>
             destruct g eqn:?; [|injection E as <-]
         | E : bind ?r _ = Ok _ |- _ =>
             let E' := fresh "E" in
             destruct r eqn:E'; cbn [bind] in E; [injection E as <-|discriminate E]
         | E : div _ _ = Ok _ |- _ =>
             apply div_inv in E; destruct E as [-> ?]
         end;
  unfold pct, quotient;
  repeat match goal with
         | G : ?g = _ |- context [if ?g then _ else _] => rewrite G
         end;
  repeat split; try reflexivity; try assumption;
  match goal with
  | H : ~ (to_Q (PInt ?c) == 0)%Q |- ?c <> 0%Z =>
      intro Z; apply H; rewrite Z; reflexivity
  end.
Qed.


Lemma div_raise (a b : num) (e : exn) :
  div a b = Raise e -> e = ZeroDivisionError.
Proof.
  unfold div. destruct (Qeq_bool (to_Q b) 0); congruence.
Qed.

(** The only exception of the engine is that of a division. *)
Lemma compute_metrics_exception (t y : DailyRecord) (e : exn) :
  compute_metrics t y = Raise e -> e = ZeroDivisionError.
Proof.
  unfold compute_metrics.
  repeat match goal with
         | |- bind ?r _ = Raise _ -> _ =>
             let E := fresh "E" in
             destruct r eqn:E; cbn [bind];
             [ clear E
             | intro X; injection X as <-;
               repeat match type of E with
                      | (if ?g then _ else _) = _ => destruct g
                      | bind ?r' _ = _ =>
                          let E' := fresh "E" in
                          destruct r' eqn:E'; cbn [bind] in E
                      end;
               try discriminate E;
               try (injection E as <-);
               match goal with
               | D : div _ _ = Raise _ |- _ => exact (div_raise _ _ _ D)
               end ]
         end.
  discriminate.
Qed.

(** ... and raises [ZeroDivisionError] when one of them is zero. *)
Lemma compute_metrics_raises (t y : DailyRecord) :
  (to_Q (revenue y) == 0)%Q \/ (to_Q (cost y) == 0)%Q \/ customers y = 0%Z ->
  compute_metrics t y = Raise ZeroDivisionError.
Proof.
  intro H.
  destruct (compute_metrics t y) as [[m status]|e] eqn:E.
  - apply compute_metrics_inv in E. cbv zeta in E.
    destruct E as (_ & _ & _ & _ & _ & _ & _ & _ & _ & _ & _ & _ & N).
    exfalso. tauto.
  - f_equal. exact (compute_metrics_exception _ _ _ E).
Qed.

End MetricsFacts.

Section MetricsClaims.

Local Open Scope Q_scope.

(** C1.  The engine is not total.  On records of non-negative numbers
    whose yesterday has no revenue, or no cost, or no customers, the
    quotients of lines 80, 81 and 84 are taken without a guard and the
    engine raises [ZeroDivisionError] in place of a change of 0; the
    node raises with it. *)
Theorem metrics_engine_raises_on_zero_yesterday :
  compute_metrics sample_today zero_revenue_yesterday
    = Raise ZeroDivisionError /\
  compute_metrics sample_today zero_cost_yesterday
    = Raise ZeroDivisionError /\
  compute_metrics sample_today zero_customers_yesterday
    = Raise ZeroDivisionError /\
  processing_node zero_revenue_state = Raise ZeroDivisionError.
Proof. repeat split; vm_compute; reflexivity. Qed.

Lemma round_half_even_comp (p q : Q) :
  p == q -> round_half_even p = round_half_even q.
Proof.
  intro H. unfold round_half_even.
  rewrite (Qfloor_comp _ _ H).
  assert (E : (p - inject_Z (Qfloor q) ?= 1 # 2) =
              (q - inject_Z (Qfloor q) ?= 1 # 2)).
  { apply Qcompare_comp; [rewrite H|]; reflexivity. }
  rewrite E. reflexivity.
Qed.


Lemma to_Q_round2 (a : num) : to_Q (round2 a) == round_2dp (to_Q a).
Proof.
  destruct a as [z|q]; cbn [to_Q round2].
  - unfold round_2dp, round_half_even.
    assert (F : Qfloor (inject_Z z * 100) = (z * 100)%Z).
    { change 100 with (inject_Z 100). rewrite <- inject_Z_mult.
      apply Qfloor_Z. }
    rewrite F.
    assert (C : (inject_Z z * 100 - inject_Z (z * 100) ?= 1 # 2) = Lt).
    { apply Qlt_alt. change 100 with (inject_Z 100).
      rewrite <- inject_Z_mult. unfold Qminus. rewrite Qplus_opp_r.
      reflexivity. }
    rewrite C. rewrite inject_Z_mult. field.
  - apply Qred_correct.
Qed.

Lemma to_Q_sub (a b : num) : to_Q (sub a b) == to_Q a - to_Q b.
Proof.
  destruct a, b; cbn [to_Q sub]; try apply Qred_correct.
  unfold Z.sub, Qminus. rewrite inject_Z_plus, inject_Z_opp. reflexivity.
Qed.

Lemma to_Q_pct (a b : num) : to_Q (pct a b) == to_Q a / to_Q b * 100.
Proof.
  unfold pct, mul, hundred. cbn [to_Q].
  rewrite Qred_correct, Qred_correct. reflexivity.
Qed.

Lemma gtb_zero_Qle (a : num) : gtb a zero = negb (Qle_bool (to_Q a) 0).
Proof. reflexivity. Qed.




End MetricsClaims.

(** ** The alerts *)

Section Alerts.

Lemma evaluate_alerts_spec (m : Metrics) : evaluate_alerts m = alerts_spec m.
Proof.
  unfold evaluate_alerts, alerts_spec, fires.
  destruct (leb (today_profit m) zero),
           (gtb (cac_change m) (PInt 20)),
           (gtb (today_cac m) (PInt 50)),
           (gtb (cost_change m) (revenue_change m) &&
            gtb (revenue_change m) zero),
           (ltb (revenue_change m) (PInt (-10))),
           (ltb (today_roi m) (PInt 10)); reflexivity.
Qed.

(** C4.  The alerts are the list the rule table gives, rule by rule in
    its order; the two CAC alerts never stand together; there are at most
    five alerts; and the list is a function of the six metrics the rules
    read, so equal metrics give the same list in the same order. *)
Theorem alerts_by_rule_order (m : Metrics) :
  alerts (analysis_node (state_of_metrics m)) = evaluate_alerts m /\
  evaluate_alerts m = alerts_spec m /\
  ~ (In alert_cac_growth (evaluate_alerts m) /\
     In alert_cac_level (evaluate_alerts m)) /\
  (List.length (evaluate_alerts m) <= 5)%nat /\
  (forall m' : Metrics,
     today_profit m' = today_profit m ->
     cac_change m' = cac_change m ->
     today_cac m' = today_cac m ->
     cost_change m' = cost_change m ->
     revenue_change m' = revenue_change m ->
     today_roi m' = today_roi m ->
     evaluate_alerts m' = evaluate_alerts m).
Proof.
  split; [reflexivity|].
  split; [apply evaluate_alerts_spec|].
  split; [|split].
  - rewrite evaluate_alerts_spec. unfold alerts_spec, fires.
    destruct (leb (today_profit m) zero),
             (gtb (cac_change m) (PInt 20)),
             (gtb (today_cac m) (PInt 50)),
             (gtb (cost_change m) (revenue_change m) &&
              gtb (revenue_change m) zero),
             (ltb (revenue_change m) (PInt (-10))),
             (ltb (today_roi m) (PInt 10));
      cbn; intros [G L];
      repeat match goal with
             | H : _ \/ _ |- _ => destruct H
             | H : False |- _ => contradiction
             | H : _ = _ |- _ => discriminate H
             end.
  - rewrite evaluate_alerts_spec. unfold alerts_spec, fires.
    destruct (leb (today_profit m) zero),
             (gtb (cac_change m) (PInt 20)),
             (gtb (today_cac m) (PInt 50)),
             (gtb (cost_change m) (revenue_change m) &&
              gtb (revenue_change m) zero),
             (ltb (revenue_change m) (PInt (-10))),
             (ltb (today_roi m) (PInt 10)); cbn; lia.
  - intros m' H1 H2 H3 H4 H5 H6.
    unfold evaluate_alerts. rewrite H1, H2, H3, H4, H5, H6. reflexivity.
Qed.

End Alerts.

(** ** The report *)

Section Report.

Variable state : BusinessState.

Lemma action_priority_value :
  get (final_report (output_node state)) "action_priority" =
  Some (VStr (if leb (today_profit (metrics state)) zero then "high"
              else if (0 <? List.length (alerts state))%nat then "medium"
              else "low")).
Proof. reflexivity. Qed.

(** C2.  The priority of the assembled report is "high" exactly when
    today's profit is at most zero, whatever the alerts are; when the
    profit is positive it is "medium" exactly when the list of alerts is
    not empty, and "low" exactly when it is empty. *)
Theorem action_priority_rule :
  (get (final_report (output_node state)) "action_priority"
     = Some (VStr "high") <->
   (to_Q (today_profit (metrics state)) <= 0)%Q) /\
  (get (final_report (output_node state)) "action_priority"
     = Some (VStr "medium") <->
   ~ (to_Q (today_profit (metrics state)) <= 0)%Q /\ alerts state <> []) /\
  (get (final_report (output_node state)) "action_priority"
     = Some (VStr "low") <->
   ~ (to_Q (today_profit (metrics state)) <= 0)%Q /\ alerts state = []).
Proof.
  rewrite action_priority_value.
  change 0%Q with (to_Q zero).
  destruct (leb (today_profit (metrics state)) zero) eqn:E.
  - apply leb_spec in E.
    split; [|split]; split; intro H;
      try discriminate; try assumption; try reflexivity;
      destruct H; contradiction.
  - apply leb_false in E.
    destruct (alerts state) as [|a l]; cbn [List.length Nat.ltb Nat.leb];
      (split; [|split]); split; intro H;
      try discriminate; try contradiction; try reflexivity;
      try (destruct H; congruence);
      (split; [assumption | congruence]).
Qed.

(** The dict [key_metrics] of a report. *)
Lemma key_metrics_entries :
  get (final_report (output_node state)) "key_metrics" =
  Some (VDict [
    ("cac_today", VNum (today_cac (metrics state)));
    ("roi_today", VNum (today_roi (metrics state)));
    ("revenue_change", VStr (percent (revenue_change (metrics state))));
    ("cost_change", VStr (percent (cost_change (metrics state))));
    ("profit_change", VStr (percent (profit_change (metrics state))));
    ("customer_growth", VStr (percent (customer_growth (metrics state)))) ]).
Proof. reflexivity. Qed.

(** C8.  Each of the four percent entries of the report is the text of
    its metric followed by a percent sign, the two numeric entries are
    the metrics themselves, and the node changes no field of the state
    but [final_report]: the metrics are what they were. *)
Theorem report_is_presentation :
  (exists key_metrics,
     get (final_report (output_node state)) "key_metrics" = Some key_metrics /\
     get key_metrics "revenue_change" =
       Some (VStr (py_str (revenue_change (metrics state)) ++ "%")) /\
     get key_metrics "cost_change" =
       Some (VStr (py_str (cost_change (metrics state)) ++ "%")) /\
     get key_metrics "profit_change" =
       Some (VStr (py_str (profit_change (metrics state)) ++ "%")) /\
     get key_metrics "customer_growth" =
       Some (VStr (py_str (customer_growth (metrics state)) ++ "%")) /\
     get key_metrics "cac_today" = Some (VNum (today_cac (metrics state))) /\
     get key_metrics "roi_today" = Some (VNum (today_roi (metrics state)))) /\
  metrics (output_node state) = metrics state /\
  today_data (output_node state) = today_data state /\
  yesterday_data (output_node state) = yesterday_data state /\
  profit_status (output_node state) = profit_status state /\
  alerts (output_node state) = alerts state /\
  recommendations (output_node state) = recommendations state.
Proof.
  split.
  - eexists. split; [apply key_metrics_entries|]. repeat split.
  - repeat split.
Qed.

End Report.

(** ** Decimal digits *)

Section Digits.

Local Open Scope Z_scope.
Local Open Scope string_scope.

Lemma append_assoc (a b c : string) : (a ++ b) ++ c = a ++ (b ++ c).
Proof. induction a as [|x a IH]; cbn; [reflexivity|]. rewrite IH. reflexivity. Qed.

Lemma append_nil_r (a : string) : a ++ "" = a.
Proof. induction a as [|x a IH]; cbn; [reflexivity|]. rewrite IH. reflexivity. Qed.

Lemma length_append (a b : string) :
  String.length (a ++ b) = (String.length a + String.length b)%nat.
Proof. induction a as [|x a IH]; cbn; [reflexivity|]. rewrite IH. reflexivity. Qed.

Lemma digit_cases (d : Z) :
  0 <= d < 10 ->
  d = 0 \/ d = 1 \/ d = 2 \/ d = 3 \/ d = 4 \/ d = 5 \/ d = 6 \/ d = 7 \/
  d = 8 \/ d = 9.
Proof. lia. Qed.

Lemma digit_char_digit (d : Z) :
  0 <= d < 10 -> is_digit (digit_char d) = true /\ digit_val (digit_char d) = d.
Proof.
  intro H. destruct (digit_cases d H) as [->|[->|[->|[->|[->|[->|[->|[->|[->| ->]]]]]]]]];
    split; reflexivity.
Qed.

Lemma fixed_digits_acc (k : nat) (n : Z) (acc : string) :
  fixed_digits k n acc = fixed_digits k n "" ++ acc.
Proof.
  revert n acc. induction k as [|k IH]; intros n acc; [reflexivity|].
  cbn [fixed_digits]. rewrite IH. rewrite (IH _ (String _ "")).
  rewrite append_assoc. reflexivity.
Qed.

Lemma fixed_digits_last (k : nat) (n : Z) :
  fixed_digits (S k) n "" =
  fixed_digits k (n / 10) "" ++ String (digit_char (n mod 10)) "".
Proof. cbn [fixed_digits]. apply fixed_digits_acc. Qed.

Lemma fixed_digits_first (k : nat) (n : Z) (acc : string) :
  fixed_digits (S k) n acc =
  String (digit_char ((n / 10 ^ Z.of_nat k) mod 10)) (fixed_digits k n acc).
Proof.
  revert n acc. induction k as [|k IH]; intros n acc.
  - cbn [fixed_digits]. change (10 ^ Z.of_nat 0) with 1. rewrite Z.div_1_r.
    reflexivity.
  - change (fixed_digits (S (S k)) n acc)
      with (fixed_digits (S k) (n / 10) (String (digit_char (n mod 10)) acc)).
    rewrite IH. cbn [fixed_digits]. f_equal. f_equal. f_equal.
    rewrite Nat2Z.inj_succ, Z.pow_succ_r by lia.
    rewrite Z.div_div by lia. reflexivity.
Qed.

Lemma fixed_digits_length (k : nat) (n : Z) :
  String.length (fixed_digits k n "") = k.
Proof.
  revert n. induction k as [|k IH]; intro n; [reflexivity|].
  rewrite fixed_digits_first. cbn [String.length]. f_equal.
  clear IH. revert n. induction k as [|k IH]; intro n; [reflexivity|].
  rewrite fixed_digits_first. cbn [String.length]. f_equal. apply IH.
Qed.

Lemma value_of_digits_app (acc : Z) (s1 s2 : string) :
  value_of_digits acc (s1 ++ s2) = value_of_digits (value_of_digits acc s1) s2.
Proof.
  revert acc. induction s1 as [|c s1 IH]; intro acc; [reflexivity|].
  cbn. apply IH.
Qed.

Lemma value_of_fixed_digits (k : nat) (n acc : Z) :
  0 <= n ->
  value_of_digits acc (fixed_digits k n "") =
  acc * 10 ^ Z.of_nat k + n mod 10 ^ Z.of_nat k.
Proof.
  revert n acc. induction k as [|k IH]; intros n acc Hn.
  - cbn. rewrite Z.mod_1_r. lia.
  - rewrite fixed_digits_last, value_of_digits_app.
    rewrite IH by (apply Z.div_pos; lia).
    cbn [value_of_digits].
    destruct (digit_char_digit (n mod 10)) as [_ ->];
      [apply Z.mod_pos_bound; lia|].
    rewrite Nat2Z.inj_succ, Z.pow_succ_r by lia.
    rewrite (Z.rem_mul_r n 10 (10 ^ Z.of_nat k)) by lia.
    lia.
Qed.

Lemma all_digits_app (s1 s2 : string) :
  all_digits (s1 ++ s2) = all_digits s1 && all_digits s2.
Proof.
  induction s1 as [|c s1 IH]; [reflexivity|].
  cbn. rewrite IH. apply andb_assoc.
Qed.

Lemma fixed_digits_all (k : nat) (n : Z) :
  0 <= n -> all_digits (fixed_digits k n "") = true.
Proof.
  revert n. induction k as [|k IH]; intros n Hn; [reflexivity|].
  rewrite fixed_digits_last, all_digits_app.
  rewrite IH by (apply Z.div_pos; lia). cbn [all_digits andb].
  destruct (digit_char_digit (n mod 10)) as [-> _];
    [apply Z.mod_pos_bound; lia|reflexivity].
Qed.

Lemma span_digits_app (s rest : string) :
  all_digits s = true -> no_digit_ahead rest ->
  span_digits (s ++ rest) = (s, rest).
Proof.
  intros A R. induction s as [|c s IH].
  - cbn. destruct rest as [|c r]; [reflexivity|].
    cbn in *. rewrite R. reflexivity.
  - cbn in *. apply andb_true_iff in A. destruct A as [-> A].
    rewrite (IH A). reflexivity.
Qed.

Lemma count_digits_spec (fuel : nat) (n : Z) :
  0 <= n -> Z.log2 n <= Z.of_nat fuel ->
  let d := Z.of_nat (count_digits fuel n) in
  1 <= d /\ n < 10 ^ d /\ (0 < n -> 10 ^ (d - 1) <= n).
Proof.
  revert n. induction fuel as [|fuel IH]; intros n Hn Hl; cbn [count_digits].
  - assert (n < 2).
    { destruct (Z.ltb_spec n 2); [assumption|].
      assert (1 <= Z.log2 n) by (apply Z.log2_le_pow2; lia). lia. }
    cbn. lia.
  - destruct (Z.ltb_spec n 10) as [L|L].
    + cbn. lia.
    + assert (Hq : 0 <= n / 10) by (apply Z.div_pos; lia).
      assert (Hl' : Z.log2 (n / 10) <= Z.of_nat fuel).
      { assert (P : 0 < n / 10) by (apply Z.div_str_pos; lia).
        destruct (Z.log2_spec n ltac:(lia)) as [_ U].
        assert (Z.log2 (n / 10) < Z.log2 n); [|lia].
        apply Z.log2_lt_pow2; [exact P|].
        rewrite Z.pow_succ_r in U by apply Z.log2_nonneg.
        pose proof (Z.mul_div_le n 10 ltac:(lia)). lia. }
      specialize (IH (n / 10) Hq Hl'). cbv zeta in IH.
      destruct IH as (D1 & D2 & D3).
      rewrite Nat2Z.inj_succ. cbv zeta.
      set (d := Z.of_nat (count_digits fuel (n / 10))) in *.
      replace (Z.succ d - 1) with d by lia.
      rewrite Z.pow_succ_r by lia.
      split; [lia|]. split.
      * pose proof (Z.div_mod n 10 ltac:(lia)).
        pose proof (Z.mod_pos_bound n 10 ltac:(lia)). lia.
      * intros _. assert (0 < n / 10) by (apply Z.div_str_pos; lia).
        specialize (D3 H).
        replace d with (Z.succ (d - 1)) by lia.
        rewrite Z.pow_succ_r by lia.
        pose proof (Z.div_mod n 10 ltac:(lia)).
        pose proof (Z.mod_pos_bound n 10 ltac:(lia)). lia.
Qed.

Lemma num_digits_spec (n : Z) :
  0 <= n ->
  let d := Z.of_nat (num_digits n) in
  1 <= d /\ n < 10 ^ d /\ (0 < n -> 10 ^ (d - 1) <= n).
Proof.
  intro Hn. apply count_digits_spec; [assumption|].
  rewrite Z2Nat.id by apply Z.log2_nonneg. lia.
Qed.

Lemma str_nat_value (n : Z) : 0 <= n -> value_of_digits 0 (str_nat n) = n.
Proof.
  intro Hn. unfold str_nat. rewrite value_of_fixed_digits by assumption.
  destruct (num_digits_spec n Hn) as (_ & U & _).
  rewrite Z.mod_small by lia. lia.
Qed.

Lemma str_nat_all (n : Z) : 0 <= n -> all_digits (str_nat n) = true.
Proof. intro Hn. apply fixed_digits_all. assumption. Qed.

Lemma str_nat_small (n : Z) :
  0 <= n < 10 -> str_nat n = String (digit_char n) "".
Proof.
  intro H. destruct (digit_cases n H) as [->|[->|[->|[->|[->|[->|[->|[->|[->| ->]]]]]]]]];
    reflexivity.
Qed.

(** The text of [n > 0] starts with a digit from 1 to 9. *)
Lemma str_nat_head (n : Z) :
  0 < n ->
  exists c t, str_nat n = String c t /\ is_digit c = true /\
              Ascii.eqb c "0" = false /\ Ascii.eqb c "-" = false.
Proof.
  intro Hn. unfold str_nat.
  destruct (num_digits_spec n ltac:(lia)) as (D1 & D2 & D3).
  specialize (D3 Hn).
  destruct (num_digits n) as [|k] eqn:E; [cbn in D1; lia|].
  rewrite fixed_digits_first.
  rewrite Nat2Z.inj_succ in D2, D3.
  replace (Z.succ (Z.of_nat k) - 1) with (Z.of_nat k) in D3 by lia.
  rewrite Z.pow_succ_r in D2 by lia.
  set (p := 10 ^ Z.of_nat k) in *.
  assert (Hp : 0 < p) by (apply Z.pow_pos_nonneg; lia).
  assert (L : 1 <= n / p < 10).
  { split.
    - apply Z.div_le_lower_bound; lia.
    - apply Z.div_lt_upper_bound; lia. }
  rewrite Z.mod_small by lia.
  exists (digit_char (n / p)), (fixed_digits k n "").
  split; [reflexivity|].
  assert (C : n / p = 1 \/ n / p = 2 \/ n / p = 3 \/ n / p = 4 \/ n / p = 5 \/
              n / p = 6 \/ n / p = 7 \/ n / p = 8 \/ n / p = 9) by lia.
  destruct C as [->|[->|[->|[->|[->|[->|[->|[->| ->]]]]]]]];
    repeat split; reflexivity.
Qed.

Lemma str_nat_zero : str_nat 0 = "0".
Proof. reflexivity. Qed.

(** *** Scanning a number *)

Lemma number_end_no_digit (s : string) : number_end s -> no_digit_ahead s.
Proof. destruct s; cbn; tauto. Qed.

Lemma scan_frac_eq (c : ascii) (r : string) :
  scan_frac (String c r) =
  if Ascii.eqb c "."
  then match span_digits r with
       | (EmptyString, _) => (None, String c r)
       | (d, r') => (Some d, r')
       end
  else (None, String c r).
Proof. destruct c as [[] [] [] [] [] [] [] []]; reflexivity. Qed.

Lemma scan_frac_none (s : string) :
  number_end s -> scan_frac s = (None, s).
Proof.
  destruct s as [|c r]; [reflexivity|].
  intros (_ & P & _). rewrite scan_frac_eq, P. reflexivity.
Qed.

Lemma scan_exp_none (s : string) :
  number_end s -> scan_exp s = (None, s).
Proof.
  destruct s as [|c r]; [reflexivity|].
  intros (_ & _ & E1 & E2). cbn [scan_exp]. rewrite E1, E2. reflexivity.
Qed.

Lemma scan_int_part_str_nat (n : Z) (rest : string) :
  0 <= n -> no_digit_ahead rest \/ n = 0 ->
  scan_int_part (str_nat n ++ rest) = Some (str_nat n, rest).
Proof.
  intros Hn R.
  destruct (Z.eq_dec n 0) as [->|N].
  - reflexivity.
  - destruct R as [R|R]; [|contradiction].
    destruct (str_nat_head n ltac:(lia)) as (c & t & E & D & Z0 & _).
    pose proof (span_digits_app (str_nat n) rest (str_nat_all n Hn) R) as S.
    rewrite E in *. cbn [append scan_int_part]. rewrite Z0, D.
    cbn [append] in S. rewrite S. reflexivity.
Qed.

Lemma sign_eq (c : ascii) (r : string) :
  match String c r with
  | String "-" t => (true, t)
  | _ => (false, String c r)
  end = if Ascii.eqb c "-" then (true, r) else (false, String c r).
Proof. destruct c as [[] [] [] [] [] [] [] []]; reflexivity. Qed.

Lemma scan_magnitude_int (n : Z) (rest : string) :
  0 <= n -> number_end rest ->
  scan_magnitude (str_nat n ++ rest) = Some (inl n, rest).
Proof.
  intros Hn R. unfold scan_magnitude.
  rewrite scan_int_part_str_nat
    by (auto using number_end_no_digit).
  rewrite scan_frac_none, scan_exp_none by assumption.
  rewrite str_nat_value by assumption. reflexivity.
Qed.

(** The text of a natural number does not start with a minus sign. *)
Lemma str_nat_unsigned (n : Z) (rest : string) :
  0 <= n ->
  exists c t, str_nat n ++ rest = String c t /\ Ascii.eqb c "-" = false.
Proof.
  intro Hn. destruct (Z.eq_dec n 0) as [->|N].
  - exists "0"%char, rest. split; reflexivity.
  - destruct (str_nat_head n ltac:(lia)) as (c & t & E & _ & _ & M).
    exists c, (t ++ rest). rewrite E. split; [reflexivity|exact M].
Qed.

(** An [int] reads back from its text. *)
Lemma scan_number_int (z : Z) (rest : string) :
  number_end rest ->
  scan_number (str_int z ++ rest) = Some (PInt z, rest).
Proof.
  intro R. unfold scan_number, str_int.
  destruct (Z.ltb_spec z 0) as [L|L].
  - cbn [append].
    rewrite scan_magnitude_int by (assumption || lia).
    f_equal. f_equal. f_equal. lia.
  - destruct (str_nat_unsigned z rest L) as (c & t & E & M).
    rewrite E, sign_eq, M, <- E.
    rewrite scan_magnitude_int by assumption. reflexivity.
Qed.

(** *** Powers of ten *)

Lemma pow10_pos (k : Z) : 0 < 10 ^ k \/ k < 0.
Proof.
  destruct (Z.ltb_spec k 0); [right; assumption|left].
  apply Z.pow_pos_nonneg; lia.
Qed.

Lemma inject_pow10_nonzero (k : Z) : 0 <= k -> ~ (inject_Z (10 ^ k) == 0)%Q.
Proof.
  intros Hk E. unfold Qeq in E. cbn in E.
  destruct (pow10_pos k); lia.
Qed.

Lemma pow10Q_sub (a b : Z) :
  0 <= a -> 0 <= b ->
  (pow10Q (a - b) == inject_Z (10 ^ a) / inject_Z (10 ^ b))%Q.
Proof.
  intros Ha Hb. unfold pow10Q.
  pose proof (inject_pow10_nonzero b Hb) as Nb.
  destruct (Z.leb_spec 0 (a - b)) as [L|L].
  - replace (10 ^ a) with (10 ^ (a - b) * 10 ^ b).
    + rewrite inject_Z_mult. field. exact Nb.
    + rewrite <- Z.pow_add_r by lia. f_equal. lia.
  - pose proof (inject_pow10_nonzero (- (a - b)) ltac:(lia)) as Nab.
    pose proof (inject_pow10_nonzero a Ha) as Na.
    replace (10 ^ b) with (10 ^ (- (a - b)) * 10 ^ a).
    + rewrite inject_Z_mult. field. split; assumption.
    + rewrite <- Z.pow_add_r by lia. f_equal. lia.
Qed.

(** *** Scanning the text of a [float] *)

Lemma fixed_digits_cons (k : nat) (n : Z) :
  exists c t, fixed_digits (S k) n "" = String c t.
Proof. rewrite fixed_digits_first. eauto. Qed.

Lemma scan_frac_digits (fd rest : string) :
  all_digits fd = true -> fd <> "" -> no_digit_ahead rest ->
  scan_frac (String "." (fd ++ rest)) = (Some fd, rest).
Proof.
  intros A N R. rewrite scan_frac_eq. cbn [Ascii.eqb Bool.eqb].
  rewrite (span_digits_app fd rest A R).
  destruct fd; [contradiction|reflexivity].
Qed.

Lemma scan_positional (n : Z) (k : nat) (rest : string) :
  0 <= n -> number_end rest ->
  exists v,
    scan_magnitude
      (str_nat (n / 10 ^ Z.of_nat k) ++ "." ++ frac_text n k ++ rest)
      = Some (inr v, rest) /\
    (v == inject_Z n / inject_Z (10 ^ Z.of_nat k))%Q.
Proof.
  intros Hn R. unfold scan_magnitude.
  assert (Hp : 0 < 10 ^ Z.of_nat k) by (apply Z.pow_pos_nonneg; lia).
  assert (Hq : 0 <= n / 10 ^ Z.of_nat k) by (apply Z.div_pos; lia).
  rewrite scan_int_part_str_nat by (auto; left; cbn; reflexivity).
  assert (A : all_digits (frac_text n k) = true).
  { destruct k; [reflexivity|]. apply fixed_digits_all. assumption. }
  assert (N : frac_text n k <> "").
  { destruct k; [discriminate|].
    destruct (fixed_digits_cons k n) as (c & t & E).
    unfold frac_text. rewrite E. discriminate. }
  cbn [append]. rewrite scan_frac_digits
    by (auto using number_end_no_digit).
  rewrite scan_exp_none by assumption.
  eexists. split; [reflexivity|].
  rewrite value_of_digits_app, str_nat_value by assumption.
  destruct k as [|k].
  - cbn [frac_text value_of_digits String.length].
    change (10 ^ Z.of_nat 0) with 1. rewrite Z.div_1_r.
    change (digit_val "0") with 0.
    replace (10 * n + 0) with (n * 10) by lia.
    rewrite inject_Z_mult. change (pow10Q (0 - Z.of_nat 1)) with (1 # 10)%Q.
    change (inject_Z 10) with (10 # 1)%Q. change (inject_Z 1) with 1%Q.
    field.
  - unfold frac_text. rewrite value_of_fixed_digits by assumption.
    rewrite fixed_digits_length.
    rewrite (Z.mul_comm (n / _)), <- Z.div_mod by lia.
    rewrite (pow10Q_sub 0 (Z.of_nat (S k))) by lia.
    change (inject_Z (10 ^ 0)) with 1%Q. field.
    apply inject_pow10_nonzero. lia.
Qed.

Lemma strip_zeros_spec (fuel : nat) (n t m t' : Z) :
  0 < n -> 0 <= t -> strip_zeros fuel n t = (m, t') ->
  0 < m /\ t <= t' /\ n * 10 ^ t = m * 10 ^ t'.
Proof.
  revert n t. induction fuel as [|fuel IH]; intros n t Hn Ht; cbn [strip_zeros].
  - intros [= <- <-]. lia.
  - destruct (Z.eqb_spec (n mod 10) 0) as [E|E]; cbn [andb].
    + destruct (Z.eqb_spec n 0) as [Z0|_]; [lia|]. cbn [negb].
      intro H.
      assert (D : n = 10 * (n / 10)).
      { pose proof (Z.div_mod n 10 ltac:(lia)). lia. }
      apply IH in H; [|lia|lia].
      destruct H as (M & T & X). split; [assumption|]. split; [lia|].
      rewrite <- X, Z.pow_add_r by lia. rewrite D at 1.
      change (10 ^ 1) with 10. lia.
    + intros [= <- <-]. lia.
Qed.

Lemma exp_digits_spec (a : Z) :
  0 <= a ->
  all_digits (exp_digits a) = true /\ exp_digits a <> "" /\
  value_of_digits 0 (exp_digits a) = a.
Proof.
  intro Ha. unfold exp_digits. destruct (a <? 10)%Z.
  - cbn [all_digits value_of_digits]. rewrite str_nat_all by assumption.
    change (10 * 0 + digit_val "0") with 0.
    rewrite str_nat_value by assumption.
    repeat split. discriminate.
  - rewrite str_nat_all, str_nat_value by assumption.
    repeat split. destruct (Z.eq_dec a 0) as [->|N]; [discriminate|].
    destruct (str_nat_head a ltac:(lia)) as (c & t & -> & _). discriminate.
Qed.

Lemma scan_exp_text (e : Z) (rest : string) :
  no_digit_ahead rest ->
  scan_exp (String "e" (str_exp e ++ rest)) = (Some e, rest).
Proof.
  intro R. unfold str_exp. fold (exp_digits (Z.abs e)).
  destruct (exp_digits_spec (Z.abs e) ltac:(lia)) as (A & N & V).
  cbn [scan_exp Ascii.eqb Bool.eqb orb].
  destruct (Z.ltb_spec e 0) as [L|L]; cbn [append];
    rewrite (span_digits_app _ rest A R);
    (destruct (exp_digits (Z.abs e)) as [|c t] eqn:E; [contradiction|]);
    rewrite V; f_equal; f_equal; lia.
Qed.

Lemma scan_scientific (m t : Z) (k : nat) (rest : string) :
  0 < m -> 0 <= t -> no_digit_ahead rest ->
  let d := num_digits m in
  exists v,
    scan_magnitude
      (str_nat (m / 10 ^ Z.of_nat (d - 1)) ++ mantissa_tail m d ++ "e" ++
       str_exp (Z.of_nat d - 1 + t - Z.of_nat k) ++ rest)
      = Some (inr v, rest) /\
    (v == inject_Z (m * 10 ^ t) / inject_Z (10 ^ Z.of_nat k))%Q.
Proof.
  intros Hm Ht R d.
  destruct (num_digits_spec m ltac:(lia)) as (D1 & D2 & D3).
  fold d in D1, D2, D3. specialize (D3 Hm).
  assert (V : forall (i fd : string) (e : Z),
             value_of_digits 0 (i ++ fd) = m ->
             e - Z.of_nat (String.length fd) = t - Z.of_nat k ->
             (inject_Z (value_of_digits 0 (i ++ fd)) *
              pow10Q (e - Z.of_nat (String.length fd)) ==
              inject_Z (m * 10 ^ t) / inject_Z (10 ^ Z.of_nat k))%Q).
  { intros i fd e -> ->. rewrite pow10Q_sub by lia.
    rewrite inject_Z_mult. field. apply inject_pow10_nonzero. lia. }
  unfold scan_magnitude.
  destruct d as [|[|d']] eqn:E.
  - cbn in D1. lia.
  - (* one digit *)
    change (10 ^ Z.of_nat (1 - 1)) with 1. rewrite Z.div_1_r.
    cbn [mantissa_tail append].
    rewrite scan_int_part_str_nat by (try lia; left; reflexivity).
    rewrite scan_frac_eq. cbn [Ascii.eqb Bool.eqb].
    rewrite scan_exp_text by assumption.
    eexists. split; [reflexivity|].
    apply V.
    + rewrite append_nil_r. apply str_nat_value. lia.
    + cbn. lia.
  - (* a leading digit, a point and the other digits *)
    replace (S (S d') - 1)%nat with (S d') by lia.
    rewrite Nat2Z.inj_succ in D2, D3.
    replace (Z.succ (Z.of_nat (S d')) - 1) with (Z.of_nat (S d')) in D3 by lia.
    rewrite Z.pow_succ_r in D2 by lia.
    set (p := 10 ^ Z.of_nat (S d')) in *.
    assert (Hp : 0 < p) by (apply Z.pow_pos_nonneg; lia).
    assert (L : 1 <= m / p < 10).
    { split.
      - apply Z.div_le_lower_bound; lia.
      - apply Z.div_lt_upper_bound; lia. }
    cbn [mantissa_tail append].
    rewrite scan_int_part_str_nat by (try lia; left; reflexivity).
    destruct (fixed_digits_cons d' m) as (c & tl & F).
    rewrite scan_frac_digits;
      [| apply fixed_digits_all; lia | rewrite F; discriminate | reflexivity].
    cbn [append]. rewrite scan_exp_text by assumption.
    eexists. split; [reflexivity|].
    apply V.
    + rewrite value_of_digits_app, str_nat_value by lia.
      rewrite value_of_fixed_digits by lia. fold p.
      rewrite (Z.mul_comm (m / p)), <- Z.div_mod by lia. reflexivity.
    + rewrite fixed_digits_length. lia.
Qed.

Lemma str_nat_digit_head (n : Z) (rest : string) :
  0 <= n ->
  exists c t, str_nat n ++ rest = String c t /\ is_digit c = true /\
              Ascii.eqb c "-" = false.
Proof.
  intro Hn. destruct (Z.eq_dec n 0) as [->|N].
  - exists "0"%char, rest. repeat split.
  - destruct (str_nat_head n ltac:(lia)) as (c & t & E & D & _ & M).
    exists c, (t ++ rest). rewrite E. repeat split; assumption.
Qed.

(** The text of [n / 10 ^ k] reads back as that number, and starts with a
    digit. *)
Lemma scan_repr_decimal (n : Z) (k : nat) (rest : string) :
  0 <= n -> number_end rest ->
  (exists v,
     scan_magnitude (repr_decimal n k ++ rest) = Some (inr v, rest) /\
     (v == inject_Z n / inject_Z (10 ^ Z.of_nat k))%Q) /\
  (exists c t, repr_decimal n k ++ rest = String c t /\ is_digit c = true /\
               Ascii.eqb c "-" = false).
Proof.
  intros Hn R. unfold repr_decimal.
  assert (Hp : 0 < 10 ^ Z.of_nat k) by (apply Z.pow_pos_nonneg; lia).
  destruct ((n =? 0) || ((10 ^ Z.of_nat k <=? n * 10 ^ 4) &&
                         (n <? 10 ^ Z.of_nat k * 10 ^ 16)))%Z eqn:C.
  - rewrite !append_assoc. split.
    + apply scan_positional; assumption.
    + apply str_nat_digit_head. apply Z.div_pos; lia.
  - apply orb_false_iff in C. destruct C as [C _].
    apply Z.eqb_neq in C.
    destruct (strip_zeros (Z.to_nat (Z.log2 n)) n 0) as [m t] eqn:S.
    assert (Hn' : 0 < n) by lia.
    destruct (strip_zeros_spec _ n 0 m t Hn' (Z.le_refl 0) S)
      as (Hm & Ht & X).
    rewrite !append_assoc. split.
    + destruct (scan_scientific m t k rest Hm Ht
                  (number_end_no_digit _ R)) as (v & Sv & Ev).
      exists v. split; [exact Sv|].
      rewrite Ev, <- X. change (10 ^ 0) with 1. rewrite Z.mul_1_r.
      reflexivity.
    + apply str_nat_digit_head. apply Z.div_pos; [lia|].
      apply Z.pow_pos_nonneg; lia.
Qed.

Lemma places_from_spec (fuel k0 : nat) (den : Z) (k : nat) :
  places_from fuel k0 den = Some k -> (10 ^ Z.of_nat k) mod den = 0.
Proof.
  revert k0. induction fuel as [|fuel IH]; intro k0; cbn [places_from];
    destruct (Z.eqb_spec ((10 ^ Z.of_nat k0) mod den) 0) as [E|E];
    try (intros [= <-]; exact E); try discriminate.
  apply IH.
Qed.

Lemma canonical_spec (q : Q) : canonical q = true -> Qred q = q.
Proof.
  unfold canonical. intro H. apply andb_true_iff in H. destruct H as [A B].
  apply Z.eqb_eq in A, B. destruct (Qred q) as [a b], q as [c d].
  cbn in *. injection B as ->. subst. reflexivity.
Qed.

Lemma decimal_value (q : Q) (k : nat) :
  (10 ^ Z.of_nat k) mod Z.pos (Qden q) = 0 ->
  (inject_Z (Z.abs (Qnum q) * (10 ^ Z.of_nat k / Z.pos (Qden q))) /
   inject_Z (10 ^ Z.of_nat k) == Qabs q)%Q.
Proof.
  intro M. destruct q as [a b]. cbn [Qnum Qden Qabs] in *.
  set (c := 10 ^ Z.of_nat k / Z.pos b).
  assert (E : 10 ^ Z.of_nat k = Z.pos b * c).
  { apply Z.div_exact in M; [exact M|lia]. }
  assert (P : 0 < 10 ^ Z.of_nat k) by (apply Z.pow_pos_nonneg; lia).
  assert (C : ~ (inject_Z c == 0)%Q).
  { unfold Qeq. cbn. nia. }
  assert (B : ~ (inject_Z (Z.pos b) == 0)%Q).
  { unfold Qeq. cbn. lia. }
  rewrite E, (Qmake_Qdiv (Z.abs a) b), !inject_Z_mult. field. split; assumption.
Qed.

(** A printable [float] reads back from its text. *)
Lemma scan_number_float (q : Q) (rest : string) :
  printable (PFloat q) = true -> number_end rest ->
  scan_number (float_repr q ++ rest) = Some (PFloat q, rest) /\
  exists c t, float_repr q ++ rest = String c t /\
              (is_digit c = true \/ c = "-"%char).
Proof.
  cbn [printable]. intros P R. apply andb_true_iff in P. destruct P as [Cn D].
  apply canonical_spec in Cn.
  destruct (decimal_places q) as [k|] eqn:Dk; [clear D|discriminate].
  unfold float_repr. rewrite Cn. cbv zeta. rewrite Dk.
  unfold decimal_places in Dk. rewrite Cn in Dk.
  apply places_from_spec in Dk.
  set (n := Z.abs (Qnum q) * (10 ^ Z.of_nat k / Z.pos (Qden q))).
  assert (Hn : 0 <= n).
  { apply Z.mul_nonneg_nonneg; [lia|]. apply Z.div_pos; [|lia].
    apply Z.pow_nonneg. lia. }
  destruct (scan_repr_decimal n k rest Hn R)
    as [(v & Sv & Ev) (c & t & Et & Dc & Mc)].
  assert (Ev' : (v == Qabs q)%Q).
  { rewrite Ev. apply decimal_value. exact Dk. }
  unfold scan_number.
  destruct (Z.ltb_spec (Qnum q) 0) as [L|L].
  - cbn [append]. rewrite Sv. split.
    + f_equal. f_equal. f_equal.
      transitivity (Qred q); [|exact Cn]. apply Qred_complete.
      rewrite Ev'. destruct q as [a b]. unfold Qeq. cbn in *. lia.
    + eexists _, _. split; [reflexivity|]. right. reflexivity.
  - cbn [append]. rewrite Et, sign_eq, Mc, <- Et, Sv. split.
    + f_equal. f_equal. f_equal.
      transitivity (Qred q); [|exact Cn]. apply Qred_complete.
      rewrite Ev'. destruct q as [a b]. unfold Qeq. cbn in *. lia.
    + rewrite Et. eexists _, _. split; [reflexivity|]. left. exact Dc.
Qed.

Lemma scan_number_num (n : num) (rest : string) :
  printable n = true -> number_end rest ->
  scan_number (py_str n ++ rest) = Some (n, rest) /\
  exists c t, py_str n ++ rest = String c t /\
              (is_digit c = true \/ c = "-"%char).
Proof.
  intros P R. destruct n as [z|q].
  - split; [apply scan_number_int; exact R|]. cbn [py_str]. unfold str_int.
    destruct (Z.ltb_spec z 0) as [L|L].
    + eexists _, _. split; [reflexivity|]. right. reflexivity.
    + destruct (str_nat_digit_head z rest L) as (c & t & E & D & _).
      exists c, t. auto.
  - apply scan_number_float; assumption.
Qed.

End Digits.

(** ** Strings *)

Section Strings.

Local Open Scope string_scope.

Lemma scan_escape_char (c : ascii) (tail : string) :
  scan_string (escape_char c ++ tail) =
  match scan_string tail with
  | Some (t, r) => Some (String c t, r)
  | None => None
  end.
Proof. destruct c as [[] [] [] [] [] [] [] []]; reflexivity. Qed.

Lemma scan_escape (s rest : string) :
  scan_string (escape s ++ String dq rest) = Some (s, rest).
Proof.
  induction s as [|c s IH]; [reflexivity|].
  cbn [escape]. rewrite append_assoc, scan_escape_char, IH. reflexivity.
Qed.

Lemma dump_string_app (s rest : string) :
  dump_string s ++ rest = String dq (escape s ++ String dq rest).
Proof.
  unfold dump_string. cbn [append]. rewrite append_assoc. reflexivity.
Qed.

End Strings.

(** ** Values *)

Section Values.

Local Open Scope string_scope.

Lemma pyval_induction (P : pyval -> Prop) :
  P VNone -> (forall b, P (VBool b)) -> (forall n, P (VNum n)) ->
  (forall s, P (VStr s)) ->
  (forall l, Forall P l -> P (VList l)) ->
  (forall d, Forall (fun kv => P (snd kv)) d -> P (VDict d)) ->
  forall v, P v.
Proof.
  intros HN HB HNum HS HL HD. fix IH 1. intros [|b|n|s|l|d].
  - exact HN.
  - apply HB.
  - apply HNum.
  - apply HS.
  - apply HL. induction l as [|x l IHl]; constructor; [apply IH|exact IHl].
  - apply HD. induction d as [|[k x] d IHd]; constructor; [apply IH|exact IHd].
Qed.

Lemma dumps_list (lvl : nat) (x : pyval) (xs : list pyval) :
  dumps_at lvl (VList (x :: xs)) =
  "[" ++ newline_indent (S lvl) ++ dumps_at (S lvl) x ++ items_text lvl xs.
Proof.
  cbn [dumps_at]. do 3 f_equal.
  induction xs as [|y xs IH]; [reflexivity|].
  cbn [items_text]. rewrite <- IH. reflexivity.
Qed.

Lemma dumps_dict (lvl : nat) (k : string) (x : pyval)
    (xs : list (string * pyval)) :
  dumps_at lvl (VDict ((k, x) :: xs)) =
  "{" ++ newline_indent (S lvl) ++ dump_string k ++ ": " ++
  dumps_at (S lvl) x ++ members_text lvl xs.
Proof.
  cbn [dumps_at]. do 5 f_equal.
  induction xs as [|[k' y] xs IH]; [reflexivity|].
  cbn [members_text fst snd]. rewrite <- IH. reflexivity.
Qed.

Lemma cost_list (l : list pyval) : scan_cost (VList l) = S (cost_items l).
Proof.
  reflexivity.
Qed.

Lemma cost_dict (d : list (string * pyval)) :
  scan_cost (VDict d) = S (cost_members d).
Proof.
  reflexivity.
Qed.

Lemma skip_ws_spaces (n : nat) (s : string) :
  skip_ws (spaces n ++ s) = skip_ws s.
Proof. induction n as [|n IH]; [reflexivity|]. exact IH. Qed.

Lemma skip_ws_newline_indent (lvl : nat) (s : string) :
  skip_ws (newline_indent lvl ++ s) = skip_ws s.
Proof. unfold newline_indent. cbn [append skip_ws]. apply skip_ws_spaces. Qed.

Lemma skip_ws_head (c : ascii) (t : string) :
  is_ws c = false -> skip_ws (String c t) = String c t.
Proof. intro H. cbn [skip_ws]. rewrite H. reflexivity. Qed.

Lemma number_head (c : ascii) :
  is_digit c = true \/ c = "-"%char ->
  is_ws c = false /\ Ascii.eqb c "]" = false /\ Ascii.eqb c "[" = false /\
  Ascii.eqb c "{" = false /\ Ascii.eqb c dq = false.
Proof.
  destruct c as [[] [] [] [] [] [] [] []]; intros [H|H];
    try discriminate H; repeat split.
Qed.

Lemma scan_value_number (f : nat) (c : ascii) (t : string) :
  is_digit c = true \/ c = "-"%char ->
  scan_value (S f) (String c t) =
  match scan_number (String c t) with
  | Some (n, r) => Some (VNum n, r)
  | None => None
  end.
Proof.
  destruct c as [[] [] [] [] [] [] [] []]; intros [H|H];
    try discriminate H; reflexivity.
Qed.

(** The text of a value starts with a character that is neither white
    space nor a closing bracket. *)
Lemma dumps_head (v : pyval) (lvl : nat) (rest : string) :
  json_ok v = true ->
  exists c t, dumps_at lvl v ++ rest = String c t /\
              is_ws c = false /\ Ascii.eqb c "]" = false.
Proof.
  destruct v as [|[]|n|s|[|x l]|[|[k x] d]]; intro H;
    try (eexists _, _; split; [reflexivity|split; reflexivity]).
  cbn [json_ok] in H.
  destruct (scan_number_num n "" H I) as [_ (c & t & E & D)].
  rewrite append_nil_r in E.
  exists c, (t ++ rest). cbn [dumps_at]. unfold dump_num. rewrite E.
  split; [reflexivity|].
  destruct (number_head c D) as (W & B & _). auto.
Qed.

Lemma expect_same (c : ascii) (r : string) : expect c (String c r) = Some r.
Proof. cbn [expect]. rewrite Ascii.eqb_refl. reflexivity. Qed.

Lemma expect_other (c x : ascii) (r : string) :
  Ascii.eqb x c = false -> expect c (String x r) = None.
Proof. intro H. cbn [expect]. rewrite H. reflexivity. Qed.

Lemma number_end_items (lvl : nat) (xs : list pyval) (rest : string) :
  number_end (items_text lvl xs ++ rest).
Proof. destruct xs; cbn; repeat split. Qed.

Lemma number_end_members (lvl : nat) (xs : list (string * pyval))
    (rest : string) :
  number_end (members_text lvl xs ++ rest).
Proof. destruct xs; cbn; repeat split. Qed.

Lemma skip_to_value (lvl : nat) (v : pyval) (rest : string) :
  json_ok v = true ->
  skip_ws (newline_indent lvl ++ dumps_at lvl v ++ rest) =
    dumps_at lvl v ++ rest /\
  expect "]" (dumps_at lvl v ++ rest) = None.
Proof.
  intro H. destruct (dumps_head v lvl rest H) as (c & t & E & W & B).
  rewrite skip_ws_newline_indent, E. split.
  - apply skip_ws_head. exact W.
  - apply expect_other. exact B.
Qed.

Lemma scan_items_text (lvl : nat) (xs : list pyval) :
  Forall reads_back xs -> forallb json_ok xs = true ->
  forall (x : pyval) (rest : string) (fuel : nat),
    reads_back x -> json_ok x = true ->
    (cost_items (x :: xs) <= fuel)%nat ->
    scan_items fuel (dumps_at (S lvl) x ++ items_text lvl xs ++ rest)
      = Some (x :: xs, rest).
Proof.
  induction xs as [|y ys IH]; intros F J x rest fuel Hx Jx C;
    (destruct fuel as [|f]; [cbn in C; lia|]);
    cbn [cost_items] in C; cbn [scan_items];
    rewrite (Hx (S lvl) _ f (number_end_items lvl _ rest)) by lia.
  - cbn [items_text]. rewrite append_assoc, skip_ws_newline_indent.
    reflexivity.
  - cbn [items_text append]. rewrite !append_assoc.
    cbn [forallb] in J. apply andb_true_iff in J. destruct J as [Jy Jys].
    destruct (skip_to_value (S lvl) y (items_text lvl ys ++ rest) Jy)
      as [Sk _].
    rewrite skip_ws_head by reflexivity.
    rewrite expect_other by reflexivity. rewrite expect_same, Sk.
    inversion F as [|? ? Hy Hys]; subst.
    rewrite (IH Hys Jys y rest f Hy Jy) by (cbn [cost_items]; lia).
    reflexivity.
Qed.

Lemma scan_member (lvl : nat) (k : string) (x : pyval) (rest : string)
    (f : nat) :
  reads_back x -> json_ok x = true -> number_end rest -> (scan_cost x <= f)%nat ->
  exists s1,
    expect dq (dump_string k ++ ": " ++ dumps_at lvl x ++ rest) = Some s1 /\
    scan_string s1 = Some (k, ": " ++ dumps_at lvl x ++ rest) /\
    expect ":" (skip_ws (": " ++ dumps_at lvl x ++ rest))
      = Some (" " ++ dumps_at lvl x ++ rest) /\
    scan_value f (skip_ws (" " ++ dumps_at lvl x ++ rest)) = Some (x, rest).
Proof.
  intros Hx Jx R C. rewrite dump_string_app. eexists. split; [apply expect_same|].
  split; [apply scan_escape|]. split; [reflexivity|].
  destruct (dumps_head x lvl rest Jx) as (c & t & E & W & _).
  change (skip_ws (" " ++ dumps_at lvl x ++ rest))
    with (skip_ws (dumps_at lvl x ++ rest)).
  rewrite E, (skip_ws_head c t W), <- E.
  apply Hx; assumption.
Qed.

Lemma scan_members_text (lvl : nat) (xs : list (string * pyval)) :
  Forall (fun kv => reads_back (snd kv)) xs ->
  forallb (fun kv => json_ok (snd kv)) xs = true ->
  forall (k : string) (x : pyval) (rest : string) (fuel : nat),
    reads_back x -> json_ok x = true ->
    (cost_members ((k, x) :: xs) <= fuel)%nat ->
    scan_members fuel
      (dump_string k ++ ": " ++ dumps_at (S lvl) x ++ members_text lvl xs ++
       rest)
      = Some ((k, x) :: xs, rest).
Proof.
  induction xs as [|[k' y] ys IH]; intros F J k x rest fuel Hx Jx C;
    (destruct fuel as [|f]; [cbn in C; lia|]);
    cbn [cost_members snd] in C; cbn [scan_members];
    assert (Cx : (scan_cost x <= f)%nat) by lia.
  - destruct (scan_member (S lvl) k x (members_text lvl [] ++ rest) f Hx Jx
                (number_end_members lvl [] rest) Cx)
      as (s1 & E1 & E2 & E3 & E4).
    rewrite E1, E2, E3, E4.
    cbn [members_text]. rewrite append_assoc, skip_ws_newline_indent.
    reflexivity.
  - destruct (scan_member (S lvl) k x
                (members_text lvl ((k', y) :: ys) ++ rest) f Hx Jx
                (number_end_members lvl _ rest) Cx)
      as (s1 & E1 & E2 & E3 & E4).
    rewrite E1, E2, E3, E4.
    cbn [members_text append fst snd]. rewrite !append_assoc.
    cbn [forallb snd] in J. apply andb_true_iff in J. destruct J as [Jy Jys].
    rewrite skip_ws_head by reflexivity.
    rewrite expect_other by reflexivity. rewrite expect_same.
    rewrite skip_ws_newline_indent.
    rewrite dump_string_app at 1. rewrite skip_ws_head by reflexivity.
    rewrite <- dump_string_app.
    inversion F as [|? ? Hy Hys]; subst. cbn [snd] in Hy.
    match goal with
    | |- context [scan_members f ?a] =>
        replace a with (dump_string k' ++ ": " ++ dumps_at (S lvl) y ++
                        members_text lvl ys ++ rest)
          by (cbn [append]; rewrite ?append_assoc; reflexivity)
    end.
    rewrite (IH Hys Jys k' y rest f Hy Jy) by (cbn [cost_members snd]; lia).
    reflexivity.
Qed.

Lemma distinct_NoDup (l : list string) : distinct l = true -> NoDup l.
Proof.
  induction l as [|k l IH]; cbn [distinct]; intro H; constructor.
  - apply andb_true_iff in H. destruct H as [H _].
    apply negb_true_iff in H. intro I.
    assert (X : existsb (String.eqb k) l = true).
    { apply existsb_exists. exists k. split; [exact I|apply String.eqb_refl]. }
    congruence.
  - apply IH. apply andb_true_iff in H. tauto.
Qed.

Lemma dict_set_fresh (k : string) (v : pyval) (d : list (string * pyval)) :
  ~ In k (map fst d) -> dict_set k v d = (d ++ [(k, v)])%list.
Proof.
  induction d as [|[k' v'] d IH]; cbn; intro H; [reflexivity|].
  destruct (String.eqb_spec k k') as [->|_]; [tauto|].
  rewrite IH by tauto. reflexivity.
Qed.

Lemma fold_dict_set (l acc : list (string * pyval)) :
  NoDup (map fst acc ++ map fst l) ->
  fold_left (fun d kv => dict_set (fst kv) (snd kv) d) l acc
    = (acc ++ l)%list.
Proof.
  revert acc. induction l as [|[k v] l IH]; intros acc N; cbn [fold_left].
  - rewrite app_nil_r. reflexivity.
  - cbn [map fst snd] in *.
    assert (F : ~ In k (map fst acc)).
    { apply NoDup_remove_2 in N. intro I. apply N. apply in_or_app. tauto. }
    rewrite (dict_set_fresh k v acc F), IH.
    + rewrite <- app_assoc. reflexivity.
    + rewrite map_app. cbn [map fst]. rewrite <- app_assoc. exact N.
Qed.

Lemma dict_of_pairs_distinct (l : list (string * pyval)) :
  distinct (map fst l) = true -> dict_of_pairs l = l.
Proof.
  intro H. unfold dict_of_pairs. rewrite fold_dict_set; [reflexivity|].
  cbn [map app]. apply distinct_NoDup. exact H.
Qed.

Lemma forallb_Forall {A : Type} (p : A -> bool) (P : A -> Prop) (l : list A) :
  Forall (fun x => p x = true -> P x) l -> forallb p l = true -> Forall P l.
Proof.
  induction 1 as [|x l H F IH]; cbn [forallb]; intro B; constructor.
  - apply H. apply andb_true_iff in B. tauto.
  - apply IH. apply andb_true_iff in B. tauto.
Qed.

(** Every value that Python can hold reads back from its text. *)
Lemma scan_dumps (v : pyval) : json_ok v = true -> reads_back v.
Proof.
  induction v as [|b|n|s|l IH|d IH] using pyval_induction; intros J lvl rest fuel R C;
    (destruct fuel as [|f]; [cbn in C; lia|]).
  - reflexivity.
  - destruct b; reflexivity.
  - cbn [json_ok] in J. cbn [dumps_at]. unfold dump_num.
    destruct (scan_number_num n rest J R) as [Sn (c & t & E & D)].
    rewrite E, (scan_value_number f c t D), <- E, Sn. reflexivity.
  - cbn [dumps_at]. rewrite dump_string_app.
    cbn [scan_value Ascii.eqb Bool.eqb]. change (Ascii.eqb dq dq) with true.
    cbv iota. rewrite scan_escape. reflexivity.
  - cbn [json_ok] in J. pose proof (forallb_Forall _ _ _ IH J) as RB.
    destruct l as [|x xs]; [reflexivity|].
    rewrite cost_list in C. rewrite dumps_list. cbn [append].
    rewrite !append_assoc.
    cbn [scan_value Ascii.eqb Bool.eqb].
    cbn [forallb] in J. apply andb_true_iff in J. destruct J as [Jx Jxs].
    destruct (skip_to_value (S lvl) x (items_text lvl xs ++ rest) Jx)
      as [Sk Ex].
    rewrite Sk, Ex.
    inversion RB as [|? ? Hx Hxs]; subst.
    rewrite (scan_items_text lvl xs Hxs Jxs x rest f Hx Jx) by lia.
    reflexivity.
  - cbn [json_ok] in J. apply andb_true_iff in J. destruct J as [Dk J].
    pose proof (forallb_Forall _ _ _ IH J) as RB.
    destruct d as [|[k x] xs]; [reflexivity|].
    rewrite cost_dict in C. rewrite dumps_dict. cbn [append].
    rewrite !append_assoc.
    cbn [scan_value Ascii.eqb Bool.eqb].
    cbn [forallb snd] in J. apply andb_true_iff in J. destruct J as [Jx Jxs].
    rewrite skip_ws_newline_indent, dump_string_app.
    rewrite skip_ws_head by reflexivity.
    rewrite expect_other by reflexivity.
    rewrite <- dump_string_app.
    inversion RB as [|? ? Hx Hxs]; subst. cbn [snd] in Hx.
    match goal with
    | |- context [scan_members f ?a] =>
        replace a with (dump_string k ++ ": " ++ dumps_at (S lvl) x ++
                        members_text lvl xs ++ rest)
          by (cbn [append]; rewrite ?append_assoc; reflexivity)
    end.
    rewrite (scan_members_text lvl xs Hxs Jxs k x rest f Hx Jx) by lia.
    rewrite dict_of_pairs_distinct by exact Dk. reflexivity.
Qed.

Lemma newline_indent_length (lvl : nat) :
  (1 <= String.length (newline_indent lvl))%nat.
Proof. unfold newline_indent. cbn [String.length]. lia. Qed.

Lemma items_text_length (lvl : nat) (xs : list pyval) :
  Forall long_enough xs ->
  (cost_items xs <= String.length (items_text lvl xs))%nat.
Proof.
  induction 1 as [|x xs Hx _ IH]; cbn [cost_items items_text]; [lia|].
  rewrite !length_append. specialize (Hx (S lvl)).
  pose proof (newline_indent_length (S lvl)). cbn [String.length]. lia.
Qed.

Lemma members_text_length (lvl : nat) (xs : list (string * pyval)) :
  Forall (fun kv => long_enough (snd kv)) xs ->
  (cost_members xs <= String.length (members_text lvl xs))%nat.
Proof.
  induction 1 as [|x xs Hx _ IH]; cbn [cost_members members_text]; [lia|].
  rewrite !length_append. specialize (Hx (S lvl)).
  pose proof (newline_indent_length (S lvl)). cbn [String.length]. lia.
Qed.

Lemma cost_le_length (v : pyval) : json_ok v = true -> long_enough v.
Proof.
  induction v as [|b|n|s|l IH|d IH] using pyval_induction; intros J lvl.
  - cbn. lia.
  - destruct b; cbn; lia.
  - destruct (dumps_head (VNum n) lvl "" J) as (c & t & E & _).
    rewrite append_nil_r in E. rewrite E. cbn. lia.
  - cbn. lia.
  - cbn [json_ok] in J. pose proof (forallb_Forall _ _ _ IH J) as L.
    destruct l as [|x xs]; [cbn; lia|].
    rewrite cost_list, dumps_list, !length_append. cbn [cost_items].
    inversion L as [|? ? Hx Hxs]; subst. specialize (Hx (S lvl)).
    pose proof (items_text_length lvl xs Hxs).
    pose proof (newline_indent_length (S lvl)). cbn [String.length]. lia.
  - cbn [json_ok] in J. apply andb_true_iff in J. destruct J as [_ J].
    pose proof (forallb_Forall _ _ _ IH J) as L.
    destruct d as [|[k x] xs]; [cbn; lia|].
    rewrite cost_dict, dumps_dict, !length_append. cbn [cost_members snd].
    inversion L as [|? ? Hx Hxs]; subst. specialize (Hx (S lvl)).
    cbn [snd] in Hx.
    pose proof (members_text_length lvl xs Hxs).
    pose proof (newline_indent_length (S lvl)). cbn [String.length]. lia.
Qed.

(** A value that Python can hold is what [json.loads] returns on the text
    [json.dumps] writes for it. *)
Lemma loads_dumps (v : pyval) : json_ok v = true -> loads (dumps v) = Some v.
Proof.
  intro J. unfold loads, dumps.
  destruct (dumps_head v 0 "" J) as (c & t & E & W & _).
  rewrite append_nil_r in E.
  assert (Sk : skip_ws (dumps_at 0 v) = dumps_at 0 v).
  { rewrite E. apply skip_ws_head. exact W. }
  rewrite Sk.
  pose proof (scan_dumps v J 0%nat "" (S (String.length (dumps_at 0 v))) I)
    as R.
  rewrite append_nil_r in R. rewrite R; [reflexivity|].
  pose proof (cost_le_length v J 0%nat). lia.
Qed.

End Values.

(** ** The report as JSON *)

Section ReportJson.

Local Open Scope string_scope.

Lemma Qred_involutive (q : Q) : Qred (Qred q) = Qred q.
Proof. apply Qred_complete. apply Qred_correct. Qed.

Lemma canonical_Qred (q : Q) : canonical (Qred q) = true.
Proof.
  unfold canonical. rewrite Qred_involutive, !Z.eqb_refl. reflexivity.
Qed.

Lemma divisor_of_100_found (d : Z) :
  (0 < d)%Z -> (d | 100)%Z -> places_found d = true.
Proof.
  intros P D.
  assert (L : (d <= 100)%Z) by (apply Z.divide_pos_le; [lia|exact D]).
  assert (C : divisors_checked = true) by (vm_compute; reflexivity).
  unfold divisors_checked in C. rewrite forallb_forall in C.
  specialize (C (Z.to_nat d - 1)%nat).
  assert (I : In (Z.to_nat d - 1)%nat (seq 0 100)) by (apply in_seq; lia).
  specialize (C I). cbv zeta in C.
  replace (Z.of_nat (S (Z.to_nat d - 1))) with d in C by lia.
  apply Z.mod_divide in D; [|lia]. rewrite D in C. exact C.
Qed.

(** What [round(x, 2)] returns is printable. *)
Lemma printable_round2 (a : num) : printable (round2 a) = true.
Proof.
  destruct a as [z|q]; [reflexivity|].
  cbn [round2 printable]. rewrite canonical_Qred. cbn [andb].
  set (n := round_half_even (q * 100)).
  set (r := Qred (inject_Z n / 100)).
  assert (E : (r == inject_Z n / 100)%Q) by apply Qred_correct.
  assert (G : Z.gcd (Qnum r) (Z.pos (Qden r)) = 1%Z) by apply gcd_Qred.
  assert (P : decimal_places r =
              places_from (Z.to_nat (Z.log2 (Z.pos (Qden r)))) 0
                          (Z.pos (Qden r))).
  { unfold decimal_places. unfold r at 1 2. rewrite Qred_involutive.
    reflexivity. }
  rewrite P. clearbody r n. clear P.
  assert (D : (Z.pos (Qden r) | 100)%Z).
  { apply Z.gauss with (m := Qnum r).
    - unfold Qeq in E. cbn in E. exists n. lia.
    - rewrite Z.gcd_comm. exact G. }
  pose proof (divisor_of_100_found (Z.pos (Qden r)) ltac:(lia) D) as F.
  unfold places_found in F.
  destruct (places_from _ 0 (Z.pos (Qden r))); [reflexivity|discriminate].
Qed.

Lemma json_ok_strings (l : list string) :
  forallb json_ok (map VStr l) = true.
Proof. induction l as [|s l IH]; [reflexivity|exact IH]. Qed.

Lemma json_ok_report (state : BusinessState) :
  printable (today_profit (metrics state)) = true ->
  printable (revenue (today_data state)) = true ->
  printable (cost (today_data state)) = true ->
  printable (today_cac (metrics state)) = true ->
  printable (today_roi (metrics state)) = true ->
  json_ok (build_report state) = true.
Proof.
  intros H1 H2 H3 H4 H5. unfold build_report.
  cbn [json_ok forallb map fst snd printable].
  rewrite H1, H2, H3, H4, H5, !json_ok_strings. reflexivity.
Qed.

(** C9.  The report read back from its JSON text is the report.  This
    holds for every report the graph assembles, whatever the
    recommendations and the state it starts from; for every report
    assembled from the metrics the engine returns on records whose
    revenue and cost are integers; and for every state at all whose five
    numbers in the report are printable, that is, integers or floats. *)
Theorem report_round_trip :
  (forall (recs : list string) (initial : BusinessState),
     exists s, run_graph recs initial = Ok s /\
               loads (dumps (final_report s)) = Some (final_report s)) /\
  (forall (s0 s : BusinessState) (recs : list string) (r c : Z),
     processing_node s0 = Ok s ->
     revenue (today_data s0) = PInt r -> cost (today_data s0) = PInt c ->
     let s' := output_node (recommendation_node recs (analysis_node s)) in
     loads (dumps (final_report s')) = Some (final_report s')) /\
  (forall state : BusinessState,
     printable (today_profit (metrics state)) = true ->
     printable (revenue (today_data state)) = true ->
     printable (cost (today_data state)) = true ->
     printable (today_cac (metrics state)) = true ->
     printable (today_roi (metrics state)) = true ->
     loads (dumps (final_report (output_node state)))
       = Some (final_report (output_node state))).
Proof.
  assert (General : forall state : BusinessState,
     printable (today_profit (metrics state)) = true ->
     printable (revenue (today_data state)) = true ->
     printable (cost (today_data state)) = true ->
     printable (today_cac (metrics state)) = true ->
     printable (today_roi (metrics state)) = true ->
     loads (dumps (final_report (output_node state)))
       = Some (final_report (output_node state))).
  { intros state H1 H2 H3 H4 H5. apply loads_dumps.
    apply json_ok_report; assumption. }
  assert (Engine : forall (s0 s : BusinessState) (recs : list string) (r c : Z),
     processing_node s0 = Ok s ->
     revenue (today_data s0) = PInt r -> cost (today_data s0) = PInt c ->
     let s' := output_node (recommendation_node recs (analysis_node s)) in
     loads (dumps (final_report s')) = Some (final_report s')).
  { intros s0 s recs r c P R C s'. unfold processing_node in P.
    destruct (compute_metrics (today_data s0) (yesterday_data s0))
      as [[m status]|e] eqn:E; cbn [bind] in P; [|discriminate P].
    injection P as <-.
    apply compute_metrics_inv in E. cbv zeta in E.
    destruct E as (Tp & _ & Tc & _ & _ & _ & _ & _ & _ & Tr & _).
    apply General; cbn [output_node recommendation_node analysis_node
                        metrics today_data].
    - rewrite Tp, R, C. reflexivity.
    - rewrite R. reflexivity.
    - rewrite C. reflexivity.
    - rewrite Tc. apply printable_round2.
    - rewrite Tr. apply printable_round2. }
  split; [|split; [exact Engine|exact General]].
  intros recs initial. unfold run_graph.
  destruct (processing_node (input_node initial)) as [s|e] eqn:P.
  - exists (output_node (recommendation_node recs (analysis_node s))).
    split; [reflexivity|].
    exact (Engine (input_node initial) s recs 12000%Z 8000%Z P
                  eq_refl eq_refl).
  - exfalso. unfold processing_node in P. cbn [input_node today_data
      yesterday_data] in P.
    assert (X : compute_metrics sample_today sample_yesterday
                = Ok (sample_metrics, "positive"))
      by (vm_compute; reflexivity).
    rewrite X in P. discriminate P.
Qed.

Lemma report_round_trip_witness :
  loads (dumps (final_report (output_node sample_state)))
    = Some (final_report (output_node sample_state)).
Proof.
  apply (proj2 (proj2 report_round_trip) sample_state); reflexivity.
Defined.

End ReportJson.

(** ** The conversation controller *)

Section Controller.

Lemma assoc_in {A : Type} (k : string) (d : list (string * A)) (v : A) :
  assoc k d = Some v -> In k (map fst d).
Proof.
  induction d as [|[k' v'] d IH]; cbn; [discriminate|].
  destruct (String.eqb_spec k k') as [->|_]; auto.
Qed.

Lemma has_key_in (k : string) : has_key k = true -> In k keys.
Proof.
  unfold has_key. destruct (assoc k BUSINESS_DATA) eqn:E; [|discriminate].
  intros _. exact (assoc_in _ _ _ E).
Qed.

(** Every key of the dataset parses as a date with a previous day. *)
Lemma previous_date_of_key (k : string) :
  has_key k = true -> exists p, previous_date k = Ok p.
Proof.
  intro H. apply has_key_in in H. unfold keys in H. cbn in H.
  repeat destruct H as [<-|H]; try contradiction;
    eexists; vm_compute; reflexivity.
Qed.

Lemma merge_effect (s : State) (r r0 : node_result) :
  effect r = effect r0 ->
  stage (merge s r) = stage (merge s r0) /\
  selected_date (merge s r) = selected_date (merge s r0).
Proof.
  destruct r as [u|], r0 as [u0|]; cbn; try discriminate; auto.
  intro H. injection H as -> ->. auto.
Qed.

(** The node of the graph moves the conversation as [process_input]
    does, whatever the model answers. *)
Lemma enhanced_effect (a : answer) (s : State) :
  match process_input_enhanced a s, process_input s with
  | Ok r, Ok r0 => effect r = effect r0
  | Raise e, Raise e0 => e = e0
  | _, _ => False
  end.
Proof.
  unfold process_input_enhanced, process_input, generate_greeting.
  repeat match goal with
         | |- context [if ?g then _ else _] => destruct g
         | |- context [bind ?r _] => destruct r; cbn [bind]
         end; reflexivity.
Qed.

Lemma enhanced_fallback (e : exn) (s : State) :
  process_input_enhanced (Raise e) s = process_input s.
Proof. reflexivity. Qed.

(** [process_input] never raises: the date it parses is a key. *)
Lemma process_input_total (s : State) : exists r, process_input s = Ok r.
Proof.
  unfold process_input.
  repeat match goal with
         | |- context [if has_key ?k then _ else _] =>
             let E := fresh "E" in
             destruct (has_key k) eqn:E;
             [destruct (previous_date_of_key _ E) as [p ->]; cbn [bind]|]
         | |- context [if ?g then _ else _] => destruct g
         end; eauto.
Qed.

(** *** Retrying on an input that is not understood *)




(** *** Yes and no at [confirm_analysis] *)

Lemma is_space_lower (c : ascii) :
  Str.is_space (Str.lower_char c) = Str.is_space c.
Proof. destruct c as [[] [] [] [] [] [] [] []]; reflexivity. Qed.

Lemma lower_lstrip (s : string) :
  Str.lower (Str.lstrip s) = Str.lstrip (Str.lower s).
Proof.
  induction s as [|c s IH]; [reflexivity|].
  cbn [Str.lstrip Str.lower]. rewrite is_space_lower.
  destruct (Str.is_space c); [exact IH|reflexivity].
Qed.

Lemma lower_rstrip (s : string) :
  Str.lower (Str.rstrip s) = Str.rstrip (Str.lower s).
Proof.
  induction s as [|c s IH]; [reflexivity|].
  cbn [Str.rstrip Str.lower]. rewrite <- IH, is_space_lower.
  destruct (Str.rstrip s); cbn [Str.lower]; [|reflexivity].
  destruct (Str.is_space c); reflexivity.
Qed.

Lemma lower_strip (s : string) :
  Str.lower (Str.strip s) = Str.strip (Str.lower s).
Proof. unfold Str.strip. rewrite lower_rstrip, lower_lstrip. reflexivity. Qed.

Lemma mem_in (x : string) (l : list string) : Str.mem x l = true -> In x l.
Proof.
  unfold Str.mem. rewrite existsb_exists. intros [y [I E]].
  apply String.eqb_eq in E. subst. exact I.
Qed.

(** A yes or a no, in any case of letters, has no white space around
    it: trimming does not change how it is read. *)
Lemma token_trimmed (input : string) (tokens : list string) :
  tokens = affirmative \/ tokens = negative ->
  Str.mem (Str.lower input) tokens = true ->
  Str.lower (Str.strip input) = Str.lower input.
Proof.
  intros T H. rewrite lower_strip. apply mem_in in H.
  destruct T as [-> | ->]; cbn in H;
    repeat destruct H as [<-|H]; try contradiction; reflexivity.
Qed.

(** C6.  At [confirm_analysis] an input that reads as a yes, in any case
    of letters, moves the conversation to [analysis] and keeps the
    selected date; one that reads as a no moves it back to
    [date_selection], clears the selected date and sends the data table
    again.  A bare yes or no reads as itself. *)
Theorem confirm_analysis_transitions (s : State) :
  stage s = "confirm_analysis" ->
  (forall tokens, tokens = affirmative \/ tokens = negative ->
     Str.mem (Str.lower (user_input s)) tokens = true ->
     Str.mem (Str.lower (trimmed s)) tokens = true) /\
  (Str.mem (Str.lower (trimmed s)) affirmative = true ->
     process_input s = Ok (Partial (reply msg_starting "analysis")) /\
     stage (merge s (Partial (reply msg_starting "analysis"))) = "analysis" /\
     selected_date (merge s (Partial (reply msg_starting "analysis")))
       = selected_date s) /\
  (Str.mem (Str.lower (trimmed s)) negative = true ->
     let r := Partial (reply_date msg_new_date "date_selection" "") in
     process_input s = Ok r /\
     stage (merge s r) = "date_selection" /\
     selected_date (merge s r) = "" /\
     exists rest, new_messages (reply_date msg_new_date "date_selection" "")
                  = [get_data_table ++ rest]).
Proof.
  intro St. split; [|split].
  - intros tokens T H. unfold trimmed.
    rewrite (token_trimmed _ _ T H). exact H.
  - intro A. unfold process_input. fold (trimmed s). rewrite St, A.
    repeat split.
  - intro N. cbv zeta. unfold process_input. fold (trimmed s).
    rewrite St, N.
    assert (A : Str.mem (Str.lower (trimmed s)) affirmative = false).
    { apply mem_in in N. cbn in N.
      repeat destruct N as [<-|N]; try contradiction; reflexivity. }
    rewrite A. repeat split. eexists. reflexivity.
Qed.

Lemma confirm_analysis_transitions_witness :
  process_input confirm_yes = Ok (Partial (reply msg_starting "analysis")) /\
  stage (merge confirm_yes (Partial (reply msg_starting "analysis")))
    = "analysis" /\
  selected_date (merge confirm_yes (Partial (reply msg_starting "analysis")))
    = "2024-01-05".
Proof.
  apply (proj1 (proj2 (confirm_analysis_transitions confirm_yes eq_refl))).
  reflexivity.
Defined.

(** *** Reachable states *)

Lemma ready_same_date (s s' : State) :
  selected_date s' = selected_date s -> ready s -> ready s'.
Proof. unfold ready. intros ->. auto. Qed.

Lemma process_input_invariant (s : State) (r : node_result) :
  invariant s -> process_input s = Ok r -> invariant (merge s r).
Proof.
  unfold invariant, process_input. intros I.
  destruct (String.eqb_spec (stage s) "greeting") as [E|_].
  { intros [= <-]. cbn. intros [X|X]; discriminate X. }
  destruct (String.eqb_spec (stage s) "date_selection") as [E|_].
  { destruct (has_key (Str.strip (user_input s))) eqn:K.
    - destruct (previous_date (Str.strip (user_input s))) as [p|e] eqn:P;
        cbn [bind]; [|discriminate].
      destruct (has_key p) eqn:Kp; cbn [negb].
      + intros [= <-]. cbn. intros _. split; [exact K|]. eauto.
      + intros [= <-]. cbn. intros [X|X]; discriminate X.
    - intros [= <-]. cbn. intros [X|X]; discriminate X. }
  destruct (String.eqb_spec (stage s) "confirm_analysis") as [E|_].
  { destruct (Str.mem (Str.lower (Str.strip (user_input s))) affirmative).
    - intros [= <-]. cbn. intros _.
      apply (ready_same_date s); [reflexivity|]. apply I. left. exact E.
    - destruct (Str.mem (Str.lower (Str.strip (user_input s))) negative).
      + intros [= <-]. cbn. intros [X|X]; discriminate X.
      + intros [= <-]. cbn. intros _.
        apply (ready_same_date s); [reflexivity|]. apply I. left. exact E. }
  destruct (String.eqb_spec (stage s) "complete") as [E|_].
  { destruct (Str.mem (Str.lower (Str.strip (user_input s))) affirmative);
      [|destruct (Str.mem (Str.lower (Str.strip (user_input s))) negative)];
      intros [= <-]; cbn; intros [X|X]; discriminate X. }
  intros [= <-]. exact I.
Qed.

Lemma invariant_effect (s : State) (r r0 : node_result) :
  effect r = effect r0 -> invariant (merge s r0) -> invariant (merge s r).
Proof.
  intros E. destruct (merge_effect s r r0 E) as [St Sd].
  unfold invariant. rewrite St. intros I H.
  apply (ready_same_date (merge s r0)); auto.
Qed.

Lemma analyze_invariant (s : State) (a1 a2 : answer) (r : node_result) :
  invariant s -> analyze_business a1 a2 s = Ok r -> invariant (merge s r).
Proof.
  unfold analyze_business. intro I.
  destruct (stage s =? "analysis"); cbn [negb].
  - repeat match goal with
           | |- bind ?x _ = Ok _ -> _ =>
               destruct x as [?|?]; cbn [bind]; [|discriminate]
           | |- context [let (_, _) := ?x in _] => destruct x
           end.
    intros [= <-]. unfold invariant. cbn. intros [X|X]; discriminate X.
  - intros [= <-]. exact I.
Qed.

Lemma step_invariant (s s' : State) : invariant s -> step s s' -> invariant s'.
Proof.
  intros I St. revert I.
  destruct St as [s0 input r H | s0 input a r H | s0 a1 a2 r H]; intro I.
  - apply process_input_invariant; [exact I | exact H].
  - pose proof (enhanced_effect a (with_input input s0)) as E.
    rewrite H in E.
    destruct (process_input (with_input input s0)) as [r0|] eqn:P;
      [|contradiction].
    apply (invariant_effect _ r r0 E).
    apply process_input_invariant; [exact I | exact P].
  - apply analyze_invariant with (a1 := a1) (a2 := a2); assumption.
Qed.

Lemma reachable_invariant (s : State) : reachable s -> invariant s.
Proof.
  induction 1 as [|s s' _ IH St].
  - intros [X|X]; discriminate X.
  - exact (step_invariant s s' IH St).
Qed.

Lemma assoc_in_values {A : Type} (k : string) (d : list (string * A)) (v : A) :
  assoc k d = Some v -> In v (map snd d).
Proof.
  induction d as [|[k' v'] d IH]; cbn; [discriminate|].
  destruct (String.eqb_spec k k') as [->|_]; [intros [= ->]|]; auto.
Qed.

(** No day of the dataset has a revenue or a cost of zero. *)
Lemma lookup_nonzero (k : string) (d : DayData) :
  lookup k = Ok d -> day_revenue d <> 0%Z /\ day_cost d <> 0%Z.
Proof.
  unfold lookup. destruct (assoc k BUSINESS_DATA) as [d'|] eqn:E;
    [|discriminate].
  intros [= <-]. apply assoc_in_values in E. cbn in E.
  repeat destruct E as [<-|E]; try contradiction; cbn; lia.
Qed.

Lemma has_key_lookup (k : string) :
  has_key k = true -> exists d, lookup k = Ok d.
Proof.
  unfold has_key, lookup. destruct (assoc k BUSINESS_DATA); [eauto|discriminate].
Qed.

Lemma llm_fallback_ok (date : string) (current previous : DayData) :
  day_revenue previous <> 0%Z -> day_cost previous <> 0%Z ->
  exists r, llm_fallback date current previous = Ok r.
Proof.
  intros R C. unfold llm_fallback.
  rewrite !div_ok by (cbn; unfold Qeq; cbn; lia).
  cbn [bind]. eauto.
Qed.

(** On a state that is ready the analysis returns, whatever the model
    answers. *)
Lemma analyze_returns (s : State) (a1 a2 : answer) :
  stage s = "analysis" -> ready s ->
  exists current json_output content,
    lookup (selected_date s) = Ok current /\
    analyze_business a1 a2 s =
      Ok (Partial {| new_messages := [final_response content json_output];
                     new_stage := Some "complete";
                     new_selected_date := None;
                     new_analysis_result := Some json_output |}).
Proof.
  intros St [K [p [P Kp]]].
  destruct (has_key_lookup _ K) as [current C].
  destruct (has_key_lookup _ Kp) as [previous Cp].
  exists current. unfold analyze_business. rewrite St.
  change ("analysis" =? "analysis") with true. cbn [negb].
  rewrite P. cbn [bind]. rewrite C. cbn [bind]. rewrite Cp. cbn [bind].
  destruct (ask_model a1 a2 current) as [[content json]|e].
  - exists json, content. split; reflexivity.
  - destruct (lookup_nonzero _ _ Cp) as [R0 C0].
    destruct (llm_fallback_ok (selected_date s) current previous R0 C0)
      as [[content json] F].
    rewrite F. exists json, content. split; reflexivity.
Qed.

(** C10.  In every state reachable from the initial one, at the stages
    [confirm_analysis] and [analysis] the selected date is a key of the
    dataset and so is the day before it; hence at [analysis] the date
    parse and the two lookups of [analyze_business] succeed and the node
    returns, whatever the model answers. *)
Theorem selected_date_ready (s : State) :
  reachable s ->
  stage s = "confirm_analysis" \/ stage s = "analysis" ->
  has_key (selected_date s) = true /\
  (exists p, previous_date (selected_date s) = Ok p /\ has_key p = true) /\
  (stage s = "analysis" ->
   forall a1 a2, exists r, analyze_business a1 a2 s = Ok r).
Proof.
  intros R St. pose proof (reachable_invariant s R St) as Rd.
  destruct Rd as [K P]. repeat split; auto.
  intros A a1 a2.
  destruct (analyze_returns s a1 a2 A (conj K P)) as (c & j & t & _ & H).
  eauto.
Qed.

Lemma reachable_after_date : reachable after_date.
Proof.
  apply (reach_step after_greeting).
  - apply (reach_step initial_state); [apply reach_initial|].
    apply (step_input initial_state ""). reflexivity.
  - apply (step_input after_greeting "2024-01-05"). reflexivity.
Defined.

Lemma reachable_after_yes : reachable after_yes.
Proof.
  apply (reach_step after_date); [apply reachable_after_date|].
  apply (step_input after_date "yes"). reflexivity.
Defined.

Lemma selected_date_ready_witness :
  has_key (selected_date after_date) = true /\
  (exists p, previous_date (selected_date after_date) = Ok p /\
             has_key p = true) /\
  (stage after_date = "analysis" ->
   forall a1 a2, exists r, analyze_business a1 a2 after_date = Ok r).
Proof.
  apply (selected_date_ready after_date).
  - exact reachable_after_date.
  - left. reflexivity.
Defined.



End Controller.

(** * Further properties of [main.py] *)

(** ** The processing node *)

Section ProcessingNode.

Local Open Scope Q_scope.


Lemma to_Q_abs (a : num) : to_Q (abs a) == Qabs (to_Q a).
Proof. destruct a; reflexivity. Qed.






(** *** Rounding *)

Lemma round_half_even_near (q : Q) :
  Qabs (inject_Z (round_half_even q) - q) <= 1 # 2.
Proof.
  unfold round_half_even.
  pose proof (Qfloor_le q) as L. pose proof (Qlt_floor q) as U.
  rewrite inject_Z_plus in U. change (inject_Z 1) with 1 in U.
  set (fl := Qfloor q) in *. clearbody fl.
  apply Qabs_Qle_condition.
  destruct (Qcompare_spec (q - inject_Z fl) (1 # 2)) as [E|E|E]; cbv iota;
    [destruct (Z.even fl)| |];
    rewrite ?inject_Z_plus; change (inject_Z 1) with 1;
    set (f := inject_Z fl) in *; clearbody f; split; lra.
Qed.

Lemma round_2dp_near (q : Q) : Qabs (round_2dp q - q) <= 1 # 200.
Proof.
  unfold round_2dp.
  pose proof (round_half_even_near (q * 100)) as H.
  apply Qabs_Qle_condition in H. apply Qabs_Qle_condition.
  set (n := inject_Z (round_half_even (q * 100))) in *. clearbody n.
  unfold Qdiv. change (/ 100) with (1 # 100).
  split; lra.
Qed.

Lemma round2_near (a : num) : Qabs (to_Q (round2 a) - to_Q a) <= 1 # 200.
Proof.
  assert (E : to_Q (round2 a) - to_Q a == round_2dp (to_Q a) - to_Q a).
  { rewrite to_Q_round2. reflexivity. }
  rewrite E. apply round_2dp_near.
Qed.





(** *** Rounding against a threshold *)

Lemma even_not_next (a b : Z) :
  Z.even a = true -> Z.even b = true -> a <> (b - 1)%Z /\ a <> (b + 1)%Z.
Proof.
  intros A B. apply Z.even_spec in A, B.
  destruct A as [x ->], B as [z ->]. lia.
Qed.

Ltac atoms fl n :=
  set (f := inject_Z fl) in *; set (m := inject_Z n) in *; clearbody f m; lra.

(** The nearest integer is below an even bound [n] exactly when the
    number is below [n - 1/2] ... *)
Lemma round_below (y : Q) (n : Z) :
  Z.even n = true ->
  ((round_half_even y < n)%Z <-> y < inject_Z n - (1 # 2)).
Proof.
  intro En. unfold round_half_even.
  pose proof (Qfloor_le y) as L. pose proof (Qlt_floor y) as U.
  rewrite inject_Z_plus in U. change (inject_Z 1) with 1 in U.
  set (fl := Qfloor y) in *. clearbody fl.
  assert (ZQ : forall a b : Z, (a <= b)%Z -> inject_Z a <= inject_Z b)
    by (intros a b H; rewrite <- Zle_Qle; exact H).
  assert (Cases : forall k : Z,
            ((fl + k < n)%Z -> inject_Z fl + inject_Z k <= inject_Z n - 1) /\
            ((n <= fl + k)%Z -> inject_Z n <= inject_Z fl + inject_Z k)).
  { intro k. split; intro H.
    - assert (H' : (fl + k <= n - 1)%Z) by lia. apply ZQ in H'.
      rewrite inject_Z_plus in H'. unfold Z.sub in H'.
      rewrite inject_Z_plus in H'. exact H'.
    - apply ZQ in H. rewrite inject_Z_plus in H. exact H. }
  pose proof (Cases 0%Z) as [C0 D0]. pose proof (Cases 1%Z) as [C1 D1].
  rewrite Z.add_0_r in C0, D0.
  change (inject_Z 0) with 0 in *. change (inject_Z 1) with 1 in *.
  destruct (Qcompare_spec (y - inject_Z fl) (1 # 2)) as [E|E|E]; cbv iota.
  - destruct (Z.even fl) eqn:Ef.
    + destruct (even_not_next fl n Ef En) as [N _].
      split; intro H.
      * assert (H' : (fl + 1 < n)%Z) by lia. specialize (C1 H').
        atoms fl n.
      * destruct (Z_lt_le_dec fl n) as [|G]; [assumption|exfalso].
        specialize (D0 G). atoms fl n.
    + split; intro H.
      * specialize (C1 H). atoms fl n.
      * destruct (Z_lt_le_dec (fl + 1) n) as [|G]; [assumption|exfalso].
        specialize (D1 G). atoms fl n.
  - split; intro H.
    + specialize (C0 H). atoms fl n.
    + destruct (Z_lt_le_dec fl n) as [|G]; [assumption|exfalso].
      specialize (D0 G). atoms fl n.
  - split; intro H.
    + specialize (C1 H). atoms fl n.
    + destruct (Z_lt_le_dec (fl + 1) n) as [|G]; [assumption|exfalso].
      specialize (D1 G). atoms fl n.
Qed.

(** ... and above it exactly when the number is above [n + 1/2]. *)
Lemma round_above (y : Q) (n : Z) :
  Z.even n = true ->
  ((n < round_half_even y)%Z <-> inject_Z n + (1 # 2) < y).
Proof.
  intro En. unfold round_half_even.
  pose proof (Qfloor_le y) as L. pose proof (Qlt_floor y) as U.
  rewrite inject_Z_plus in U. change (inject_Z 1) with 1 in U.
  set (fl := Qfloor y) in *. clearbody fl.
  assert (ZQ : forall a b : Z, (a <= b)%Z -> inject_Z a <= inject_Z b)
    by (intros a b H; rewrite <- Zle_Qle; exact H).
  assert (Cases : forall k : Z,
            ((n < fl + k)%Z -> inject_Z n + 1 <= inject_Z fl + inject_Z k) /\
            ((fl + k <= n)%Z -> inject_Z fl + inject_Z k <= inject_Z n)).
  { intro k. split; intro H.
    - assert (H' : (n + 1 <= fl + k)%Z) by lia. apply ZQ in H'.
      rewrite !inject_Z_plus in H'. exact H'.
    - apply ZQ in H. rewrite inject_Z_plus in H. exact H. }
  pose proof (Cases 0%Z) as [C0 D0]. pose proof (Cases 1%Z) as [C1 D1].
  rewrite Z.add_0_r in C0, D0.
  change (inject_Z 0) with 0 in *. change (inject_Z 1) with 1 in *.
  destruct (Qcompare_spec (y - inject_Z fl) (1 # 2)) as [E|E|E]; cbv iota.
  - destruct (Z.even fl) eqn:Ef.
    + split; intro H.
      * specialize (C0 H). atoms fl n.
      * destruct (Z_lt_le_dec n fl) as [|G]; [assumption|exfalso].
        destruct (even_not_next fl n Ef En) as [_ N].
        specialize (D0 G).
        assert (G' : (fl = n \/ fl + 1 <= n)%Z) by lia.
        destruct G' as [->|G'].
        -- set (m := inject_Z n) in *. clearbody m. lra.
        -- specialize (D1 G'). atoms fl n.
    + assert (N : fl <> n) by (intros ->; congruence).
      split; intro H.
      * assert (H' : (n < fl + 0)%Z) by lia.
        rewrite Z.add_0_r in H'. specialize (C0 H'). atoms fl n.
      * destruct (Z_lt_le_dec n (fl + 1)) as [|G]; [assumption|exfalso].
        specialize (D1 G). atoms fl n.
  - split; intro H.
    + specialize (C0 H). atoms fl n.
    + destruct (Z_lt_le_dec n fl) as [|G]; [assumption|exfalso].
      specialize (D0 G). atoms fl n.
  - split; intro H.
    + assert (H' : (n <= fl)%Z) by lia.
      assert (Q := ZQ _ _ H'). atoms fl n.
    + destruct (Z_lt_le_dec n (fl + 1)) as [|G]; [assumption|exfalso].
      specialize (D1 G). atoms fl n.
Qed.





(** The change of profit has the sign of the difference of the profits,
    also after a day of loss: the quotient is taken over the absolute
    value of yesterday's profit.  A profit that did not fall gives a
    change that is not negative, one that did not rise a change that is
    not positive. *)
Theorem profit_change_sign (t y : DailyRecord) (m : Metrics) (status : string) :
  compute_metrics t y = Ok (m, status) ->
  (spec_profit y <= spec_profit t -> 0 <= to_Q (profit_change m)) /\
  (spec_profit t <= spec_profit y -> to_Q (profit_change m) <= 0).
Proof.
  intro H. apply compute_metrics_inv in H. cbv zeta in H.
  destruct H as (_ & _ & _ & _ & _ & _ & Hp & _).
  rewrite Hp. clear Hp.
  set (x := if negb (eqb (sub (revenue y) (cost y)) zero)
            then pct (sub (sub (revenue t) (cost t))
                          (sub (revenue y) (cost y)))
                     (abs (sub (revenue y) (cost y)))
            else zero).
  assert (X : to_Q x ==
              if negb (eqb (sub (revenue y) (cost y)) zero)
              then (spec_profit t - spec_profit y) / Qabs (spec_profit y) * 100
              else 0).
  { unfold x. destruct (negb (eqb (sub (revenue y) (cost y)) zero));
      [|reflexivity].
    rewrite to_Q_pct, to_Q_abs, !to_Q_sub. reflexivity. }
  assert (Sign : (spec_profit y <= spec_profit t -> 0 <= to_Q x) /\
                 (spec_profit t <= spec_profit y -> to_Q x <= 0)).
  { rewrite X.
    destruct (negb (eqb (sub (revenue y) (cost y)) zero)) eqn:N;
      [|split; intros _; apply Qle_refl].
    apply negb_true_iff in N.
    assert (P : 0 < Qabs (spec_profit y)).
    { pose proof (Qabs_nonneg (spec_profit y)) as A.
      destruct (Qle_lt_or_eq _ _ A) as [|Z]; [assumption|exfalso].
      assert (E : eqb (sub (revenue y) (cost y)) zero = true).
      { apply eqb_spec. rewrite to_Q_sub. fold (spec_profit y).
        symmetry in Z.
        destruct (spec_profit y) as [a b]. unfold Qeq in *. cbn in *. lia. }
      congruence. }
    assert (I : 0 < / Qabs (spec_profit y))
      by (apply Qinv_lt_0_compat; exact P).
    unfold Qdiv. set (i := / Qabs (spec_profit y)) in *. clearbody i.
    set (a := spec_profit t) in *. set (b := spec_profit y) in *.
    clearbody a b. split; intro H; nra. }
  destruct Sign as [Up Down].
  assert (Z0 : Z.even 0 = true) by reflexivity.
  pose proof (round_below (to_Q x * 100) 0 Z0) as B.
  pose proof (round_above (to_Q x * 100) 0 Z0) as A.
  rewrite to_Q_round2. unfold round_2dp.
  set (r := round_half_even (to_Q x * 100)) in *.
  change (inject_Z 0) with 0 in *.
  unfold Qdiv. change (/ 100) with (1 # 100).
  split; intro H.
  - specialize (Up H).
    assert (R : (0 <= r)%Z).
    { destruct (Z_lt_le_dec r 0) as [G|]; [exfalso|assumption].
      apply B in G. set (v := to_Q x) in *. clearbody v. lra. }
    rewrite Zle_Qle in R. change (inject_Z 0) with 0 in R.
    set (q := inject_Z r) in *. clearbody q. lra.
  - specialize (Down H).
    assert (R : (r <= 0)%Z).
    { destruct (Z_lt_le_dec 0 r) as [G|]; [exfalso|assumption].
      apply A in G. set (v := to_Q x) in *. clearbody v. lra. }
    rewrite Zle_Qle in R. change (inject_Z 0) with 0 in R.
    set (q := inject_Z r) in *. clearbody q. lra.
Qed.

Lemma profit_change_sign_witness :
  exists m,
    compute_metrics smaller_loss_today smaller_loss_yesterday
      = Ok (m, "negative") /\
    spec_profit smaller_loss_today < 0 /\
    to_Q (profit_change m) == 50 # 1 /\
    0 <= to_Q (profit_change m).
Proof.
  eexists. split; [vm_compute; reflexivity|].
  split; [reflexivity|]. split; [reflexivity|].
  refine (proj1 (profit_change_sign smaller_loss_today smaller_loss_yesterday
                   _ "negative" _) _).
  - vm_compute. reflexivity.
  - vm_compute. discriminate.
Defined.

End ProcessingNode.

(** ** The analysis node *)

Section AnalysisNode.

Local Open Scope Q_scope.

Ltac rules m :=
  rewrite evaluate_alerts_spec; unfold alerts_spec, fires;
  destruct (leb (today_profit m) zero),
           (gtb (cac_change m) (PInt 20)),
           (gtb (today_cac m) (PInt 50)),
           (gtb (cost_change m) (revenue_change m) &&
            gtb (revenue_change m) zero),
           (ltb (revenue_change m) (PInt (-10))),
           (ltb (today_roi m) (PInt 10)); cbn.

Ltac no_such_alert :=
  repeat match goal with
         | H : _ \/ _ |- _ => destruct H
         | H : False |- _ => contradiction
         | H : _ = _ |- _ => discriminate H
         end.

(** Which rule puts which alert in the list. *)
Lemma in_alerts_loss (m : Metrics) :
  In alert_loss (evaluate_alerts m) <-> leb (today_profit m) zero = true.
Proof.
  rules m; (split; [intro H|intro H; try discriminate H; auto]);
    try reflexivity; no_such_alert.
Qed.

Lemma in_alerts_cac_growth (m : Metrics) :
  In alert_cac_growth (evaluate_alerts m) <->
  gtb (cac_change m) (PInt 20) = true.
Proof.
  rules m; (split; [intro H|intro H; try discriminate H; auto 10]);
    try reflexivity; no_such_alert.
Qed.


Lemma in_alerts_revenue (m : Metrics) :
  In alert_revenue (evaluate_alerts m) <->
  ltb (revenue_change m) (PInt (-10)) = true.
Proof.
  rules m; (split; [intro H|intro H; try discriminate H; auto 10]);
    try reflexivity; no_such_alert.
Qed.

Lemma in_alerts_roi (m : Metrics) :
  In alert_roi (evaluate_alerts m) <-> ltb (today_roi m) (PInt 10) = true.
Proof.
  rules m; (split; [intro H|intro H; try discriminate H; auto 10]);
    try reflexivity; no_such_alert.
Qed.

Lemma rising_not_falling (a : num) :
  gtb a zero = true -> ltb a (PInt (-10)) = true -> False.
Proof.
  intros G L. apply gtb_spec in G. apply ltb_spec in L.
  cbn [to_Q zero] in G, L.
  change (inject_Z 0) with 0 in G. change (inject_Z (-10)) with (-10 # 1) in L.
  lra.
Qed.

(** The analysis node never gives more than four alerts, and gives none
    twice: the alert on costs needs a rising revenue and the alert on
    revenue a falling one, so the two exclude each other as the two CAC
    alerts do.  Four alerts are reached on metrics of the engine. *)
Theorem alerts_at_most_four (m : Metrics) :
  (List.length (evaluate_alerts m) <= 4)%nat /\
  NoDup (evaluate_alerts m) /\
  ~ (In alert_cost (evaluate_alerts m) /\
     In alert_revenue (evaluate_alerts m)) /\
  (exists m4,
     compute_metrics costly_loss_today costly_loss_yesterday
       = Ok (m4, "negative") /\
     evaluate_alerts m4
       = [alert_loss; alert_cac_growth; alert_revenue; alert_roi]).
Proof.
  rewrite evaluate_alerts_spec. unfold alerts_spec, fires.
  destruct (gtb (revenue_change m) zero) eqn:G,
           (ltb (revenue_change m) (PInt (-10))) eqn:L;
    [exfalso; exact (rising_not_falling _ G L)| | |];
    destruct (leb (today_profit m) zero),
             (gtb (cac_change m) (PInt 20)),
             (gtb (today_cac m) (PInt 50)),
             (gtb (cost_change m) (revenue_change m)),
             (ltb (today_roi m) (PInt 10));
    (split; [cbn; lia|]);
    (split; [apply distinct_NoDup; vm_compute; reflexivity|]);
    (split; [|eexists; split; vm_compute; reflexivity]);
    cbn; intros [C R]; no_such_alert.
Qed.



Lemma no_alerts_no_loss (m : Metrics) :
  evaluate_alerts m = [] -> leb (today_profit m) zero = false.
Proof.
  intro E. destruct (leb (today_profit m) zero) eqn:L; [|reflexivity].
  apply in_alerts_loss in L. rewrite E in L. contradiction.
Qed.

(** The return on a loss is below the threshold of its alert. *)
Lemma roi_of_a_loss (t : DailyRecord) :
  leb (sub (revenue t) (cost t)) zero = true ->
  ltb (round2 (if gtb (cost t) zero
               then pct (sub (revenue t) (cost t)) (cost t) else zero))
      (PInt 10) = true.
Proof.
  intro L. apply ltb_spec.
  set (x := if gtb (cost t) zero
            then pct (sub (revenue t) (cost t)) (cost t) else zero).
  pose proof (round2_near x) as N. apply Qabs_Qle_condition in N.
  assert (X : to_Q x <= 0).
  { unfold x. destruct (gtb (cost t) zero) eqn:G; [|apply Qle_refl].
    apply gtb_spec in G. apply leb_spec in L.
    cbn [to_Q zero] in G, L. change (inject_Z 0) with 0 in G, L.
    rewrite to_Q_pct.
    set (p := to_Q (sub (revenue t) (cost t))) in *. clearbody p.
    set (c := to_Q (cost t)) in *. clearbody c.
    assert (I : 0 < / c) by (apply Qinv_lt_0_compat; exact G).
    unfold Qdiv. set (i := / c) in *. clearbody i. nra. }
  change (to_Q (PInt 10)) with (10 # 1).
  set (r := to_Q (round2 x)) in *. clearbody r.
  set (v := to_Q x) in *. clearbody v. lra.
Qed.

(** What the nodes of the graph say of one day agrees.  After the
    processing, the analysis and the output node, the priority of the
    report is "high" exactly when the profit status is "negative", which
    is exactly when the loss alert is among the alerts; the loss alert
    never comes without the low-ROI alert; and the priority is "low"
    exactly when there is no alert at all. *)
Theorem report_agrees_with_alerts
    (s0 s : BusinessState) (recs : list string) :
  processing_node s0 = Ok s ->
  let s' := output_node (recommendation_node recs (analysis_node s)) in
  (get (final_report s') "action_priority" = Some (VStr "high") <->
   profit_status s' = "negative") /\
  (profit_status s' = "negative" <-> In alert_loss (alerts s')) /\
  (In alert_loss (alerts s') -> In alert_roi (alerts s')) /\
  (get (final_report s') "action_priority" = Some (VStr "low") <->
   alerts s' = []).
Proof.
  intros P s'. unfold processing_node in P.
  destruct (compute_metrics (today_data s0) (yesterday_data s0))
    as [[m status]|e] eqn:E; cbn [bind] in P; [|discriminate P].
  injection P as <-.
  apply compute_metrics_inv in E. cbv zeta in E.
  destruct E as (Tp & _ & _ & _ & _ & _ & _ & _ & _ & Tr & _ & St & _).
  unfold s'. rewrite action_priority_value.
  cbn [output_node recommendation_node analysis_node metrics alerts
       profit_status].
  rewrite in_alerts_loss, in_alerts_roi.
  rewrite St, Tr, Tp, gtb_zero_Qle.
  set (t := today_data s0) in *.
  change (Qle_bool (to_Q (sub (revenue t) (cost t))) 0)
    with (leb (sub (revenue t) (cost t)) zero).
  pose proof (roi_of_a_loss t) as R.
  pose proof (no_alerts_no_loss m) as Z. rewrite Tp in Z.
  destruct (leb (sub (revenue t) (cost t)) zero) eqn:L; cbn [negb].
  - split; [|split; [|split]]; try (split; intro; reflexivity).
    + intros _. exact (R eq_refl).
    + split; [discriminate|]. intro A. specialize (Z A). discriminate Z.
  - split; [|split; [|split]].
    + destruct (evaluate_alerts m); cbn [List.length Nat.ltb Nat.leb];
        split; intro X; discriminate X.
    + split; intro X; discriminate X.
    + discriminate.
    + destruct (evaluate_alerts m); cbn [List.length Nat.ltb Nat.leb];
        split; intro X; try reflexivity; discriminate X.
Qed.

Lemma report_agrees_with_alerts_witness :
  exists s,
    processing_node costly_loss_state = Ok s /\
    let s' := output_node (recommendation_node [] (analysis_node s)) in
    (get (final_report s') "action_priority" = Some (VStr "high") <->
     profit_status s' = "negative") /\
    (profit_status s' = "negative" <-> In alert_loss (alerts s')) /\
    (In alert_loss (alerts s') -> In alert_roi (alerts s')) /\
    (get (final_report s') "action_priority" = Some (VStr "low") <->
     alerts s' = []).
Proof.
  eexists. split; [vm_compute; reflexivity|].
  apply (report_agrees_with_alerts costly_loss_state).
  vm_compute. reflexivity.
Defined.

End AnalysisNode.

(** ** The recommendation node *)

Section RecommendationNode.

Example recommendations_read :
  parse_recommendations ("Here is my advice:" ++ nl ++ "1. Cut costs" ++ nl ++
                         "  - Raise prices  " ++ nl ++ nl ++ "Good luck")
    = ["1. Cut costs"; "- Raise prices"] /\
  parse_recommendations "Just keep going" = ["Just keep going"] /\
  parse_recommendations ("e.g. this" ++ nl ++ "Good. And more")
    = ["e.g. this"; "Good. And more"] /\
  parse_recommendations "" = [""] /\
  Str.split lf ("a" ++ nl ++ nl ++ "b" ++ nl) = ["a"; ""; "b"; ""].
Proof. repeat split; vm_compute; reflexivity. Qed.














Lemma parse_recommendations_nonempty (text : string) :
  parse_recommendations text <> [].
Proof.
  unfold parse_recommendations.
  destruct (map Str.strip (filter is_item (Str.split lf text)))
    as [|r [|r' l]]; cbn; discriminate.
Qed.


Lemma fallback_recommendations_spec (m : Metrics) :
  fallback_recommendations m =
  (baseline_recommendations ++
   fires (leb (today_profit m) zero) rec_reduce_expenses ++
   fires (gtb (cac_change m) (PInt 20)) rec_review_marketing ++
   fires (gtb (revenue_change m) (PInt 15)) rec_increase_budget)%list.
Proof.
  unfold fallback_recommendations, fires.
  destruct (leb (today_profit m) zero), (gtb (cac_change m) (PInt 20)),
           (gtb (revenue_change m) (PInt 15)); reflexivity.
Qed.

Lemma falling_not_growing (m : Metrics) :
  In alert_revenue (evaluate_alerts m) ->
  gtb (revenue_change m) (PInt 15) = false.
Proof.
  intro H. apply in_alerts_revenue in H.
  destruct (gtb (revenue_change m) (PInt 15)) eqn:G; [|reflexivity].
  exfalso. apply gtb_spec in G. apply ltb_spec in H.
  cbn [to_Q] in G, H.
  change (inject_Z 15) with (15 # 1)%Q in G.
  change (inject_Z (-10)) with (-10 # 1)%Q in H.
  set (x := to_Q (revenue_change m)) in *. clearbody x. lra.
Qed.

(** The recommendations when the call to the model fails: the four
    baseline items, then one item for each threshold that is passed, in
    the order of the code; from four to seven items, none blank.  The
    item on expenses stands exactly when the analysis node gave the loss
    alert, the item on marketing exactly when it gave the CAC-growth
    alert, and the item on a larger budget never stands with the alert
    on falling revenue. *)
Theorem recommendations_without_the_model (e : exn) (m : Metrics) :
  recommend (Raise e) m =
    (baseline_recommendations ++
     fires (leb (today_profit m) zero) rec_reduce_expenses ++
     fires (gtb (cac_change m) (PInt 20)) rec_review_marketing ++
     fires (gtb (revenue_change m) (PInt 15)) rec_increase_budget)%list /\
  (4 <= List.length (recommend (Raise e) m) <= 7)%nat /\
  (In rec_reduce_expenses (recommend (Raise e) m) <->
   In alert_loss (evaluate_alerts m)) /\
  (In rec_review_marketing (recommend (Raise e) m) <->
   In alert_cac_growth (evaluate_alerts m)) /\
  (In rec_increase_budget (recommend (Raise e) m) ->
   ~ In alert_revenue (evaluate_alerts m)) /\
  (forall r, In r (recommend (Raise e) m) -> blank r = false).
Proof.
  cbn [recommend]. rewrite fallback_recommendations_spec.
  rewrite in_alerts_loss, in_alerts_cac_growth.
  split; [reflexivity|].
  pose proof (falling_not_growing m) as R.
  unfold fires.
  destruct (leb (today_profit m) zero), (gtb (cac_change m) (PInt 20)),
           (gtb (revenue_change m) (PInt 15));
    (split; [cbn; lia|]);
    (split; [cbn; split; intro H; try reflexivity; try discriminate H;
             repeat destruct H as [H|H]; try discriminate H; tauto|]);
    (split; [cbn; split; intro H; try reflexivity; try discriminate H;
             repeat destruct H as [H|H]; try discriminate H; tauto|]);
    (split; [intros I A; specialize (R A); try discriminate R;
             cbn in I; repeat destruct I as [I|I]; try discriminate I;
             contradiction|]);
    intros r H; cbn in H;
    repeat destruct H as [<-|H]; try contradiction; vm_compute; reflexivity.
Qed.

(** The graph of [main.py] does not read its initial state.  Whatever
    state it is invoked on and whatever the model answers, it returns;
    the result is the same for every initial state; its data are the
    sample records, its metrics those of the sample records, its list of
    alerts is empty and its priority "low"; its recommendations are not
    empty, and when the call to the model fails they are the baseline
    items and the item on a larger budget. *)
Theorem graph_ignores_initial_state (a : answer) (initial : BusinessState) :
  exists s,
    create_business_graph a initial = Ok s /\
    (forall initial', create_business_graph a initial' = Ok s) /\
    today_data s = sample_today /\ yesterday_data s = sample_yesterday /\
    metrics s = sample_metrics /\ profit_status s = "positive" /\
    alerts s = [] /\
    recommendations s = recommend a sample_metrics /\
    recommendations s <> [] /\
    final_report s = build_report s /\
    get (final_report s) "action_priority" = Some (VStr "low") /\
    (forall e, a = Raise e ->
       recommendations s
         = (baseline_recommendations ++ [rec_increase_budget])%list).
Proof.
  assert (X : compute_metrics sample_today sample_yesterday
              = Ok (sample_metrics, "positive"))
    by (vm_compute; reflexivity).
  assert (A : evaluate_alerts sample_metrics = [])
    by (vm_compute; reflexivity).
  assert (G : forall i, create_business_graph a i =
            Ok (output_node
                  (recommendation_node (recommend a sample_metrics)
                     {| today_data := sample_today;
                        yesterday_data := sample_yesterday;
                        metrics := sample_metrics;
                        profit_status := "positive";
                        alerts := [];
                        recommendations := recommendations i;
                        final_report := final_report i |}))).
  { intro i. unfold create_business_graph, processing_node.
    cbn [input_node today_data yesterday_data]. rewrite X. cbn [bind].
    unfold analysis_node. cbn [metrics today_data yesterday_data
      profit_status alerts recommendations final_report].
    rewrite A. reflexivity. }
  eexists. split; [apply G|].
  split; [intro i; rewrite G; reflexivity|].
  repeat (split; [reflexivity|]).
  split.
  { cbn [recommendations output_node recommendation_node].
    destruct a as [text|e]; cbn [recommend].
    - apply parse_recommendations_nonempty.
    - rewrite fallback_recommendations_spec. discriminate. }
  repeat (split; [reflexivity|]).
  intros e ->. vm_compute. reflexivity.
Qed.

End RecommendationNode.

(** ** The test of the alerts *)

Section AlertTest.

(** On the alerts that the analysis node gives for any metrics, the
    assertions of [test_alerts_generation] hold exactly when the change
    of the CAC is at most 20: no alert of the node holds the text "CAC"
    that the second assertion looks for.  On the sample records the
    change is negative and the test passes. *)
Theorem alert_checks_of_the_test (m : Metrics) :
  test_alerts_generation m (evaluate_alerts m)
    = negb (gtb (cac_change m) (PInt 20)) /\
  (forall alert, In alert (evaluate_alerts m) ->
     Str.contains "CAC" alert = false) /\
  test_alerts_generation sample_metrics (evaluate_alerts sample_metrics)
    = true.
Proof.
  rewrite evaluate_alerts_spec. unfold alerts_spec, fires.
  unfold test_alerts_generation.
  destruct (leb (today_profit m) zero),
           (gtb (cac_change m) (PInt 20)),
           (gtb (today_cac m) (PInt 50)),
           (gtb (cost_change m) (revenue_change m) &&
            gtb (revenue_change m) zero),
           (ltb (revenue_change m) (PInt (-10))),
           (ltb (today_roi m) (PInt 10));
    (split; [vm_compute; reflexivity|]);
    (split; [|vm_compute; reflexivity]);
    intros alert H; cbn in H;
    repeat destruct H as [<-|H]; try contradiction; vm_compute; reflexivity.
Qed.

End AlertTest.

(** * Further properties of [business-agent.py] *)

(** ** The data table *)

Section DataTable.





End DataTable.

(** ** The controller *)

Section ControllerNodes.


(** The dates that can be selected are the keys whose previous day is a
    key. *)
Lemma selectable_ready (d : string) :
  In d selectable <->
  has_key d = true /\
  exists p, previous_date d = Ok p /\ has_key p = true.
Proof.
  split.
  - intro H. cbn in H.
    repeat destruct H as [<-|H]; try contradiction;
      (split; [reflexivity|]); eexists; split; vm_compute; reflexivity.
  - intros [K [p [P Kp]]]. apply has_key_in in K. cbn in K.
    destruct K as [<-|K].
    + exfalso. vm_compute in P. injection P as <-. discriminate Kp.
    + exact K.
Qed.

(** Neither node of the controller ever raises: the one date it parses
    is a key of the dataset.  At the four stages at which the controller
    answers, the node returns one message and a stage and leaves the
    analysis result alone; at any other stage it returns the state it was
    given. *)
Theorem controller_never_raises (a : answer) (s : State) :
  process_input s = process_input_enhanced (Raise LLMError) s /\
  exists r,
    process_input_enhanced a s = Ok r /\
    match r with
    | Partial u =>
        In (stage s) answering /\ List.length (new_messages u) = 1%nat /\
        new_stage u <> None /\ new_analysis_result u = None
    | Whole s' => s' = s /\ ~ In (stage s) answering
    end.
Proof.
  split; [reflexivity|].
  unfold process_input_enhanced, generate_greeting, answering.
  destruct (String.eqb_spec (stage s) "greeting") as [E|N1].
  { eexists. split; [reflexivity|]. rewrite E. cbn. repeat split; auto.
    discriminate. }
  destruct (String.eqb_spec (stage s) "date_selection") as [E|N2].
  { destruct (has_key (Str.strip (user_input s))) eqn:K.
    - destruct (previous_date_of_key _ K) as [p ->]. cbn [bind].
      destruct (has_key p); cbn [negb]; eexists; (split; [reflexivity|]);
        rewrite E; cbn; repeat split; auto; discriminate.
    - eexists. split; [reflexivity|]. rewrite E. cbn. repeat split; auto.
      discriminate. }
  destruct (String.eqb_spec (stage s) "confirm_analysis") as [E|N3].
  { destruct (Str.mem (Str.lower (Str.strip (user_input s))) affirmative);
      [|destruct (Str.mem (Str.lower (Str.strip (user_input s))) negative)];
      eexists; (split; [reflexivity|]); rewrite E; cbn; repeat split; auto;
      discriminate. }
  destruct (String.eqb_spec (stage s) "complete") as [E|N4].
  { destruct (Str.mem (Str.lower (Str.strip (user_input s))) affirmative);
      [|destruct (Str.mem (Str.lower (Str.strip (user_input s))) negative)];
      eexists; (split; [reflexivity|]); rewrite E; cbn; repeat split; auto 6;
      discriminate. }
  eexists. split; [reflexivity|]. split; [reflexivity|].
  cbn. intros [H|[H|[H|[H|[]]]]]; congruence.
Qed.



(** At [complete] an input that reads as a yes, in any case of letters
    and with white space around it, opens a new selection: the stage is
    [date_selection], the selected date is cleared, the data table is
    sent again and the last analysis result is kept.  One that reads as
    a no ends the conversation: the stage is [end], and from then on the
    node of the graph returns the state as it is, whatever the input. *)
Theorem complete_transitions (s : State) :
  stage s = "complete" ->
  (Str.mem (Str.lower (trimmed s)) affirmative = true ->
   let r := Partial (reply_date msg_another_date "date_selection" "") in
   process_input s = Ok r /\
   stage (merge s r) = "date_selection" /\
   selected_date (merge s r) = "" /\
   analysis_result (merge s r) = analysis_result s /\
   exists rest, new_messages (reply_date msg_another_date "date_selection" "")
                = [get_data_table ++ rest]) /\
  (Str.mem (Str.lower (trimmed s)) negative = true ->
   let r := Partial (reply msg_goodbye "end") in
   process_input s = Ok r /\
   stage (merge s r) = "end" /\
   selected_date (merge s r) = selected_date s /\
   forall (input : string) (a : answer),
     process_input_enhanced a (with_input input (merge s r))
       = Ok (Whole (with_input input (merge s r)))).
Proof.
  intro St. split.
  - intro A. cbv zeta. unfold process_input. fold (trimmed s).
    rewrite St, A. repeat split. eexists. reflexivity.
  - intro N. cbv zeta. unfold process_input. fold (trimmed s).
    rewrite St, N.
    assert (A : Str.mem (Str.lower (trimmed s)) affirmative = false).
    { apply mem_in in N. cbn in N.
      repeat destruct N as [<-|N]; try contradiction; reflexivity. }
    rewrite A. repeat split.
Qed.

Lemma complete_transitions_witness :
  process_input complete_no = Ok (Partial (reply msg_goodbye "end")) /\
  stage (merge complete_no (Partial (reply msg_goodbye "end"))) = "end" /\
  selected_date (merge complete_no (Partial (reply msg_goodbye "end")))
    = selected_date complete_no /\
  forall (input : string) (a : answer),
    process_input_enhanced a
      (with_input input (merge complete_no (Partial (reply msg_goodbye "end"))))
    = Ok (Whole (with_input input
                   (merge complete_no (Partial (reply msg_goodbye "end"))))).
Proof.
  apply (proj2 (complete_transitions complete_no eq_refl)).
  reflexivity.
Defined.

(** The node of the graph is [process_input] with the message written
    by the model.  When the call to the model fails the two return the
    same; when the model answers, the node of the graph returns what
    [process_input] returns with the answer in place of the fixed
    message: the same stage, the same selected date. *)
Theorem model_text_replaces_message (s : State) (text : string) (e : exn) :
  process_input_enhanced (Raise e) s = process_input s /\
  match process_input s with
  | Ok (Partial u) =>
      process_input_enhanced (Ok text) s = Ok (Partial (with_text text u))
  | Ok (Whole s') => process_input_enhanced (Ok text) s = Ok (Whole s')
  | Raise e' => process_input_enhanced (Ok text) s = Raise e'
  end.
Proof.
  split; [reflexivity|].
  unfold process_input_enhanced, process_input, generate_greeting.
  repeat match goal with
         | |- context [if ?g then _ else _] => destruct g
         | |- context [bind ?r _] => destruct r; cbn [bind]
         end; reflexivity.
Qed.

End ControllerNodes.

(** ** Conversations *)

Section Conversations.

Lemma process_input_well_staged (s : State) (r : node_result) :
  well_staged s -> process_input s = Ok r -> well_staged (merge s r).
Proof.
  unfold well_staged, process_input, stages. intros [I D].
  destruct (String.eqb_spec (stage s) "greeting") as [E|_].
  { intros [= <-]. cbn. auto. }
  destruct (String.eqb_spec (stage s) "date_selection") as [E|_].
  { destruct (has_key (Str.strip (user_input s))) eqn:K.
    - destruct (previous_date (Str.strip (user_input s))) as [p|e] eqn:P;
        cbn [bind]; [|discriminate].
      destruct (has_key p) eqn:Kp; cbn [negb]; intros [= <-]; cbn.
      + split; [auto|]. right. split; [exact K|]. eauto.
      + auto.
    - intros [= <-]. cbn. auto. }
  destruct (String.eqb_spec (stage s) "confirm_analysis") as [E|_].
  { destruct (Str.mem (Str.lower (Str.strip (user_input s))) affirmative);
      [|destruct (Str.mem (Str.lower (Str.strip (user_input s))) negative)];
      intros [= <-]; cbn; auto 7. }
  destruct (String.eqb_spec (stage s) "complete") as [E|_].
  { destruct (Str.mem (Str.lower (Str.strip (user_input s))) affirmative);
      [|destruct (Str.mem (Str.lower (Str.strip (user_input s))) negative)];
      intros [= <-]; cbn; auto 8. }
  intros [= <-]. auto.
Qed.

Lemma well_staged_effect (s : State) (r r0 : node_result) :
  effect r = effect r0 -> well_staged (merge s r0) -> well_staged (merge s r).
Proof.
  intros E. destruct (merge_effect s r r0 E) as [St Sd].
  unfold well_staged, ready. rewrite St, Sd. auto.
Qed.

Lemma analyze_well_staged (s : State) (a1 a2 : answer) (r : node_result) :
  well_staged s -> analyze_business a1 a2 s = Ok r -> well_staged (merge s r).
Proof.
  unfold analyze_business. intro I.
  destruct (stage s =? "analysis"); cbn [negb].
  - repeat match goal with
           | |- bind ?x _ = Ok _ -> _ =>
               destruct x as [?|?]; cbn [bind]; [|discriminate]
           | |- context [let (_, _) := ?x in _] => destruct x
           end.
    intros [= <-]. destruct I as [_ D]. unfold well_staged, stages. cbn.
    split; [auto 6|exact D].
  - intros [= <-]. exact I.
Qed.

Lemma step_well_staged (s s' : State) :
  well_staged s -> step s s' -> well_staged s'.
Proof.
  intros I St. revert I.
  destruct St as [s0 input r H | s0 input a r H | s0 a1 a2 r H]; intro I.
  - apply process_input_well_staged; [exact I | exact H].
  - pose proof (enhanced_effect a (with_input input s0)) as E.
    rewrite H in E.
    destruct (process_input (with_input input s0)) as [r0|] eqn:P;
      [|contradiction].
    apply (well_staged_effect _ r r0 E).
    apply process_input_well_staged; [exact I | exact P].
  - apply analyze_well_staged with (a1 := a1) (a2 := a2); assumption.
Qed.

Lemma reachable_well_staged (s : State) : reachable s -> well_staged s.
Proof.
  induction 1 as [|s s' _ IH St].
  - split; left; reflexivity.
  - exact (step_well_staged s s' IH St).
Qed.

(** In every state of a conversation the stage is one of the six stages
    of the program, and the selected date is unset or one of the nine
    dates of the dataset that have a previous day: never the first date,
    never a text that is no key. *)
Theorem reachable_stages_and_dates (s : State) :
  reachable s ->
  In (stage s) stages /\
  In (selected_date s) ("" :: selectable) /\
  selected_date s <> "2024-01-01".
Proof.
  intro R.
  destruct (reachable_well_staged s R) as [I D]. split; [exact I|].
  assert (X : In (selected_date s) ("" :: selectable)).
  { destruct D as [D|D]; [left; symmetry; exact D|].
    right. apply selectable_ready. exact D. }
  split; [exact X|].
  intro E. rewrite E in X. cbn in X.
  repeat destruct X as [X|X]; try discriminate X. contradiction.
Qed.

Lemma reachable_stages_and_dates_witness :
  In (stage after_yes) stages /\
  In (selected_date after_yes) ("" :: selectable) /\
  selected_date after_yes <> "2024-01-01".
Proof.
  apply (reachable_stages_and_dates after_yes). exact reachable_after_yes.
Defined.

Lemma enhanced_total (a : answer) (s : State) :
  exists r, process_input_enhanced a s = Ok r.
Proof.
  pose proof (enhanced_effect a s) as E.
  destruct (process_input_total s) as [r0 P]. rewrite P in E.
  destruct (process_input_enhanced a s) as [r|e]; [eauto|contradiction].
Qed.

(** What the node of the graph does to the messages and to the analysis
    result. *)
Lemma enhanced_messages (a : answer) (s : State) (r : node_result) :
  process_input_enhanced a s = Ok r ->
  analysis_result (merge s r) = analysis_result s /\
  exists new, messages (merge s r) = (messages s ++ new)%list /\
              (List.length new <= 1)%nat.
Proof.
  unfold process_input_enhanced, generate_greeting.
  repeat match goal with
         | |- context [if ?g then _ else _] => destruct g
         | |- context [bind ?r _] => destruct r; cbn [bind]
         end; intro H; try discriminate H; injection H as <-;
    (split; [reflexivity|]);
    cbn [merge messages reply reply_date new_messages];
    try (eexists; split; [reflexivity|cbn; lia]).
  exists []. split; [symmetry; apply app_nil_r|cbn; lia].
Qed.

(** An invocation of the graph on a state of a conversation returns a
    state of a conversation. *)
Lemma invoke_reachable (s : State) (input : string) (a a1 a2 : answer) :
  reachable s ->
  exists s', invoke a a1 a2 (with_input input s) = Ok s' /\ reachable s'.
Proof.
  intro R. unfold invoke.
  destruct (enhanced_total a (with_input input s)) as [r P].
  rewrite P. cbn [bind].
  assert (R1 : reachable (merge (with_input input s) r)).
  { apply (reach_step s); [exact R|]. apply (step_enhanced s input a r P). }
  set (s1 := merge (with_input input s) r) in *.
  destruct (String.eqb_spec (stage s1) "analysis") as [E|N]; [|eauto].
  pose proof (reachable_invariant s1 R1 (or_intror E)) as Rd.
  destruct (analyze_returns s1 a1 a2 E Rd) as (c & j & t & _ & H).
  rewrite H. cbn [bind]. eexists. split; [reflexivity|].
  apply (reach_step s1); [exact R1|]. apply (step_analysis s1 a1 a2 _ H).
Qed.

(** One invocation of the compiled graph, from any state of a
    conversation, on any input and with any answers of the model, raises
    nothing.  It never hands back a state at [analysis]: the analysis
    runs within the invocation that confirms it.  It keeps the messages
    there were and adds at most two; and the state it returns holds the
    input it was given. *)
Theorem invoke_from_reachable
    (s : State) (input : string) (a a1 a2 : answer) :
  reachable s ->
  exists s',
    invoke a a1 a2 (with_input input s) = Ok s' /\
    reachable s' /\
    stage s' <> "analysis" /\
    user_input s' = input /\
    exists new,
      messages s' = (messages s ++ new)%list /\ (List.length new <= 2)%nat.
Proof.
  intro R. destruct (invoke_reachable s input a a1 a2 R) as (s' & I & R').
  exists s'. split; [exact I|]. split; [exact R'|].
  unfold invoke in I.
  destruct (process_input_enhanced a (with_input input s)) as [r|] eqn:P;
    cbn [bind] in I; [|discriminate I].
  destruct (enhanced_messages a _ r P) as (_ & new & M & L).
  assert (U : user_input (merge (with_input input s) r) = input).
  { destruct r; reflexivity. }
  set (s1 := merge (with_input input s) r) in *.
  destruct (String.eqb_spec (stage s1) "analysis") as [E|N].
  - pose proof (reachable_invariant s1
                  (reach_step s _ R (step_enhanced s input a r P))
                  (or_intror E)) as Rd.
    destruct (analyze_returns s1 a1 a2 E Rd) as (c & j & t & _ & H).
    rewrite H in I. cbn [bind] in I. injection I as <-.
    cbn [merge stage user_input messages or_else new_stage new_messages].
    split; [discriminate|]. split; [exact U|].
    exists (new ++ [final_response t j])%list.
    rewrite M. cbn [with_input messages]. rewrite app_assoc.
    split; [reflexivity|]. rewrite length_app. cbn. lia.
  - injection I as <-. split; [exact N|]. split; [exact U|].
    exists new. split; [exact M|lia].
Qed.

Lemma invoke_from_reachable_witness :
  exists s',
    invoke (Raise LLMError) (Ok "ok") (Ok "{}") (with_input "yes" after_date)
      = Ok s' /\
    reachable s' /\
    stage s' <> "analysis" /\
    user_input s' = "yes" /\
    exists new,
      messages s' = (messages after_date ++ new)%list /\
      (List.length new <= 2)%nat.
Proof.
  apply (invoke_from_reachable after_date "yes"). exact reachable_after_date.
Defined.

Lemma mem_spec (x : string) (l : list string) :
  Str.mem x l = true <-> In x l.
Proof.
  split; [apply mem_in|]. intro I. unfold Str.mem. apply existsb_exists.
  exists x. split; [exact I|apply String.eqb_refl].
Qed.

Lemma mem_selectable (d : string) :
  Str.mem d selectable =
  has_key d &&
  match previous_date d with
  | Ok p => has_key p
  | Raise _ => false
  end.
Proof.
  destruct (Str.mem d selectable) eqn:M.
  - apply mem_spec, selectable_ready in M. destruct M as [K [p [P Kp]]].
    rewrite K, P, Kp. reflexivity.
  - destruct (has_key d) eqn:K; [|reflexivity].
    destruct (previous_date d) as [p|] eqn:P; [|reflexivity].
    destruct (has_key p) eqn:Kp; [|reflexivity].
    assert (X : Str.mem d selectable = true).
    { apply mem_spec, selectable_ready. split; [exact K|]. eauto. }
    congruence.
Qed.

Lemma no_is_no_yes (x : string) :
  Str.mem x negative = true -> Str.mem x affirmative = false.
Proof.
  intro N. apply mem_in in N. cbn in N.
  repeat destruct N as [<-|N]; try contradiction; reflexivity.
Qed.

(** The stage after [process_input]. *)
Lemma process_input_stage (s : State) (r : node_result) :
  process_input s = Ok r ->
  stage (merge s r) =
  if stage s =? "analysis" then "analysis"
  else if (stage s =? "confirm_analysis") &&
          Str.mem (Str.lower (trimmed s)) affirmative then "analysis"
  else next_stage (stage s) (trimmed s).
Proof.
  unfold process_input, next_stage. fold (trimmed s).
  rewrite mem_selectable.
  destruct (String.eqb_spec (stage s) "greeting") as [E|_].
  { rewrite E. intros [= <-]. reflexivity. }
  destruct (String.eqb_spec (stage s) "date_selection") as [E|_].
  { rewrite E. cbn [String.eqb Ascii.eqb Bool.eqb andb].
    destruct (has_key (trimmed s)); cbn [andb].
    - destruct (previous_date (trimmed s)) as [p|]; cbn [bind];
        [|discriminate].
      destruct (has_key p); intros [= <-]; reflexivity.
    - intros [= <-]. reflexivity. }
  destruct (String.eqb_spec (stage s) "confirm_analysis") as [E|_].
  { rewrite E. cbn [String.eqb Ascii.eqb Bool.eqb andb].
    destruct (Str.mem (Str.lower (trimmed s)) affirmative);
      [|destruct (Str.mem (Str.lower (trimmed s)) negative)];
      intros [= <-]; reflexivity. }
  destruct (String.eqb_spec (stage s) "complete") as [E|_].
  { rewrite E. cbn [String.eqb Ascii.eqb Bool.eqb andb].
    destruct (Str.mem (Str.lower (trimmed s)) affirmative);
      [|destruct (Str.mem (Str.lower (trimmed s)) negative)];
      intros [= <-]; reflexivity. }
  intros [= <-]. cbn [merge andb].
  destruct (String.eqb_spec (stage s) "analysis") as [E|N];
    [exact E|reflexivity].
Qed.

(** The stage after an invocation of the graph in a conversation. *)
Lemma invoke_next_stage (s : State) (input : string) (a a1 a2 : answer) :
  reachable s ->
  exists s',
    invoke a a1 a2 (with_input input s) = Ok s' /\ reachable s' /\
    stage s' = next_stage (stage s) (Str.strip input).
Proof.
  intro R. unfold invoke.
  destruct (enhanced_total a (with_input input s)) as [r P].
  rewrite P. cbn [bind].
  assert (R1 : reachable (merge (with_input input s) r)).
  { apply (reach_step s); [exact R|]. apply (step_enhanced s input a r P). }
  assert (St : stage (merge (with_input input s) r) =
               if stage s =? "analysis" then "analysis"
               else if (stage s =? "confirm_analysis") &&
                       Str.mem (Str.lower (Str.strip input)) affirmative
               then "analysis"
               else next_stage (stage s) (Str.strip input)).
  { pose proof (enhanced_effect a (with_input input s)) as E.
    rewrite P in E.
    destruct (process_input (with_input input s)) as [r0|] eqn:P0;
      [|contradiction].
    rewrite (proj1 (merge_effect _ r r0 E)).
    exact (process_input_stage _ _ P0). }
  set (s1 := merge (with_input input s) r) in *.
  destruct (String.eqb_spec (stage s1) "analysis") as [E|N].
  - pose proof (reachable_invariant s1 R1 (or_intror E)) as Rd.
    destruct (analyze_returns s1 a1 a2 E Rd) as (c & j & t & _ & H).
    rewrite H. cbn [bind]. eexists. split; [reflexivity|].
    split; [apply (reach_step s1); [exact R1|];
            apply (step_analysis s1 a1 a2 _ H)|].
    cbn [merge stage or_else new_stage].
    rewrite E in St. unfold next_stage.
    destruct (String.eqb_spec (stage s) "analysis") as [A|NA].
    + rewrite A. reflexivity.
    + destruct (String.eqb_spec (stage s) "confirm_analysis") as [C|NC];
        cbn [andb] in St.
      * rewrite C. cbn [String.eqb Ascii.eqb Bool.eqb].
        destruct (Str.mem (Str.lower (Str.strip input)) affirmative);
          [reflexivity|].
        exfalso. rewrite C in St. unfold next_stage in St.
        cbn [String.eqb Ascii.eqb Bool.eqb] in St.
        destruct (Str.mem (Str.lower (Str.strip input)) affirmative);
          [discriminate|].
        destruct (Str.mem (Str.lower (Str.strip input)) negative);
          discriminate St.
      * exfalso. destruct (reachable_well_staged s R) as [I _].
        unfold stages in I. cbn [In] in I. unfold next_stage in St.
        repeat destruct I as [I|I]; try contradiction; rewrite <- I in St;
          cbn [String.eqb Ascii.eqb Bool.eqb] in St;
          repeat match type of St with
                 | context [if ?g then _ else _] => destruct g
                 end; try discriminate St; congruence.
  - eexists. split; [reflexivity|]. split; [exact R1|]. rewrite St.
    destruct (String.eqb_spec (stage s) "analysis") as [E|N1];
      [exfalso; apply N; exact St|].
    destruct ((stage s =? "confirm_analysis") &&
              Str.mem (Str.lower (Str.strip input)) affirmative) eqn:Y;
      [exfalso; apply N; exact St|reflexivity].
Qed.



End Conversations.

(** ** The analysis node of the conversation *)

Section AnalysisOfADay.

Lemma strptime_exception (s : string) (e : exn) :
  Date.strptime s = Raise e -> e = ValueError.
Proof.
  unfold Date.strptime.
  repeat match goal with
         | |- context [match ?x with _ => _ end] => destruct x
         end; intro H; try discriminate H; injection H as <-; reflexivity.
Qed.

Lemma minus_one_day_exception (d : Date.date) (e : exn) :
  Date.minus_one_day d = Raise e -> e = OverflowError.
Proof.
  unfold Date.minus_one_day.
  repeat match goal with
         | |- context [if ?x then _ else _] => destruct x
         end; intro H; try discriminate H; injection H as <-; reflexivity.
Qed.

Lemma previous_date_exception (s : string) (e : exn) :
  previous_date s = Raise e -> e = ValueError \/ e = OverflowError.
Proof.
  unfold previous_date.
  destruct (Date.strptime s) as [d|e1] eqn:P; cbn [bind].
  - destruct (Date.minus_one_day d) as [d'|e2] eqn:M; cbn [bind];
      [discriminate|].
    intros [= <-]. right. exact (minus_one_day_exception _ _ M).
  - intros [= <-]. left. exact (strptime_exception _ _ P).
Qed.

Lemma lookup_has_key (k : string) (d : DayData) :
  lookup k = Ok d -> has_key k = true.
Proof.
  unfold lookup, has_key. destruct (assoc k BUSINESS_DATA); [reflexivity|].
  discriminate.
Qed.

Lemma lookup_exception (k : string) (e : exn) :
  lookup k = Raise e -> e = KeyError.
Proof.
  unfold lookup. destruct (assoc k BUSINESS_DATA); [discriminate|].
  intros [= <-]. reflexivity.
Qed.

(** At [analysis] the node returns exactly when the selected date and
    the day before it are keys of the dataset.  Otherwise it raises
    [ValueError], [OverflowError] or [KeyError], from the date parse and
    the lookups that stand before the [try]: no handler takes them, and
    the exception is the same whatever the model would answer.  An unset
    date raises [ValueError]. *)
Theorem analysis_needs_a_ready_state (s : State) (a1 a2 : answer) :
  stage s = "analysis" ->
  ((exists r, analyze_business a1 a2 s = Ok r) <-> ready s) /\
  (forall e, analyze_business a1 a2 s = Raise e ->
     In e uncaught /\
     forall b1 b2, analyze_business b1 b2 s = Raise e) /\
  (selected_date s = "" -> analyze_business a1 a2 s = Raise ValueError).
Proof.
  intro St. split; [|split].
  - split.
    + intros [r H]. unfold analyze_business in H. rewrite St in H.
      change ("analysis" =? "analysis") with true in H. cbn [negb] in H.
      destruct (previous_date (selected_date s)) as [p|] eqn:P;
        cbn [bind] in H; [|discriminate H].
      destruct (lookup (selected_date s)) as [c|] eqn:C;
        cbn [bind] in H; [|discriminate H].
      destruct (lookup p) as [c'|] eqn:C';
        cbn [bind] in H; [|discriminate H].
      split; [exact (lookup_has_key _ _ C)|].
      exists p. split; [exact P|exact (lookup_has_key _ _ C')].
    + intro Rd.
      destruct (analyze_returns s a1 a2 St Rd) as (c & j & t & _ & H).
      eauto.
  - intros e H. unfold analyze_business in *. rewrite St in *.
    change ("analysis" =? "analysis") with true in *. cbn [negb] in *.
    destruct (previous_date (selected_date s)) as [p|e1] eqn:P;
      cbn [bind] in *.
    2:{ injection H as <-. split; [|reflexivity].
        destruct (previous_date_exception _ _ P) as [-> | ->]; cbn; auto. }
    destruct (lookup (selected_date s)) as [c|e2] eqn:C; cbn [bind] in *.
    2:{ injection H as <-. split; [|reflexivity].
        rewrite (lookup_exception _ _ C). cbn. auto. }
    destruct (lookup p) as [c'|e3] eqn:C'; cbn [bind] in *.
    2:{ injection H as <-. split; [|reflexivity].
        rewrite (lookup_exception _ _ C'). cbn. auto. }
    exfalso.
    destruct (ask_model a1 a2 c) as [[content json]|e4];
      cbn [bind] in H; [discriminate H|].
    destruct (lookup_nonzero _ _ C') as [R0 C0].
    destruct (llm_fallback_ok (selected_date s) c c' R0 C0) as [[t j] F].
    rewrite F in H. discriminate H.
  - intro E. unfold analyze_business. rewrite St, E. reflexivity.
Qed.

Lemma analysis_needs_a_ready_state_witness :
  ((exists r, analyze_business (Ok "fine") (Ok "{}") after_yes = Ok r)
   <-> ready after_yes) /\
  (forall e, analyze_business (Ok "fine") (Ok "{}") after_yes = Raise e ->
     In e uncaught /\
     forall b1 b2, analyze_business b1 b2 after_yes = Raise e) /\
  (selected_date after_yes = "" ->
   analyze_business (Ok "fine") (Ok "{}") after_yes = Raise ValueError).
Proof.
  apply (analysis_needs_a_ready_state after_yes). reflexivity.
Defined.

Lemma format_1f_comp (p q : Q) :
  (p == q)%Q -> Str.format_1f p = Str.format_1f q.
Proof.
  intro H. unfold Str.format_1f.
  rewrite (round_half_even_comp (Qabs p * 10) (Qabs q * 10))
    by (rewrite H; reflexivity).
  assert (L : Qle_bool 0 p = Qle_bool 0 q).
  { destruct (Qle_bool 0 p) eqn:A, (Qle_bool 0 q) eqn:B; try reflexivity.
    - apply Qle_bool_iff in A. rewrite H in A. apply Qle_bool_iff in A.
      congruence.
    - apply Qle_bool_iff in B. rewrite <- H in B. apply Qle_bool_iff in B.
      congruence. }
  rewrite L. reflexivity.
Qed.

Lemma to_Q_int_change (a b : Z) :
  (to_Q (mul (PFloat (Qred (to_Q (PInt (a - b)) / to_Q (PInt b)))) hundred)
   == spec_change (inject_Z a) (inject_Z b))%Q.
Proof.
  unfold mul, hundred. cbn [to_Q]. rewrite !Qred_correct.
  unfold spec_change, Z.sub. rewrite inject_Z_plus, inject_Z_opp.
  reflexivity.
Qed.

Lemma ask_model_fails (a1 a2 : answer) (c : DayData) :
  a_call_fails a1 a2 -> exists e, ask_model a1 a2 c = Raise e.
Proof.
  unfold ask_model. intros [[e ->]|[e ->]]; cbn [bind]; [eauto|].
  destruct a1; cbn [bind]; eauto.
Qed.

Lemma ok_snd {A B : Type} (a c : A) (b d : B) :
  @Ok (A * B) (a, b) = Ok (c, d) -> b = d.
Proof. intros [= _ H]. exact H. Qed.

(** The dict of the handler of a failed call. *)
Lemma llm_fallback_dict (date : string) (c p : DayData)
    (content : string) (json : pyval) :
  llm_fallback date c p = Ok (content, json) ->
  json = VDict [
    ("profit_loss_status",
       VStr (if (day_revenue c - day_cost c >? 0)%Z
             then "positive" else "negative"));
    ("current_profit", VNum (PInt (day_revenue c - day_cost c)));
    ("alerts", VList [VStr "LLM unavailable - basic analysis provided"]);
    ("recommendations",
       VList [VStr "Review detailed financials";
              VStr "Check operational efficiency"]);
    ("key_metrics", VDict [
       ("revenue_change", VStr (change_text (day_revenue c) (day_revenue p)));
       ("cost_change", VStr (change_text (day_cost c) (day_cost p)));
       ("profit", VNum (PInt (day_revenue c - day_cost c))) ]) ].
Proof.
  unfold llm_fallback.
  destruct (div (PInt (day_revenue c - day_revenue p)) (PInt (day_revenue p)))
    as [r|] eqn:R; cbn [bind]; [|discriminate].
  destruct (div (PInt (day_cost c - day_cost p)) (PInt (day_cost p)))
    as [k|] eqn:K; cbn [bind]; [|discriminate].
  apply div_inv in R. destruct R as [-> _].
  apply div_inv in K. destruct K as [-> _].
  intro H. apply ok_snd in H. rewrite <- H. unfold change_text.
  rewrite !(format_1f_comp _ _ (to_Q_int_change _ _)). reflexivity.
Qed.

Example loss_day_changes :
  change_text 5000 9500 = "-47.4%" /\ change_text 7000 6200 = "12.9%".
Proof. split; vm_compute; reflexivity. Qed.

(** When a call to the model fails in a conversation at [analysis], the
    first or the second, the node raises nothing and gives the fallback
    analysis: a text and a dict computed from the records of the selected
    day and of the day before, in which the answer of a first call that
    returned has no part.  The dict holds the notice that the model was
    unavailable, the profit of the day and its status, and the changes of
    revenue and cost to one decimal place. *)
Theorem model_failure_fallback (s : State) (a1 a2 : answer) :
  reachable s -> stage s = "analysis" -> a_call_fails a1 a2 ->
  exists (current previous : DayData) (p content : string) (json : pyval),
    previous_date (selected_date s) = Ok p /\
    lookup (selected_date s) = Ok current /\ lookup p = Ok previous /\
    llm_fallback (selected_date s) current previous = Ok (content, json) /\
    analyze_business a1 a2 s =
      Ok (Partial {| new_messages := [final_response content json];
                     new_stage := Some "complete";
                     new_selected_date := None;
                     new_analysis_result := Some json |}) /\
    get json "alerts" =
      Some (VList [VStr "LLM unavailable - basic analysis provided"]) /\
    get json "current_profit" =
      Some (VNum (PInt (day_revenue current - day_cost current))) /\
    get json "profit_loss_status" =
      Some (VStr (if (day_revenue current - day_cost current >? 0)%Z
                  then "positive" else "negative")) /\
    get json "key_metrics" =
      Some (VDict [
        ("revenue_change",
           VStr (change_text (day_revenue current) (day_revenue previous)));
        ("cost_change",
           VStr (change_text (day_cost current) (day_cost previous)));
        ("profit", VNum (PInt (day_revenue current - day_cost current))) ]).
Proof.
  intros R St F.
  destruct (reachable_invariant s R (or_intror St)) as [K [p [P Kp]]].
  destruct (has_key_lookup _ K) as [current C].
  destruct (has_key_lookup _ Kp) as [previous Cp].
  destruct (lookup_nonzero _ _ Cp) as [R0 C0].
  destruct (llm_fallback_ok (selected_date s) current previous R0 C0)
    as [[content json] L].
  exists current, previous, p, content, json.
  repeat (split; [assumption|]).
  split.
  { unfold analyze_business. rewrite St.
    change ("analysis" =? "analysis") with true. cbn [negb].
    rewrite P. cbn [bind]. rewrite C. cbn [bind]. rewrite Cp. cbn [bind].
    destruct (ask_model_fails a1 a2 current F) as [e ->].
    rewrite L. reflexivity. }
  rewrite (llm_fallback_dict _ _ _ _ _ L). repeat split.
Qed.

Lemma reachable_at_loss_day : reachable at_loss_day.
Proof.
  apply (reach_step loss_day_selected).
  - apply (reach_step after_greeting).
    + apply (reach_step initial_state); [apply reach_initial|].
      apply (step_input initial_state ""). reflexivity.
    + apply (step_input after_greeting "2024-01-06"). reflexivity.
  - apply (step_input loss_day_selected "y"). reflexivity.
Defined.

Lemma model_failure_fallback_witness :
  exists (current previous : DayData) (p content : string) (json : pyval),
    previous_date (selected_date at_loss_day) = Ok p /\
    lookup (selected_date at_loss_day) = Ok current /\
    lookup p = Ok previous /\
    llm_fallback (selected_date at_loss_day) current previous
      = Ok (content, json) /\
    analyze_business (Ok "A hard day.") (Raise LLMError) at_loss_day =
      Ok (Partial {| new_messages := [final_response content json];
                     new_stage := Some "complete";
                     new_selected_date := None;
                     new_analysis_result := Some json |}) /\
    get json "alerts" =
      Some (VList [VStr "LLM unavailable - basic analysis provided"]) /\
    get json "current_profit" =
      Some (VNum (PInt (day_revenue current - day_cost current))) /\
    get json "profit_loss_status" =
      Some (VStr (if (day_revenue current - day_cost current >? 0)%Z
                  then "positive" else "negative")) /\
    get json "key_metrics" =
      Some (VDict [
        ("revenue_change",
           VStr (change_text (day_revenue current) (day_revenue previous)));
        ("cost_change",
           VStr (change_text (day_cost current) (day_cost previous)));
        ("profit", VNum (PInt (day_revenue current - day_cost current))) ]).
Proof.
  apply (model_failure_fallback at_loss_day).
  - exact reachable_at_loss_day.
  - reflexivity.
  - right. exists LLMError. reflexivity.
Defined.

End AnalysisOfADay.

(** ** What the decoder reads *)

Section Decoded.

(** A divisor of [p * m], for [p] one of the primes 2 and 5, is [p]
    times a divisor of [m] or a divisor of [m]. *)
Lemma divisor_step (p d m : Z) :
  p = 2 \/ p = 5 -> 0 < d -> (d | p * m) ->
  (exists d1, 0 < d1 /\ d = p * d1 /\ (d1 | m)) \/ (d | m).
Proof.
  intros Hp Hd D.
  destruct (Z.eq_dec (d mod p) 0) as [E|N].
  - left. exists (d / p).
    assert (X : d = p * (d / p)) by (apply Z.div_exact; lia).
    split; [|split; [exact X|]].
    + destruct Hp; subst p; lia.
    + rewrite X in D. apply Z.mul_divide_cancel_l in D; [exact D|lia].
  - right. apply Z.gauss with (m := p); [exact D|].
    pose proof (Z.gcd_divide_l d p) as G1.
    pose proof (Z.gcd_divide_r d p) as G2.
    pose proof (Z.gcd_nonneg d p) as G0.
    set (g := Z.gcd d p) in *.
    assert (Gp : 0 < g <= p).
    { split.
      - destruct (Z.eq_dec g 0) as [Z0|]; [|lia].
        rewrite Z0 in G2. destruct G2 as [k K]. lia.
      - apply Z.divide_pos_le; [lia|exact G2]. }
    destruct (Z.eq_dec g 1) as [|G]; [assumption|exfalso].
    assert (Eg : g = p).
    { destruct G2 as [k K].
      destruct Hp; subst p; [lia|].
      assert (C : g = 2 \/ g = 3 \/ g = 4 \/ g = 5) by lia.
      destruct C as [C|[C|[C|C]]]; rewrite C in K; lia. }
    rewrite Eg in G1. apply N. apply Z.mod_divide; [lia|exact G1].
Qed.

(** A positive divisor of a product of powers of 2 and 5 is one. *)
Lemma smooth_divisor (a b : nat) (d : Z) :
  0 < d -> (d | 2 ^ Z.of_nat a * 5 ^ Z.of_nat b) ->
  exists a' b' : nat, d = 2 ^ Z.of_nat a' * 5 ^ Z.of_nat b'.
Proof.
  revert d. induction a as [|a IHa].
  - induction b as [|b IHb]; intros d Hd D.
    + exists 0%nat, 0%nat. cbn in *. apply Z.divide_1_r_nonneg in D; lia.
    + rewrite Nat2Z.inj_succ, Z.pow_succ_r in D by lia.
      change (2 ^ Z.of_nat 0) with 1 in *. rewrite Z.mul_1_l in D.
      destruct (divisor_step 5 d _ (or_intror eq_refl) Hd D)
        as [(d1 & P1 & E & D1)|D1].
      * destruct (IHb d1 P1) as (a' & b' & E').
        { rewrite Z.mul_1_l. exact D1. }
        exists a', (S b'). rewrite E, E', Nat2Z.inj_succ, Z.pow_succ_r by lia.
        ring.
      * apply IHb; [exact Hd|]. rewrite Z.mul_1_l. exact D1.
  - intros d Hd D.
    rewrite Nat2Z.inj_succ, Z.pow_succ_r, <- Z.mul_assoc in D by lia.
    destruct (divisor_step 2 d _ (or_introl eq_refl) Hd D)
      as [(d1 & P1 & E & D1)|D1].
    + destruct (IHa d1 P1 D1) as (a' & b' & E').
      exists (S a'), b'. rewrite E, E', Nat2Z.inj_succ, Z.pow_succ_r by lia.
      ring.
    + apply IHa; assumption.
Qed.

(** A divisor of a power of ten divides the power of ten of its binary
    logarithm: the search of [decimal_places] goes far enough. *)
Lemma divides_pow10_log2 (d : Z) (j : nat) :
  0 < d -> (d | 10 ^ Z.of_nat j) -> (d | 10 ^ Z.log2 d).
Proof.
  intros Hd D.
  change 10 with (2 * 5) in D. rewrite Z.pow_mul_l in D.
  destruct (smooth_divisor j j d Hd D) as (a & b & E).
  assert (Pa : 0 < 2 ^ Z.of_nat a) by (apply Z.pow_pos_nonneg; lia).
  assert (Pb : 0 < 5 ^ Z.of_nat b) by (apply Z.pow_pos_nonneg; lia).
  assert (La : Z.of_nat a <= Z.log2 d).
  { apply Z.log2_le_pow2; [exact Hd|]. nia. }
  assert (Lb : Z.of_nat b <= Z.log2 d).
  { apply Z.log2_le_pow2; [exact Hd|].
    assert (2 ^ Z.of_nat b <= 5 ^ Z.of_nat b)
      by (apply Z.pow_le_mono_l; lia).
    assert (0 < 2 ^ Z.of_nat b) by (apply Z.pow_pos_nonneg; lia).
    nia. }
  set (L := Z.log2 d) in *.
  change 10 with (2 * 5). rewrite Z.pow_mul_l.
  replace L with (Z.of_nat a + (L - Z.of_nat a)) at 1 by lia.
  replace L with (Z.of_nat b + (L - Z.of_nat b)) at 2 by lia.
  rewrite !Z.pow_add_r by lia.
  exists (2 ^ (L - Z.of_nat a) * 5 ^ (L - Z.of_nat b)). rewrite E. ring.
Qed.

Lemma places_from_finds (fuel k : nat) (d : Z) (j : nat) :
  0 < d -> (k <= j <= k + fuel)%nat -> (d | 10 ^ Z.of_nat j) ->
  places_from fuel k d <> None.
Proof.
  intros Hd. revert k.
  induction fuel as [|fuel IH]; intros k B D; cbn [places_from];
    destruct (Z.eqb_spec ((10 ^ Z.of_nat k) mod d) 0) as [E|E];
    try discriminate.
  - exfalso. assert (j = k) by lia. subst j.
    apply E. apply Z.mod_divide; [lia|exact D].
  - destruct (Nat.eq_dec j k) as [->|N].
    + exfalso. apply E. apply Z.mod_divide; [lia|exact D].
    + apply IH; [lia|exact D].
Qed.

Lemma Qeq_cross (r : Q) (m p : Z) :
  0 < p -> (r == inject_Z m / inject_Z p)%Q ->
  Qnum r * p = m * Z.pos (Qden r).
Proof.
  intros Hp E.
  assert (N : ~ (inject_Z p == 0)%Q) by (unfold Qeq; cbn; lia).
  assert (X : (r * inject_Z p == inject_Z m)%Q).
  { rewrite E. field. exact N. }
  unfold Qeq in X. cbn in X. rewrite Pos.mul_1_r in X. lia.
Qed.

(** A decimal fraction in lowest terms is printable. *)
Lemma printable_decimal (x : Q) (m : Z) (j : nat) :
  (x == inject_Z m / inject_Z (10 ^ Z.of_nat j))%Q ->
  printable (PFloat (Qred x)) = true.
Proof.
  intro E. cbn [printable]. rewrite canonical_Qred. cbn [andb].
  unfold decimal_places. rewrite Qred_involutive.
  set (r := Qred x).
  assert (Er : (r == inject_Z m / inject_Z (10 ^ Z.of_nat j))%Q).
  { unfold r. rewrite Qred_correct. exact E. }
  assert (G : Z.gcd (Qnum r) (Z.pos (Qden r)) = 1) by apply gcd_Qred.
  clearbody r.
  assert (P : 0 < 10 ^ Z.of_nat j) by (apply Z.pow_pos_nonneg; lia).
  pose proof (Qeq_cross r m _ P Er) as C.
  assert (D : (Z.pos (Qden r) | 10 ^ Z.of_nat j)).
  { apply Z.gauss with (m := Qnum r).
    - exists m. lia.
    - rewrite Z.gcd_comm. exact G. }
  set (d := Z.pos (Qden r)) in *.
  assert (Hd : 0 < d) by (unfold d; lia).
  pose proof (divides_pow10_log2 d j Hd D) as DL.
  assert (F : places_from (Z.to_nat (Z.log2 d)) 0 d <> None).
  { apply (places_from_finds _ 0 d (Z.to_nat (Z.log2 d)) Hd); [lia|].
    rewrite Z2Nat.id by apply Z.log2_nonneg. exact DL. }
  destruct (places_from (Z.to_nat (Z.log2 d)) 0 d); [reflexivity|].
  contradiction.
Qed.

Lemma pow10Q_decimal (n e : Z) :
  exists (m : Z) (j : nat),
    (inject_Z n * pow10Q e == inject_Z m / inject_Z (10 ^ Z.of_nat j))%Q.
Proof.
  unfold pow10Q. destruct (Z.leb_spec 0 e) as [L|L].
  - exists (n * 10 ^ e), 0%nat. rewrite inject_Z_mult.
    change (inject_Z (10 ^ Z.of_nat 0)) with 1%Q. field.
  - exists n, (Z.to_nat (- e)). rewrite Z2Nat.id by lia. reflexivity.
Qed.

(** Every number the decoder reads is printable. *)
Lemma scan_number_printable (s : string) (n : num) (r : string) :
  scan_number s = Some (n, r) -> printable n = true.
Proof.
  unfold scan_number.
  destruct (match s with
            | String "-" t => (true, t)
            | _ => (false, s)
            end) as [neg s0].
  destruct (scan_magnitude s0) as [[[v|v] r']|] eqn:M; try discriminate.
  - intros [= <- _]. reflexivity.
  - intros [= <- _].
    unfold scan_magnitude in M.
    destruct (scan_int_part s0) as [[i s1]|]; [|discriminate M].
    destruct (scan_frac s1) as [f s2]. destruct (scan_exp s2) as [e s3].
    assert (X : exists z x, v = (inject_Z z * pow10Q x)%Q).
    { destruct f, e; try discriminate M; injection M as <- _; eauto. }
    destruct X as (z & x & ->).
    destruct (pow10Q_decimal z x) as (m & j & E).
    destruct neg.
    + apply (printable_decimal _ (- m) j). rewrite E, inject_Z_opp.
      assert (N : ~ (inject_Z (10 ^ Z.of_nat j) == 0)%Q).
      { assert (0 < 10 ^ Z.of_nat j) by (apply Z.pow_pos_nonneg; lia).
        unfold Qeq. cbn. lia. }
      field. exact N.
    + apply (printable_decimal _ m j). exact E.
Qed.

Lemma dict_set_keys (k : string) (v : pyval) (d : list (string * pyval)) :
  map fst (dict_set k v d) =
  if existsb (String.eqb k) (map fst d) then map fst d
  else (map fst d ++ [k])%list.
Proof.
  induction d as [|[k' v'] d IH]; [reflexivity|].
  cbn [dict_set map fst existsb].
  destruct (String.eqb k k'); cbn [orb map fst]; [reflexivity|].
  rewrite IH. destruct (existsb (String.eqb k) (map fst d)); reflexivity.
Qed.

Lemma distinct_app_one (k : string) (l : list string) :
  distinct l = true -> existsb (String.eqb k) l = false ->
  distinct (l ++ [k]) = true.
Proof.
  induction l as [|x l IH]; [reflexivity|].
  cbn [distinct existsb app]. intros D E.
  apply andb_true_iff in D. destruct D as [N D].
  apply orb_false_iff in E. destruct E as [E1 E2].
  rewrite existsb_app, (IH D E2). cbn [existsb].
  apply negb_true_iff in N. rewrite N, orb_false_r.
  rewrite String.eqb_sym, E1. reflexivity.
Qed.

Lemma dict_set_ok (k : string) (v : pyval) (d : list (string * pyval)) :
  json_ok v = true -> json_ok (VDict d) = true ->
  json_ok (VDict (dict_set k v d)) = true.
Proof.
  intros V D. cbn [json_ok] in *. apply andb_true_iff in D.
  destruct D as [D1 D2]. apply andb_true_iff. split.
  - rewrite dict_set_keys.
    destruct (existsb (String.eqb k) (map fst d)) eqn:E; [exact D1|].
    apply distinct_app_one; assumption.
  - clear D1. induction d as [|[k' v'] d IH]; cbn [dict_set forallb snd].
    + rewrite V. reflexivity.
    + cbn [forallb snd] in D2. apply andb_true_iff in D2.
      destruct D2 as [H1 H2].
      destruct (String.eqb k k'); cbn [forallb snd].
      * rewrite V, H2. reflexivity.
      * rewrite H1, (IH H2). reflexivity.
Qed.

Lemma dict_of_pairs_ok (l : list (string * pyval)) :
  forallb (fun kv => json_ok (snd kv)) l = true ->
  json_ok (VDict (dict_of_pairs l)) = true.
Proof.
  unfold dict_of_pairs. intro H.
  assert (G : forall d,
            json_ok (VDict d) = true ->
            json_ok (VDict (fold_left
                              (fun d kv => dict_set (fst kv) (snd kv) d)
                              l d)) = true).
  { induction l as [|[k v] l IH]; intros d D; [exact D|].
    cbn [forallb snd] in H. apply andb_true_iff in H. destruct H as [V H].
    cbn [fold_left fst snd]. apply (IH H). apply dict_set_ok; assumption. }
  apply G. reflexivity.
Qed.

(** What the decoder reads is a value as Python holds it. *)
Lemma scan_json_ok (fuel : nat) :
  (forall s v r, scan_value fuel s = Some (v, r) -> json_ok v = true) /\
  (forall s l r, scan_items fuel s = Some (l, r) ->
                 forallb json_ok l = true) /\
  (forall s l r, scan_members fuel s = Some (l, r) ->
                 forallb (fun kv => json_ok (snd kv)) l = true).
Proof.
  induction fuel as [|fuel (IHv & IHi & IHm)];
    [repeat split; intros; discriminate|].
  split; [|split].
  - intros s v r. cbn [scan_value].
    destruct s as [|c s1]; [discriminate|].
    destruct (Ascii.eqb c "[").
    { destruct (expect "]" (skip_ws s1)); [intros [= <- _]; reflexivity|].
      destruct (scan_items fuel (skip_ws s1)) as [[l r']|] eqn:E;
        [|discriminate].
      intros [= <- _]. cbn [json_ok]. exact (IHi _ _ _ E). }
    destruct (Ascii.eqb c "{").
    { destruct (expect "}" (skip_ws s1)); [intros [= <- _]; reflexivity|].
      destruct (scan_members fuel (skip_ws s1)) as [[l r']|] eqn:E;
        [|discriminate].
      intros [= <- _]. apply dict_of_pairs_ok. exact (IHm _ _ _ E). }
    destruct (Ascii.eqb c dq).
    { destruct (scan_string s1) as [[t r']|]; [|discriminate].
      intros [= <- _]. reflexivity. }
    destruct (strip_prefix "null" (String c s1));
      [intros [= <- _]; reflexivity|].
    destruct (strip_prefix "true" (String c s1));
      [intros [= <- _]; reflexivity|].
    destruct (strip_prefix "false" (String c s1));
      [intros [= <- _]; reflexivity|].
    destruct (scan_number (String c s1)) as [[n r']|] eqn:E; [|discriminate].
    intros [= <- _]. cbn [json_ok]. exact (scan_number_printable _ _ _ E).
  - intros s l r. cbn [scan_items].
    destruct (scan_value fuel s) as [[v r1]|] eqn:E; [|discriminate].
    pose proof (IHv _ _ _ E) as V.
    destruct (expect "]" (skip_ws r1)).
    { intros [= <- _]. cbn [forallb]. rewrite V. reflexivity. }
    destruct (expect "," (skip_ws r1)) as [r2|]; [|discriminate].
    destruct (scan_items fuel (skip_ws r2)) as [[l' r3]|] eqn:E2;
      [|discriminate].
    intros [= <- _]. cbn [forallb]. rewrite V. exact (IHi _ _ _ E2).
  - intros s l r. cbn [scan_members].
    destruct (expect dq s) as [s1|]; [|discriminate].
    destruct (scan_string s1) as [[k r1]|]; [|discriminate].
    destruct (expect ":" (skip_ws r1)) as [r2|]; [|discriminate].
    destruct (scan_value fuel (skip_ws r2)) as [[v r3]|] eqn:E;
      [|discriminate].
    pose proof (IHv _ _ _ E) as V.
    destruct (expect "}" (skip_ws r3)).
    { intros [= <- _]. cbn [forallb snd]. rewrite V. reflexivity. }
    destruct (expect "," (skip_ws r3)) as [r4|]; [|discriminate].
    destruct (scan_members fuel (skip_ws r4)) as [[l' r5]|] eqn:E2;
      [|discriminate].
    intros [= <- _]. cbn [forallb snd]. rewrite V. exact (IHm _ _ _ E2).
Qed.

Lemma loads_json_ok (s : string) (v : pyval) :
  loads s = Some v -> json_ok v = true.
Proof.
  unfold loads.
  destruct (scan_value (S (String.length s)) (skip_ws s)) as [[v' r]|] eqn:E;
    [|discriminate].
  destruct (skip_ws r); [|discriminate].
  intros [= <-]. exact (proj1 (scan_json_ok _) _ _ _ E).
Qed.



End Decoded.

(** ** The JSON text is ASCII *)

Section AsciiText.

Lemma plain_app (a b : string) : plain (a ++ b) = plain a && plain b.
Proof.
  induction a as [|c a IH]; [reflexivity|].
  cbn [append plain]. rewrite IH, andb_assoc. reflexivity.
Qed.

Lemma plain_escape_char (c : ascii) : plain (escape_char c) = true.
Proof. destruct c as [[] [] [] [] [] [] [] []]; reflexivity. Qed.

Lemma plain_dump_string (s : string) : plain (dump_string s) = true.
Proof.
  unfold dump_string. cbn [plain]. rewrite plain_app.
  assert (E : plain (escape s) = true).
  { induction s as [|c s IH]; [reflexivity|].
    cbn [escape]. rewrite plain_app, plain_escape_char, IH. reflexivity. }
  rewrite E. reflexivity.
Qed.

Lemma plain_digit (n : Z) : plain_char (digit_char (n mod 10)) = true.
Proof.
  assert (B : 0 <= n mod 10 < 10) by (apply Z.mod_pos_bound; lia).
  assert (C : n mod 10 = 0 \/ n mod 10 = 1 \/ n mod 10 = 2 \/ n mod 10 = 3 \/
              n mod 10 = 4 \/ n mod 10 = 5 \/ n mod 10 = 6 \/ n mod 10 = 7 \/
              n mod 10 = 8 \/ n mod 10 = 9) by lia.
  repeat destruct C as [C|C]; rewrite C; reflexivity.
Qed.

Lemma plain_fixed_digits (k : nat) (n : Z) (acc : string) :
  plain acc = true -> plain (fixed_digits k n acc) = true.
Proof.
  revert n acc. induction k as [|k IH]; intros n acc H; [exact H|].
  cbn [fixed_digits]. apply IH. cbn [plain]. rewrite plain_digit. exact H.
Qed.

Lemma plain_str_nat (n : Z) : plain (str_nat n) = true.
Proof. apply plain_fixed_digits. reflexivity. Qed.

Lemma plain_repr_decimal (n : Z) (k : nat) : plain (repr_decimal n k) = true.
Proof.
  unfold repr_decimal. cbv zeta.
  destruct ((n =? 0)%Z || _).
  - rewrite !plain_app, plain_str_nat.
    destruct k; [reflexivity|]. cbn [plain andb].
    apply plain_fixed_digits. reflexivity.
  - destruct (strip_zeros _ n 0) as [m t].
    assert (X : plain (str_exp (Z.of_nat (num_digits m) - 1 + t - Z.of_nat k))
                = true).
    { unfold str_exp. cbv zeta.
      destruct (_ <? 0)%Z, (Z.abs _ <? 10)%Z; cbn [plain];
        rewrite plain_str_nat; reflexivity. }
    rewrite !plain_app, plain_str_nat, X.
    destruct (num_digits m) as [|[|d]]; try reflexivity.
    rewrite plain_app. cbn [plain andb].
    rewrite plain_fixed_digits; reflexivity.
Qed.

Lemma plain_py_str (n : num) : plain (py_str n) = true.
Proof.
  destruct n as [z|q]; cbn [py_str].
  - unfold str_int.
    destruct (z <? 0)%Z; [cbn [plain]|]; rewrite plain_str_nat; reflexivity.
  - unfold float_repr. cbv zeta.
    destruct (decimal_places (Qred q)).
    + rewrite plain_app, plain_repr_decimal.
      destruct (Qnum (Qred q) <? 0)%Z; reflexivity.
    + destruct (round_sig17 (Qabs (Qred q))) as [n k].
      rewrite plain_app, plain_repr_decimal.
      destruct (Qnum (Qred q) <? 0)%Z; reflexivity.
Qed.

Lemma plain_newline_indent (lvl : nat) : plain (newline_indent lvl) = true.
Proof.
  unfold newline_indent. cbn [plain andb].
  induction (2 * lvl)%nat as [|n IH]; [reflexivity|exact IH].
Qed.

Lemma plain_items_text (lvl : nat) (l : list pyval) :
  Forall (fun v => forall lvl, plain (dumps_at lvl v) = true) l ->
  plain (items_text lvl l) = true.
Proof.
  induction 1 as [|y ys Hy _ IH]; cbn [items_text].
  - rewrite plain_app, plain_newline_indent. reflexivity.
  - rewrite !plain_app, plain_newline_indent, Hy, IH. reflexivity.
Qed.

Lemma plain_members_text (lvl : nat) (l : list (string * pyval)) :
  Forall (fun kv => forall lvl, plain (dumps_at lvl (snd kv)) = true) l ->
  plain (members_text lvl l) = true.
Proof.
  induction 1 as [|y ys Hy _ IH]; cbn [members_text].
  - rewrite plain_app, plain_newline_indent. reflexivity.
  - rewrite !plain_app, plain_newline_indent, plain_dump_string, Hy, IH.
    reflexivity.
Qed.

(** The text [json.dumps] writes holds printable ASCII characters and
    line feeds only, whatever the strings of the value hold: the emoji of
    an alert, which is not such a text, goes into the report as escapes.
    So it is for every report of the graph. *)
Theorem json_text_is_ascii (v : pyval) :
  plain (dumps v) = true /\
  plain alert_loss = false /\
  plain (dumps (VStr alert_loss)) = true /\
  (forall state : BusinessState,
     plain (dumps (final_report (output_node state))) = true).
Proof.
  assert (G : forall v lvl, plain (dumps_at lvl v) = true).
  { clear v. intro v.
    induction v as [|b|n|s|l IH|d IH] using pyval_induction; intro lvl.
    - reflexivity.
    - destruct b; reflexivity.
    - apply plain_py_str.
    - apply plain_dump_string.
    - destruct l as [|x xs]; [reflexivity|].
      rewrite dumps_list. inversion IH as [|? ? Hx Hxs]; subst.
      rewrite !plain_app, plain_newline_indent, Hx, plain_items_text
        by exact Hxs.
      reflexivity.
    - destruct d as [|[k x] xs]; [reflexivity|].
      rewrite dumps_dict. inversion IH as [|? ? Hx Hxs]; subst.
      cbn [snd] in Hx.
      rewrite !plain_app, plain_newline_indent, plain_dump_string, Hx,
        plain_members_text by exact Hxs.
      reflexivity. }
  split; [apply G|]. split; [reflexivity|].
  split; [apply G|]. intro state. apply G.
Qed.

End AsciiText.

(** ** Saving the analysis, and the main loop *)

Section MainLoop.

Lemma ask_model_ok (a1 a2 : answer) (c : DayData)
    (content : string) (json : pyval) :
  ask_model a1 a2 c = Ok (content, json) -> json_ok json = true.
Proof.
  unfold ask_model.
  destruct a1 as [t1|]; cbn [bind]; [|discriminate].
  destruct a2 as [t2|]; cbn [bind]; [|discriminate].
  destruct (loads t2) as [v|] eqn:L; intro H; apply ok_snd in H; subst json.
  - exact (loads_json_ok _ _ L).
  - reflexivity.
Qed.

Lemma analyze_keeps_ok (s : State) (a1 a2 : answer) (r : node_result) :
  json_ok (analysis_result s) = true ->
  analyze_business a1 a2 s = Ok r ->
  json_ok (analysis_result (merge s r)) = true.
Proof.
  intro J. unfold analyze_business.
  destruct (stage s =? "analysis"); cbn [negb];
    [|intros [= <-]; exact J].
  destruct (previous_date (selected_date s)) as [p|]; cbn [bind];
    [|discriminate].
  destruct (lookup (selected_date s)) as [c|]; cbn [bind]; [|discriminate].
  destruct (lookup p) as [c'|]; cbn [bind]; [|discriminate].
  destruct (ask_model a1 a2 c) as [[content json]|e] eqn:A; cbn [bind].
  - intros [= <-]. cbn [merge analysis_result or_else new_analysis_result].
    exact (ask_model_ok _ _ _ _ _ A).
  - destruct (llm_fallback (selected_date s) c c') as [[content json]|] eqn:F;
      cbn [bind]; [|discriminate].
    intros [= <-]. cbn [merge analysis_result or_else new_analysis_result].
    rewrite (llm_fallback_dict _ _ _ _ _ F). reflexivity.
Qed.

(** The analysis result of a conversation is always a value that reads
    back from its text. *)
Lemma reachable_result_ok (s : State) :
  reachable s -> json_ok (analysis_result s) = true.
Proof.
  induction 1 as [|s s' _ IH St]; [reflexivity|].
  destruct St as [s0 input r H | s0 input a r H | s0 a1 a2 r H].
  - change (process_input (with_input input s0))
      with (process_input_enhanced (Raise LLMError) (with_input input s0))
      in H.
    rewrite (proj1 (enhanced_messages _ _ _ H)). exact IH.
  - rewrite (proj1 (enhanced_messages _ _ _ H)). exact IH.
  - exact (analyze_keeps_ok _ _ _ _ IH H).
Qed.



(** [save_analysis_to_file] in a conversation: it writes nothing while
    the analysis result is empty, as it is at the start; and the text it
    writes is the JSON of the analysis result, from which the result
    reads back, whether that result came from the model or from a
    fallback. *)
Theorem saved_file_reads_back (s : State) :
  reachable s ->
  save_analysis_to_file initial_state = None /\
  (save_analysis_to_file s = None <-> truthy (analysis_result s) = false) /\
  (forall text, save_analysis_to_file s = Some text ->
     text = dumps (analysis_result s) /\
     loads text = Some (get_analysis_json s)).
Proof.
  intro R. split; [reflexivity|].
  unfold save_analysis_to_file, get_analysis_json.
  destruct (truthy (analysis_result s)).
  - split; [split; discriminate|].
    intros text [= <-]. split; [reflexivity|].
    apply loads_dumps. exact (reachable_result_ok s R).
  - split; [split; reflexivity|]. discriminate.
Qed.

Lemma saved_file_reads_back_witness :
  save_analysis_to_file initial_state = None /\
  (save_analysis_to_file after_yes = None <->
   truthy (analysis_result after_yes) = false) /\
  (forall text, save_analysis_to_file after_yes = Some text ->
     text = dumps (analysis_result after_yes) /\
     loads text = Some (get_analysis_json after_yes)).
Proof.
  apply (saved_file_reads_back after_yes). exact reachable_after_yes.
Defined.

Example sample_session :
  exists state' text,
    main_loop sample_script after_greeting [] 0 = (state', [text], 0%nat) /\
    stage state' = "end" /\ List.length (messages state') = 6%nat /\
    (exists v, loads text = Some v /\
               get v "current_profit" = Some (VNum (PInt 3200))).
Proof.
  do 2 eexists. split; [vm_compute; reflexivity|].
  split; [reflexivity|]. split; [reflexivity|].
  eexists. split; [vm_compute; reflexivity|]. reflexivity.
Qed.

Lemma main_loop_reachable (lines : script) :
  forall (state : State) (files : list string) (errors : nat),
    reachable state -> Forall saved_result files ->
    exists state' files',
      main_loop lines state files errors = (state', files', errors) /\
      reachable state' /\ Forall saved_result files'.
Proof.
  induction lines as [|[user_input [[a a1] a2]] rest IH];
    intros state files errors R F; cbn [main_loop]; [eauto|].
  destruct (stage state =? "end"); [eauto|].
  unfold main_loop_turn.
  destruct (Str.mem (Str.lower user_input) exit_words); [eauto|].
  destruct ((Str.lower user_input =? "save") &&
            truthy (analysis_result state)) eqn:S.
  - apply andb_true_iff in S. destruct S as [_ T].
    unfold save_analysis_to_file, get_analysis_json. rewrite T.
    apply IH; [exact R|]. apply Forall_app. split; [exact F|].
    constructor; [|constructor].
    exists (analysis_result state). split; [exact T|].
    split; [reflexivity|]. apply loads_dumps.
    exact (reachable_result_ok state R).
  - destruct (invoke_reachable state user_input a a1 a2 R) as (s' & I & R').
    rewrite I. apply IH; assumption.
Qed.

(** The main loop, started in a state of a conversation, never comes to
    its handler of exceptions, whatever the user types and whatever the
    model answers: the count of caught exceptions stays at zero.  The
    state it ends in is a state of a conversation, and every text it
    wrote to the file is the JSON of an analysis result that is not
    empty and reads back from it. *)
Theorem session_never_fails (lines : script) (state : State) :
  reachable state ->
  exists state' files,
    main_loop lines state [] 0 = (state', files, 0%nat) /\
    reachable state' /\ Forall saved_result files.
Proof.
  intro R.
  destruct (main_loop_reachable lines state [] 0%nat R (Forall_nil _))
    as (state' & files & E & R' & F).
  exists state', files. split; [exact E|]. split; [exact R'|exact F].
Qed.

Lemma session_never_fails_witness :
  exists state' files,
    main_loop sample_script after_greeting [] 0 = (state', files, 0%nat) /\
    reachable state' /\ Forall saved_result files.
Proof.
  apply (session_never_fails sample_script after_greeting).
  apply (reach_step initial_state); [apply reach_initial|].
  apply (step_input initial_state ""). reflexivity.
Defined.

Lemma main_loop_invoked (s : State) (input : string)
    (answers : answer * answer * answer) (rest : script)
    (files : list string) (errors : nat) :
  reachable s -> stage s <> "end" ->
  Str.mem (Str.lower input) exit_words = false ->
  (Str.lower input =? "save") = false ->
  exists s',
    reachable s' /\ stage s' = next_stage (stage s) (Str.strip input) /\
    main_loop ((input, answers) :: rest) s files errors
      = main_loop rest s' files errors.
Proof.
  intros R N X S. destruct answers as [[a a1] a2].
  destruct (invoke_next_stage s input a a1 a2 R) as (s' & I & R' & St).
  exists s'. split; [exact R'|]. split; [exact St|].
  cbn [main_loop]. unfold main_loop_turn.
  destruct (String.eqb_spec (stage s) "end") as [E|_]; [contradiction|].
  rewrite X, S, I. reflexivity.
Qed.

(** One turn of the main loop at a state whose stage is known. *)
Ltac advance R H St :=
  match goal with
  | |- exists s', main_loop ((?i, ?x) :: ?rest) ?s _ _ = _ /\ _ =>
      let s1 := fresh "s" in
      let R1 := fresh "R" in
      let M := fresh "M" in
      destruct (main_loop_invoked s i x rest [] 0%nat R)
        as (s1 & R1 & St & M);
      [rewrite H; discriminate|reflexivity|reflexivity|];
      rewrite M; clear M; rewrite H in St; cbn in St
  end.

(** A conversation can always be ended.  From every state of a
    conversation at most four lines of the user, chosen by the stage
    alone, bring the main loop to the stage [end], whatever the model
    answers in each turn, with no exception caught on the way. *)
Theorem conversation_can_end
    (s : State) (answers : list (answer * answer * answer)) :
  reachable s ->
  List.length answers = List.length (closing_lines (stage s)) ->
  (List.length (closing_lines (stage s)) <= 4)%nat /\
  exists s',
    main_loop (combine (closing_lines (stage s)) answers) s [] 0
      = (s', [], 0%nat) /\
    stage s' = "end".
Proof.
  intros R L.
  destruct (reachable_well_staged s R) as [I _].
  unfold stages in I. cbn [In] in I.
  assert (End : forall (s0 : State) (l : script),
            stage s0 = "end" -> main_loop l s0 [] 0 = (s0, [], 0%nat)).
  { intros s0 [|[i [[a a1] a2]] l] E; cbn [main_loop]; [reflexivity|].
    rewrite E. reflexivity. }
  repeat destruct I as [I|I]; try contradiction; symmetry in I;
    rewrite I in L |- *; cbn in L |- *; (split; [lia|]).
  - destruct answers as [|x1 [|x2 [|x3 [|x4 [|]]]]]; try discriminate L.
    cbn [combine].
    advance R I St. advance R0 St St0. advance R1 St0 St1.
    advance R2 St1 St2.
    exists s3. split; [apply End; exact St2|exact St2].
  - destruct answers as [|x1 [|x2 [|x3 [|]]]]; try discriminate L.
    cbn [combine].
    advance R I St. advance R0 St St0. advance R1 St0 St1.
    exists s2. split; [apply End; exact St1|exact St1].
  - destruct answers as [|x1 [|x2 [|]]]; try discriminate L.
    cbn [combine].
    advance R I St. advance R0 St St0.
    exists s1. split; [apply End; exact St0|exact St0].
  - destruct answers as [|x1 [|x2 [|]]]; try discriminate L.
    cbn [combine].
    advance R I St. advance R0 St St0.
    exists s1. split; [apply End; exact St0|exact St0].
  - destruct answers as [|x1 [|]]; try discriminate L.
    cbn [combine].
    advance R I St.
    exists s0. split; [apply End; exact St|exact St].
  - destruct answers; [|discriminate L]. cbn [combine].
    exists s. split; [reflexivity|exact I].
Qed.

Lemma conversation_can_end_witness :
  (List.length (closing_lines (stage after_date)) <= 4)%nat /\
  exists s',
    main_loop (combine (closing_lines (stage after_date))
                 [(Ok "Analysing.", Raise LLMError, Ok "{}");
                  (Raise LLMError, Ok "", Ok "")])
      after_date [] 0 = (s', [], 0%nat) /\
    stage s' = "end".
Proof.
  apply (conversation_can_end after_date); [exact reachable_after_date|].
  reflexivity.
Defined.

End MainLoop.
